(** * Ordenate backend: conversation router, fixed expenses and alerts

    A shallow embedding of the parts of [server.js] that decide what a
    message does to the persisted state: the pending-action router, the
    ledger's listing and its positional and last-expense edit and delete,
    the fixed-expense lifecycle with its monthly reminders, the budget and
    financial-health checks, the income re-estimation, the registration of
    several transactions at once and the recipient of a message.

    Conventions of the embedding.
    - A JavaScript string is the list of its UTF-16 code units.
    - [String.prototype.toLowerCase] and PostgreSQL's [LOWER] are taken as
      section variables: nothing is assumed about them except, where a
      statement says so, that lowering leaves a string of ASCII digits as it
      is.  The classifier call and the dispatch on its intent are a section
      variable too.
    - A JavaScript number is a rational or one of NaN, +Infinity, -Infinity
      ([jsnum]); rounding to binary64 and the sign of zero are not modelled.
    - The database is a record of tables, each table a list of rows in
      storage order; a handler takes the [User] row loaded at the start of
      the request (the snapshot the source calls [user]) and the database,
      and returns the new database with the WhatsApp messages it sent.
    - Each [sendWhatsApp] call site is a constructor of [Reply] carrying the
      data that picks the text; the wording itself is not modelled. *)

From Stdlib Require Import ZArith NArith QArith Qround Qabs List Bool String Ascii Lia Lqa.
From Stdlib Require Import Permutation Sorted.
Import ListNotations.

Open Scope Z_scope.

(** ** JavaScript strings *)

Module JsString.

Definition jsstring := list N.

(** An ASCII literal of the source as code units. *)
Definition lit (s : string) : jsstring :=
  map N_of_ascii (list_ascii_of_string s).

(** Code units of the accented letters the source's literals use. *)
Definition i_acute : N := 237%N.
Definition e_acute : N := 233%N.
Definition o_acute : N := 243%N.

(** The class [\s] of a JavaScript regular expression, which is also what
    [trim] strips: WhiteSpace and LineTerminator. *)
Definition isWhiteSpace (c : N) : bool :=
  ((c =? 9) || (c =? 10) || (c =? 11) || (c =? 12) || (c =? 13) || (c =? 32)
   || (c =? 160) || (c =? 5760) || ((8192 <=? c) && (c <=? 8202))
   || (c =? 8232) || (c =? 8233) || (c =? 8239) || (c =? 8287)
   || (c =? 12288) || (c =? 65279))%N.

(** The class [\d]. *)
Definition isDigit (c : N) : bool := ((48 <=? c) && (c <=? 57))%N.

(** The class [\w]. *)
Definition isWordChar (c : N) : bool :=
  (isDigit c || ((65 <=? c) && (c <=? 90)) || ((97 <=? c) && (c <=? 122))
   || (c =? 95))%N.

Fixpoint dropWhile (p : N -> bool) (s : jsstring) : jsstring :=
  match s with
  | [] => []
  | c :: r => if p c then dropWhile p r else s
  end.

Fixpoint takeWhile (p : N -> bool) (s : jsstring) : jsstring :=
  match s with
  | [] => []
  | c :: r => if p c then c :: takeWhile p r else []
  end.

Definition trim (s : jsstring) : jsstring :=
  rev (dropWhile isWhiteSpace (rev (dropWhile isWhiteSpace s))).

Fixpoint str_eqb (a b : jsstring) : bool :=
  match a, b with
  | [], [] => true
  | x :: a', y :: b' => (x =? y)%N && str_eqb a' b'
  | _, _ => false
  end.

(** [eat p s]: [s] without its prefix [p], when it has that prefix. *)
Fixpoint eat (p s : jsstring) : option jsstring :=
  match p with
  | [] => Some s
  | x :: p' =>
      match s with
      | [] => None
      | y :: s' => if (x =? y)%N then eat p' s' else None
      end
  end.

Definition startsWith (s p : jsstring) : bool :=
  match eat p s with Some _ => true | None => false end.

(** [s.includes(p)] *)
Fixpoint includes (s p : jsstring) : bool :=
  startsWith s p ||
  match s with
  | [] => false
  | _ :: r => includes r p
  end.

(** [arr.includes(s)] for an array of strings. *)
Definition oneOf (s : jsstring) (arr : list jsstring) : bool :=
  existsb (str_eqb s) arr.

(** [s.substring(s.indexOf(':') + 1)]: what follows the first colon (the
    whole string when there is none, as [indexOf] is then -1). *)
Fixpoint afterFirstColon_aux (s whole : jsstring) : jsstring :=
  match s with
  | [] => whole
  | c :: r => if (c =? 58)%N then r else afterFirstColon_aux r whole
  end.

Definition afterFirstColon (s : jsstring) : jsstring :=
  afterFirstColon_aux s s.

(** [parseInt] of a string of decimal digits, exact; the source's result is
    a binary64, rounded for more than 15 digits. *)
Definition parseInt (digits : jsstring) : Z :=
  fold_left (fun acc c => 10 * acc + (Z.of_N c - 48)) digits 0.

(** Leftmost match: try the matcher at every position from the left. *)
Fixpoint search {A : Type} (m : jsstring -> option A) (s : jsstring) : option A :=
  match m s with
  | Some a => Some a
  | None =>
      match s with
      | [] => None
      | _ :: r => search m r
      end
  end.

(** The group [(\d{1,2})] at the head of [s], greedy: the captured digits. *)
Definition digits12 (s : jsstring) : option jsstring :=
  match s with
  | d1 :: d2 :: _ =>
      if isDigit d1 then (if isDigit d2 then Some [d1; d2] else Some [d1])
      else None
  | [d1] => if isDigit d1 then Some [d1] else None
  | [] => None
  end.

(** [\s*(\d{1,2})]: no digit is white space, so the greedy star never has to
    give a character back. *)
Definition spacesThenDay (s : jsstring) : option jsstring :=
  digits12 (dropWhile isWhiteSpace s).

(** [/^\d{1,2}$/.test(s)] *)
Definition isOneOrTwoDigits (s : jsstring) : bool :=
  match s with
  | [d1] => isDigit d1
  | [d1; d2] => isDigit d1 && isDigit d2
  | _ => false
  end.

(** ASCII lowering, the instance of [toLowerCase] used on concrete ASCII
    messages. *)
Definition asciiLowerUnit (c : N) : N :=
  if ((65 <=? c) && (c <=? 90))%N then (c + 32)%N else c.

Definition asciiToLowerCase (s : jsstring) : jsstring := map asciiLowerUnit s.

End JsString.

Import JsString.

(** ** JavaScript numbers *)

Module JsNum.

Inductive jsnum : Type :=
| Fin (q : Q)
| NaN
| PInf
| NInf.

Definition Qsign (q : Q) : Z := Z.sgn (Qnum q).

Definition Qltb (a b : Q) : bool :=
  match Qcompare a b with Lt => true | _ => false end.

Definition Qleb (a b : Q) : bool :=
  match Qcompare a b with Gt => false | _ => true end.

Definition ofZ (z : Z) : jsnum := Fin (inject_Z z).

Definition jsneg (a : jsnum) : jsnum :=
  match a with
  | Fin q => Fin (- q)
  | NaN => NaN
  | PInf => NInf
  | NInf => PInf
  end.

Definition jsadd (a b : jsnum) : jsnum :=
  match a, b with
  | NaN, _ | _, NaN => NaN
  | Fin x, Fin y => Fin (x + y)
  | PInf, NInf | NInf, PInf => NaN
  | PInf, _ | _, PInf => PInf
  | NInf, _ | _, NInf => NInf
  end.

Definition jssub (a b : jsnum) : jsnum := jsadd a (jsneg b).

(** An infinity with the sign of [s] times the sign of the infinity;
    [0 * Infinity] is NaN. *)
Definition infBySign (s : Z) (positive : bool) : jsnum :=
  match s with
  | Z0 => NaN
  | Zpos _ => if positive then PInf else NInf
  | Zneg _ => if positive then NInf else PInf
  end.

Definition jsmul (a b : jsnum) : jsnum :=
  match a, b with
  | NaN, _ | _, NaN => NaN
  | Fin x, Fin y => Fin (x * y)
  | Fin x, PInf | PInf, Fin x => infBySign (Qsign x) true
  | Fin x, NInf | NInf, Fin x => infBySign (Qsign x) false
  | PInf, PInf | NInf, NInf => PInf
  | PInf, NInf | NInf, PInf => NInf
  end.

(** Division: [x / 0] is an infinity with the sign of [x] (the zero is
    taken positive), [0 / 0] is NaN. *)
Definition jsdiv (a b : jsnum) : jsnum :=
  match a, b with
  | NaN, _ | _, NaN => NaN
  | Fin x, Fin y =>
      if Qeq_bool y 0 then infBySign (Qsign x) true else Fin (x / y)
  | Fin _, PInf | Fin _, NInf => Fin 0
  | PInf, Fin y => if Z.ltb (Qsign y) 0 then NInf else PInf
  | NInf, Fin y => if Z.ltb (Qsign y) 0 then PInf else NInf
  | PInf, PInf | PInf, NInf | NInf, PInf | NInf, NInf => NaN
  end.

(** [a < b]; every comparison with NaN is false. *)
Definition jslt (a b : jsnum) : bool :=
  match a, b with
  | NaN, _ | _, NaN => false
  | Fin x, Fin y => Qltb x y
  | NInf, NInf | PInf, _ => false
  | NInf, _ => true
  | Fin _, PInf => true
  | Fin _, NInf => false
  end.

(** [a <= b] *)
Definition jsle (a b : jsnum) : bool :=
  match a, b with
  | NaN, _ | _, NaN => false
  | Fin x, Fin y => Qleb x y
  | NInf, _ | _, PInf => true
  | PInf, _ | Fin _, NInf => false
  end.

Definition jsgt (a b : jsnum) : bool := jslt b a.
Definition jsge (a b : jsnum) : bool := jsle b a.

(** [!a]: zero and NaN are falsy. *)
Definition falsy (a : jsnum) : bool :=
  match a with
  | Fin q => Qeq_bool q 0
  | NaN => true
  | PInf | NInf => false
  end.

(** [Math.round] on a rational: the integer nearest, halves upwards. *)
Definition Math_round (q : Q) : Z := Qfloor (q + (1 # 2)).

Definition jsround (a : jsnum) : jsnum :=
  match a with
  | Fin q => ofZ (Math_round q)
  | _ => a
  end.

(** [Math.max(a, b)] *)
Definition jsmax (a b : jsnum) : jsnum :=
  match a, b with
  | NaN, _ | _, NaN => NaN
  | _, _ => if jslt a b then b else a
  end.

(** [parseFloat] of a numeric column: NULL parses to NaN. *)
Definition parseFloat (v : option Q) : jsnum :=
  match v with
  | Some q => Fin q
  | None => NaN
  end.

End JsNum.

Import JsNum.

(** ** Calendar dates and the persisted data *)

Record Date : Type := mkDate { year : Z; month : Z; day : Z }.

(** Months counted from year 0; with months in 1..12 a date is on or after
    the first of the month of [today] exactly when its index is not
    smaller. *)
Definition monthIndex (d : Date) : Z := year d * 12 + (month d - 1).

(** [date >= date_trunc('month', CURRENT_DATE)] *)
Definition sinceMonthStart (today d : Date) : bool :=
  monthIndex today <=? monthIndex d.

Definition date_eqb (a b : Date) : bool :=
  (year a =? year b) && (month a =? month b) && (day a =? day b).

Inductive ExpenseType : Type := fixed | variable.

Record User : Type := mkUser {
  u_id : Z;
  u_phone : jsstring;
  u_name : option jsstring;
  onboarding_complete : bool;
  monthly_income : option Q;
  savings_goal : option Q;
  last_income_update_prompt : option Z;   (* epoch milliseconds *)
  income_update_declined : bool;
  pending_fixed_expense_id : option Z;
  last_shown_tx_ids : option (list Z)     (* the JSON array, parsed *)
}.

Record Category : Type := mkCategory {
  c_id : Z;
  c_name : jsstring;
  c_emoji : option jsstring
}.

Record Transaction : Type := mkTransaction {
  t_id : Z;
  t_user_id : Z;
  t_amount : Q;
  t_category_id : option Z;
  t_description : jsstring;
  t_date : Date;
  t_is_income : bool;
  t_expense_type : ExpenseType;
  t_fixed_expense_id : option Z;
  t_created_at : Z                        (* epoch milliseconds *)
}.

Record FixedExpense : Type := mkFixedExpense {
  fe_id : Z;
  fe_user_id : Z;
  fe_description : jsstring;
  fe_typical_amount : Q;
  fe_category_id : option Z;
  fe_reminder_day : option Z;
  fe_is_active : bool
}.

Record Budget : Type := mkBudget {
  b_user_id : Z;
  b_category_id : Z;
  b_monthly_limit : Q
}.

Record FinancialAlert : Type := mkFinancialAlert {
  fa_user_id : Z;
  fa_alert_type : jsstring;
  fa_alert_date : Date
}.

Record Db : Type := mkDb {
  users : list User;
  transactions : list Transaction;
  fixed_expenses : list FixedExpense;
  budgets : list Budget;
  categories : list Category;
  financial_alerts : list FinancialAlert;
  next_transaction_id : Z;                (* the SERIAL sequences *)
  next_fixed_expense_id : Z
}.

(** What a request reads from outside the database. *)
Record Clock : Type := mkClock {
  now : Z;                                (* Date.now(), NOW() *)
  today : Date;                           (* CURRENT_DATE *)
  dayOfMonth : Z;                         (* new Date().getDate() *)
  daysInMonth : Z
}.

Definition opt_Z_eqb (a b : option Z) : bool :=
  match a, b with
  | Some x, Some y => x =? y
  | None, None => true
  | _, _ => false
  end.

Definition set_users (db : Db) (us : list User) : Db :=
  mkDb us (transactions db) (fixed_expenses db) (budgets db) (categories db)
       (financial_alerts db) (next_transaction_id db) (next_fixed_expense_id db).

Definition set_transactions (db : Db) (ts : list Transaction) : Db :=
  mkDb (users db) ts (fixed_expenses db) (budgets db) (categories db)
       (financial_alerts db) (next_transaction_id db) (next_fixed_expense_id db).

Definition set_fixed_expenses (db : Db) (fs : list FixedExpense) : Db :=
  mkDb (users db) (transactions db) fs (budgets db) (categories db)
       (financial_alerts db) (next_transaction_id db) (next_fixed_expense_id db).

Definition set_budgets (db : Db) (bs : list Budget) : Db :=
  mkDb (users db) (transactions db) (fixed_expenses db) bs (categories db)
       (financial_alerts db) (next_transaction_id db) (next_fixed_expense_id db).

Definition set_financial_alerts (db : Db) (fa : list FinancialAlert) : Db :=
  mkDb (users db) (transactions db) (fixed_expenses db) (budgets db)
       (categories db) fa (next_transaction_id db) (next_fixed_expense_id db).

(** [UPDATE users SET ... WHERE id = $1] *)
Definition update_user (db : Db) (userId : Z) (f : User -> User) : Db :=
  set_users db
    (map (fun u => if u_id u =? userId then f u else u) (users db)).

Definition with_pending (p : option Z) (u : User) : User :=
  mkUser (u_id u) (u_phone u) (u_name u) (onboarding_complete u)
         (monthly_income u) (savings_goal u) (last_income_update_prompt u)
         (income_update_declined u) p (last_shown_tx_ids u).

Definition with_last_shown (l : option (list Z)) (u : User) : User :=
  mkUser (u_id u) (u_phone u) (u_name u) (onboarding_complete u)
         (monthly_income u) (savings_goal u) (last_income_update_prompt u)
         (income_update_declined u) (pending_fixed_expense_id u) l.

Definition with_income_prompt (t : option Z) (u : User) : User :=
  mkUser (u_id u) (u_phone u) (u_name u) (onboarding_complete u)
         (monthly_income u) (savings_goal u) t
         (income_update_declined u) (pending_fixed_expense_id u)
         (last_shown_tx_ids u).

Definition with_income (income : option Q) (declined : bool) (u : User) : User :=
  mkUser (u_id u) (u_phone u) (u_name u) (onboarding_complete u)
         income (savings_goal u) (last_income_update_prompt u)
         declined (pending_fixed_expense_id u) (last_shown_tx_ids u).

Definition with_declined (declined : bool) (u : User) : User :=
  with_income (monthly_income u) declined u.

Definition find_user (db : Db) (userId : Z) : option User :=
  find (fun u => u_id u =? userId) (users db).

(** [setPendingFixedExpense] *)
Definition setPendingFixedExpense (db : Db) (userId fixedExpenseId : Z) : Db :=
  update_user db userId (with_pending (Some fixedExpenseId)).

(** [clearPendingFixedExpense] *)
Definition clearPendingFixedExpense (db : Db) (userId : Z) : Db :=
  update_user db userId (with_pending None).

(** [setLastShownTxIds] *)
Definition setLastShownTxIds (db : Db) (userId : Z) (txIds : list Z) : Db :=
  update_user db userId (with_last_shown (Some txIds)).

(** [getLastShownTxIds]: null when the user row or the column is missing. *)
Definition getLastShownTxIds (db : Db) (userId : Z) : option (list Z) :=
  match find_user db userId with
  | Some u => last_shown_tx_ids u
  | None => None
  end.

(** The integer encodings of the pending actions stored in
    [users.pending_fixed_expense_id]. *)
Definition PENDING_BULK_REMINDER : Z := -999.
Definition PENDING_ACCOUNT_DELETION : Z := -998.
Definition pendingTransactionEdit (txId : Z) : Z := -2000 - txId.
Definition pendingMarkAsFixedSuggestion (transactionId : Z) : Z := - transactionId.
Definition pendingFixedExpense (fixedExpenseId : Z) : Z := fixedExpenseId.

(** ** The reminder-day patterns of [extractReminderDay] *)

(** [/^(\d{1,2})$/] *)
Definition pattern_only_number (s : jsstring) : option jsstring :=
  if isOneOrTwoDigits s then Some s else None.

(** [/d[ií]a\s*(\d{1,2})/] *)
Definition pattern_dia (s : jsstring) : option jsstring :=
  search (fun t =>
    match eat (lit "d") t with
    | Some (c :: r) =>
        if ((c =? 105) || (c =? i_acute))%N then
          match eat (lit "a") r with
          | Some r' => spacesThenDay r'
          | None => None
          end
        else None
    | _ => None
    end) s.

(** [/el\s*(\d{1,2})/] *)
Definition pattern_el (s : jsstring) : option jsstring :=
  search (fun t =>
    match eat (lit "el") t with
    | Some r => spacesThenDay r
    | None => None
    end) s.

(** [/cada\s*(\d{1,2})/] *)
Definition pattern_cada (s : jsstring) : option jsstring :=
  search (fun t =>
    match eat (lit "cada") t with
    | Some r => spacesThenDay r
    | None => None
    end) s.

(** [/los?\s*(\d{1,2})/]: the optional [s] is tried first and given back
    when the rest does not match. *)
Definition pattern_los (s : jsstring) : option jsstring :=
  search (fun t =>
    match eat (lit "lo") t with
    | Some r =>
        match (match eat (lit "s") r with
               | Some r' => spacesThenDay r'
               | None => None
               end) with
        | Some d => Some d
        | None => spacesThenDay r
        end
    | None => None
    end) s.

Definition reminderDayPatterns : list (jsstring -> option jsstring) :=
  [pattern_only_number; pattern_dia; pattern_el; pattern_cada; pattern_los].

(** The [for (const pattern of patterns)] loop: the first pattern that
    matches with a day in 1..31 returns it; a match out of range goes on to
    the next pattern. *)
Fixpoint extractReminderDay_loop (ps : list (jsstring -> option jsstring))
    (cleaned : jsstring) : option Z :=
  match ps with
  | [] => None
  | p :: ps' =>
      match p cleaned with
      | Some m1 =>
          let day := parseInt m1 in
          if (1 <=? day) && (day <=? 31) then Some day
          else extractReminderDay_loop ps' cleaned
      | None => extractReminderDay_loop ps' cleaned
      end
  end.

(** ** The amount patterns of [extractAmount] *)

(** [\b]: exactly one of the code unit before and the code unit after is a
    word character. *)
Definition wordBoundary (prev : option N) (s : jsstring) : bool :=
  xorb (match prev with Some c => isWordChar c | None => false end)
       (match s with c :: _ => isWordChar c | [] => false end).

(** Leftmost match for a pattern that looks at the code unit before the
    position it starts at. *)
Fixpoint searchPrev {A : Type} (m : option N -> jsstring -> option A)
    (prev : option N) (s : jsstring) : option A :=
  match m prev s with
  | Some a => Some a
  | None =>
      match s with
      | [] => None
      | c :: r => searchPrev m (Some c) r
      end
  end.

(** An alternation of literals followed by the rest of the pattern [k]:
    the alternatives are tried in order, the next one when the rest fails. *)
Fixpoint tryAlternatives (alts : list jsstring) (k : jsstring -> bool)
    (s : jsstring) : bool :=
  match alts with
  | [] => false
  | a :: alts' =>
      match eat a s with
      | Some r => k r || tryAlternatives alts' k s
      | None => tryAlternatives alts' k s
      end
  end.

(** [\b] after a literal that ends in a letter. *)
Definition atWordEnd (rest : jsstring) : bool :=
  match rest with
  | [] => true
  | c :: _ => negb (isWordChar c)
  end.

(** [/\b(f1|f2)\s*(s1|s2)\b/.test(cleaned)], every literal starting and
    ending with a word character. *)
Definition matchesWords (firsts seconds : list jsstring) (cleaned : jsstring) : bool :=
  match searchPrev
          (fun prev t =>
             if wordBoundary prev t &&
                tryAlternatives firsts
                  (fun r => tryAlternatives seconds atWordEnd
                              (dropWhile isWhiteSpace r)) t
             then Some tt else None)
          None cleaned with
  | Some _ => true
  | None => false
  end.

(** [/(\d+)\s*(u1|u2|...)/]: the digits captured by the leftmost match.  A
    shorter run of digits is followed by a digit, which starts no unit, so
    the greedy [\d+] decides. *)
Definition numberThenUnit (units : list jsstring) (cleaned : jsstring) : option jsstring :=
  search (fun t =>
            match takeWhile isDigit t with
            | [] => None
            | ds =>
                if tryAlternatives units (fun _ => true)
                     (dropWhile isWhiteSpace (dropWhile isDigit t))
                then Some ds else None
            end) cleaned.

(** [/(\d+)/] *)
Definition firstNumber (cleaned : jsstring) : option jsstring :=
  search (fun t =>
            match takeWhile isDigit t with
            | [] => None
            | ds => Some ds
            end) cleaned.

(** [.replace(/\$/g, '').replace(/\./g, '').replace(/,/g, '')] *)
Definition stripMoneyMarks (s : jsstring) : jsstring :=
  filter (fun c => negb ((c =? 36) || (c =? 46) || (c =? 44))%N) s.

(** [extractAmount] on the lowered text.  [parseInt] is exact here; the
    source rounds digit runs beyond 2^53. *)
Definition extractAmount_cleaned (cleaned : jsstring) : option Z :=
  if matchesWords [lit "un"; lit "1"] [lit "millon"] cleaned then Some 1000000
  else if matchesWords [lit "dos"; lit "2"] [lit "millones"; lit "millone"] cleaned
  then Some 2000000
  else if matchesWords [lit "tres"; lit "3"] [lit "millones"; lit "millone"] cleaned
  then Some 3000000
  else if matchesWords [lit "medio"] [lit "millon"] cleaned then Some 500000
  else if matchesWords [lit "una"; lit "1"] [lit "luca"; lit "lucas"] cleaned
  then Some 1000
  else
    match numberThenUnit [lit "lucas"; lit "luca"; lit "lukas"; lit "mil"; lit "k"]
            cleaned with
    | Some m1 => Some (parseInt m1 * 1000)
    | None =>
        match numberThenUnit [lit "palo"; lit "palos"; lit "millon"; lit "millones"]
                cleaned with
        | Some m1 => Some (parseInt m1 * 1000000)
        | None =>
            match firstNumber cleaned with
            | Some m1 => Some (parseInt m1)
            | None => None
            end
        end
    end.

(** ** Outbound messages *)

Inductive HealthAlert : Type := high_spending | savings_risk | category_high.

(** The tip appended to a financial-health alert: the text the advice call
    returned, or the fallback naming the top category. *)
Inductive Advice : Type :=
| AdviceText (text : jsstring)
| AdviceFallback (topCategory : jsstring).

Inductive Badge : Type := BadgeOver | BadgeWarn | BadgeHalf | BadgeOk.

Record BudgetLine : Type := mkBudgetLine {
  bl_name : jsstring;
  bl_limit : jsnum;
  bl_spent : jsnum;
  bl_percentage : jsnum;
  bl_badge : Badge;
  bl_available : jsnum
}.

Inductive Reply : Type :=
(* handleFixedExpenseReminderResponse *)
| MsgNoActiveFixedExpenses
| MsgAllAlreadyRegistered (skipped : list FixedExpense)
| MsgRegistered (registered : list FixedExpense) (total : Q) (skipped : list FixedExpense)
| MsgAdjustAmounts
| MsgSkipMonth
(* checkFinancialHealth *)
| MsgFinancialHealth (alertType : HealthAlert) (topCategory : jsstring) (advice : Advice)
(* handleEditExpense, handleDeleteExpense *)
| MsgIndicateNumber
| MsgNoSuchExpense (index : Z)
| MsgExpenseNotFound (index : Z)
| MsgEditing (index : Z) (tx : Transaction)
| MsgDeleted (index : Z) (tx : Transaction)
(* handleBudgetStatus, checkBudgetAlerts *)
| MsgNoBudgets
| MsgBudgetStatus (lines : list BudgetLine) (totalBudget totalSpent aggregate : jsnum)
| MsgBudgetExceeded (category : jsstring) (spent budget : jsnum)
| MsgBudgetWarning (category : jsstring) (percentage : jsnum)
(* checkIncomeUpdatePrompt, handleIncomeUpdateResponse *)
| MsgIncomeUpdatePrompt (currentIncome : Q) (suggested : Z)
| MsgIncomeUpdated (newIncome : Z)
| MsgIncomeKept (income : option Q)
(* handleMarkAsFixed *)
| MsgNoRecentExpense
| MsgAskReminderDay
| MsgNothingToMarkFixed
| MsgExpenseGone
| MsgAlreadyFixed (description : jsstring)
| MsgMarkedAsFixed (description : jsstring)
(* processUserMessage *)
| MsgAccountDeleted
| MsgDeletionCancelled
| MsgDeletionReprompt
| MsgEditCancelled
| MsgEditDeleted (tx : Transaction)
| MsgEditTransactionNotFound
| MsgDescriptionUpdated (newDesc : jsstring)
| MsgDescriptionMissing
| MsgAmountUpdated (newAmount : Z)
| MsgEditReprompt
| MsgCancelled
| MsgReminderRemoved
| MsgReminderConfigured (day : Z)
| MsgFixedExpenseUpdated (amount : option Z) (day : option Z)
| MsgReminderReprompt
(* the catch of processUserMessage *)
| MsgProblem.

(** A [sendWhatsApp(to, message)] call. *)
Definition Sent : Type := (jsstring * Reply)%type.

Definition Qsum (l : list Q) : Q := fold_left Qplus l 0%Q.

(** Insertion sort, for the ORDER BY clauses; rows that compare equal keep
    their storage order. *)
Fixpoint insertBy {A : Type} (leb : A -> A -> bool) (x : A) (l : list A) : list A :=
  match l with
  | [] => [x]
  | y :: r => if leb x y then x :: l else y :: insertBy leb x r
  end.

Definition sortBy {A : Type} (leb : A -> A -> bool) (l : list A) : list A :=
  fold_right (insertBy leb) [] l.

(** Order of strings by code units, standing for the collation of the
    database. *)
Fixpoint str_leb (a b : jsstring) : bool :=
  match a, b with
  | [], _ => true
  | _ :: _, [] => false
  | x :: a', y :: b' => (x <? y)%N || ((x =? y)%N && str_leb a' b')
  end.

(** [ORDER BY fe.reminder_day NULLS LAST, fe.description] *)
Definition fixedExpense_leb (a b : FixedExpense) : bool :=
  match fe_reminder_day a, fe_reminder_day b with
  | Some x, Some y => (x <? y) || ((x =? y) && str_leb (fe_description a) (fe_description b))
  | Some _, None => true
  | None, Some _ => false
  | None, None => str_leb (fe_description a) (fe_description b)
  end.

(** [getFixedExpenses(userId, onlyActive)].  Rows equal on both keys of the
    ORDER BY keep their storage order here; the query leaves their order
    open. *)
Definition getFixedExpenses (db : Db) (userId : Z) (onlyActive : bool) : list FixedExpense :=
  sortBy fixedExpense_leb
    (filter (fun fe => (fe_user_id fe =? userId) &&
                       (if onlyActive then fe_is_active fe else true))
            (fixed_expenses db)).

(** [INSERT INTO transactions ...]: the row takes the next id of the
    sequence. *)
Definition insertTransaction (db : Db) (row : Z -> Transaction) : Db :=
  mkDb (users db) (transactions db ++ [row (next_transaction_id db)])
       (fixed_expenses db) (budgets db) (categories db) (financial_alerts db)
       (next_transaction_id db + 1) (next_fixed_expense_id db).

(** The transaction a fixed expense is registered as. *)
Definition fixedExpenseTransaction (clock : Clock) (userId : Z) (expense : FixedExpense)
    (id : Z) : Transaction :=
  mkTransaction id userId (fe_typical_amount expense) (fe_category_id expense)
                (fe_description expense) (today clock) false fixed
                (Some (fe_id expense)) (now clock).

(** The duplicate check of the register-all loop: a transaction of the user
    linked to the fixed expense and dated in the current month or later. *)
Definition existingCheck (db : Db) (clock : Clock) (userId fixedExpenseId : Z) : bool :=
  existsb (fun t => (t_user_id t =? userId) &&
                    opt_Z_eqb (t_fixed_expense_id t) (Some fixedExpenseId) &&
                    sinceMonthStart (today clock) (t_date t))
          (transactions db).

Record RegisterAcc : Type := mkRegisterAcc {
  ra_db : Db;
  ra_total : Q;
  ra_registered : list FixedExpense;
  ra_skipped : list FixedExpense
}.

(** The [for (const expense of fixedExpenses)] loop of the register-all
    branch. *)
Fixpoint registerAll_loop (clock : Clock) (userId : Z) (expenses : list FixedExpense)
    (acc : RegisterAcc) : RegisterAcc :=
  match expenses with
  | [] => acc
  | expense :: rest =>
      if existingCheck (ra_db acc) clock userId (fe_id expense) then
        registerAll_loop clock userId rest
          (mkRegisterAcc (ra_db acc) (ra_total acc) (ra_registered acc)
                         (ra_skipped acc ++ [expense]))
      else
        registerAll_loop clock userId rest
          (mkRegisterAcc
             (insertTransaction (ra_db acc) (fixedExpenseTransaction clock userId expense))
             (ra_total acc + fe_typical_amount expense)%Q
             (ra_registered acc ++ [expense])
             (ra_skipped acc))
  end.

(** [registerFixedExpensesAsTransactions]: inserts one transaction per
    expense without any check; nothing in the source calls it. *)
Fixpoint registerFixedExpensesAsTransactions (clock : Clock) (userId : Z)
    (expenses : list FixedExpense) (db : Db) : Db :=
  match expenses with
  | [] => db
  | expense :: rest =>
      registerFixedExpensesAsTransactions clock userId rest
        (insertTransaction db (fixedExpenseTransaction clock userId expense))
  end.

Definition isRegisterAll (msgLower : jsstring) : bool :=
  includes msgLower (lit "registrar todos") ||
  str_eqb msgLower (lit "registrar") || str_eqb msgLower (lit "todos").

Definition isAdjust (msgLower : jsstring) : bool :=
  includes msgLower (lit "ajustar") || includes msgLower (lit "modificar").

Definition isSkipMonth (msgLower : jsstring) : bool :=
  includes msgLower (lit "saltar") || includes msgLower (lit "skip") ||
  str_eqb msgLower (lit "no").

(** The register-all branch of [handleFixedExpenseReminderResponse]. *)
Definition registerAll (user : User) (db : Db) (clock : Clock) : Db * list Sent :=
  let fixedExpenses := getFixedExpenses db (u_id user) true in
  match fixedExpenses with
  | [] => (clearPendingFixedExpense db (u_id user),
           [(u_phone user, MsgNoActiveFixedExpenses)])
  | _ =>
      let acc := registerAll_loop clock (u_id user) fixedExpenses
                   (mkRegisterAcc db 0%Q [] []) in
      let db' := clearPendingFixedExpense (ra_db acc) (u_id user) in
      match ra_registered acc, ra_skipped acc with
      | [], _ :: _ => (db', [(u_phone user, MsgAllAlreadyRegistered (ra_skipped acc))])
      | _ :: _, _ =>
          (db', [(u_phone user,
                  MsgRegistered (ra_registered acc) (ra_total acc) (ra_skipped acc))])
      | [], [] => (db', [])
      end
  end.

(** One expense written and checked: the transaction is inserted and
    [checkFinancialHealth] runs on the user row of that request. *)
Record ExpenseEvent : Type := mkExpenseEvent {
  ev_user : User;
  ev_row : Z -> Transaction;
  ev_clock : Clock;
  ev_response : option jsstring
}.

(** ** Messages of the ledger, fixed-expense and reminder handlers *)

Inductive LedgerReply : Type :=
(* handleListMyExpenses *)
| LgNoExpensesThisMonth
| LgExpenseList (rows : list Transaction)
(* handleEditLastExpense, handleDeleteLastExpense *)
| LgNoRecentToEdit
| LgEditingLast (tx : Transaction)
| LgNoRecentToDelete
| LgDeletedLast (tx : Transaction)
(* handleMultipleTransactions *)
| LgNotIdentified
| LgNoneRegistered
| LgBatchRegistered (count : nat) (anyIncome : bool) (total : Q).

Inductive FixedReply : Type :=
(* handleEditFixedExpense *)
| FxIndicateToEdit
| FxNoSuchFixed (index : Z) (count : nat)
| FxEditing (expense : FixedExpense)
(* handlePauseFixedExpense, handleActivateFixedExpense *)
| FxIndicateToPause
| FxAlreadyPaused (expense : FixedExpense) (index : Z)
| FxPaused (expense : FixedExpense) (index : Z)
| FxIndicateToActivate
| FxAlreadyActive (expense : FixedExpense)
| FxActivated (expense : FixedExpense)
(* handleSetReminderDay *)
| FxDayOutOfRange
| FxNoPendingFixedExpense
| FxReminderDaySet (day : Z)
(* sendFixedExpenseReminders *)
| FxMonthlyReminder (name : option jsstring) (expenses : list FixedExpense) (total : Q).

(** An entry of [data.transactions] in a MULTIPLE_TRANSACTIONS intent; a
    field the classifier left out is [None]. *)
Record TxEntry : Type := mkTxEntry {
  e_amount : option Q;
  e_category : option jsstring;
  e_description : option jsstring;
  e_is_income : option bool
}.

(** ** Concrete data for the scenarios *)

Module Scenario.

Definition phone : jsstring := lit "56911112222".

Definition comida : Category := mkCategory 1 (lit "comida") None.
Definition transporte : Category := mkCategory 2 (lit "transporte") None.

Definition march (d : Z) : Date := mkDate 2026 3 d.

(** The 15th of March 2026, noon UTC. *)
Definition clock15 : Clock := mkClock 1773576000000 (march 15) 15 31.

(** Later on the same day. *)
Definition clock15_later : Clock := mkClock 1773583200000 (march 15) 15 31.

(** A user who completed onboarding with the given income and goal. *)
Definition userWith (income goal : Z) (pending : option Z) (shown : option (list Z)) : User :=
  mkUser 1 phone (Some (lit "Ana")) true (Some (inject_Z income)) (Some (inject_Z goal))
         None false pending shown.

Definition expense (id : Z) (amount : Z) (categoryId : Z) (description : jsstring)
    (d : Date) (createdAt : Z) : Transaction :=
  mkTransaction id 1 (inject_Z amount) (Some categoryId) description d false variable
                None createdAt.

Definition incomeTx (id : Z) (amount : Z) (d : Date) : Transaction :=
  mkTransaction id 1 (inject_Z amount) None (lit "sueldo") d true variable None 0.

(** Income 800000, goal 100000, and 560000 spent this month, all of it on
    food. *)
Definition healthUser : User := userWith 800000 100000 None None.

Definition healthDb : Db :=
  mkDb [healthUser]
       [expense 1 300000 1 (lit "supermercado") (march 3) 1772539200000;
        expense 2 260000 1 (lit "restaurant") (march 10) 1773144000000]
       [] [] [comida; transporte] [] 3 1.

(** One budget with limit 0 on food, and nothing spent this month. *)
Definition zeroBudgetDb : Db :=
  mkDb [healthUser] [] [] [mkBudget 1 1 0%Q] [comida; transporte] [] 1 1.

(** The same budget after 5000 spent on food. *)
Definition zeroBudgetSpentDb : Db :=
  mkDb [healthUser] [expense 1 5000 1 (lit "almuerzo") (march 14) 1773489600000]
       [] [mkBudget 1 1 0%Q] [comida; transporte] [] 2 1.

(** Declared income 500000; income of 600000, 650000 and 700000 in the
    three months before March 2026. *)
Definition incomeUser : User := userWith 500000 50000 None None.

Definition incomeDb : Db :=
  mkDb [incomeUser]
       [incomeTx 1 600000 (mkDate 2025 12 5);
        incomeTx 2 650000 (mkDate 2026 1 5);
        incomeTx 3 700000 (mkDate 2026 2 5)]
       [] [] [comida; transporte] [] 4 1.

(** A user who has just recorded transaction 2001, a subscription the
    suggestion heuristic asks about; transaction 1 is an older expense of
    the same user. *)
Definition suggestionUser : User :=
  userWith 800000 100000 (Some (pendingMarkAsFixedSuggestion 2001)) None.

Definition suggestionDb : Db :=
  mkDb [suggestionUser]
       [expense 1 5000 1 (lit "almuerzo") (march 2) 1772452800000;
        expense 2001 8990 2 (lit "netflix") (march 15) 1773575990000]
       [] [] [comida; transporte] [] 2002 1.

(** The monthly reminder was sent: rent and electricity are active, the
    gym is paused, and electricity was already registered on the 4th. *)
Definition reminderUser : User := userWith 800000 100000 (Some PENDING_BULK_REMINDER) None.

Definition arriendo : FixedExpense :=
  mkFixedExpense 1 1 (lit "arriendo") 450000 (Some 2) (Some 5) true.
Definition luz : FixedExpense :=
  mkFixedExpense 2 1 (lit "luz") 30000 (Some 2) (Some 5) true.
Definition gimnasio : FixedExpense :=
  mkFixedExpense 3 1 (lit "gimnasio") 25000 (Some 2) (Some 5) false.

Definition reminderDb : Db :=
  mkDb [reminderUser]
       [mkTransaction 1 1 30000 (Some 2) (lit "luz") (march 4) false fixed (Some 2)
                      1772625600000]
       [arriendo; luz; gimnasio] [] [comida; transporte] [] 2 4.

(** Two more expenses written and checked on the 15th. *)
Definition twoExpenses : list ExpenseEvent :=
  [mkExpenseEvent healthUser
     (fun id => expense id 20000 1 (lit "panaderia") (march 15) 1773576000000)
     clock15 None;
   mkExpenseEvent healthUser
     (fun id => expense id 15000 2 (lit "taxi") (march 15) 1773583200000)
     clock15_later (Some (lit "Cocina en casa esta semana."))].

(** The user was last shown a list with the single transaction 2; the month
    has the transactions 1, 2 and 3, written in that order. *)
Definition positionalUser : User := userWith 800000 100000 None (Some [2]).

Definition tx1 : Transaction := expense 1 5000 1 (lit "almuerzo") (march 2) 1772452800000.
Definition tx2 : Transaction := expense 2 12000 2 (lit "uber") (march 9) 1773057600000.
Definition tx3 : Transaction := expense 3 7000 1 (lit "cafe") (march 12) 1773316800000.

Definition positionalDb : Db :=
  mkDb [positionalUser] [tx1; tx2; tx3] [] [] [comida; transporte] [] 4 1.

(** The suggestion for transaction 7 is pending and Netflix is already an
    active fixed expense. *)
Definition markUser : User :=
  userWith 800000 100000 (Some (pendingMarkAsFixedSuggestion 7)) None.

Definition netflix : FixedExpense :=
  mkFixedExpense 1 1 (lit "Netflix") 8990 (Some 2) (Some 15) true.

Definition tx7 : Transaction := expense 7 8990 2 (lit "netflix") (march 15) 1773575990000.

Definition markDb : Db :=
  mkDb [markUser] [tx7] [netflix] [] [comida; transporte] [] 8 2.

(** Fixed expense 3 awaits its reminder day. *)
Definition dayUser : User := userWith 800000 100000 (Some (pendingFixedExpense 3)) None.

Definition dayDb : Db :=
  mkDb [dayUser] [] [arriendo; luz; gimnasio] [] [comida; transporte] [] 1 4.

(** Income 500000 and a savings goal of the same amount: nothing is left to
    spend. *)
Definition saverUser : User := userWith 500000 500000 None None.

Definition saverDb : Db :=
  mkDb [saverUser] [expense 1 5000 1 (lit "almuerzo") (march 14) 1773489600000]
       [] [] [comida; transporte] [] 2 1.

(** A budget of 100000 on food, and 85000 spent on it this month. *)
Definition foodBudget : Budget := mkBudget 1 1 100000%Q.

Definition budgetDb : Db :=
  mkDb [healthUser] [expense 1 85000 1 (lit "supermercado") (march 3) 1772539200000]
       [] [foodBudget] [comida; transporte] [] 2 1.

End Scenario.

Section Server.

(** [String.prototype.toLowerCase] *)
Variable toLowerCase : jsstring -> jsstring.

(** PostgreSQL's [LOWER] *)
Variable LOWER : jsstring -> jsstring.

(** Steps 4 and 5 of [processUserMessage]: the call to the classifier and
    the handler of the intent it returns. *)
Variable classifyAndDispatch : User -> jsstring -> Db -> Clock -> Db * list Sent.

Definition extractReminderDay (message : jsstring) : option Z :=
  let cleaned := trim (toLowerCase message) in
  extractReminderDay_loop reminderDayPatterns cleaned.

(** [extractAmount] *)
Definition extractAmount (text : jsstring) : option Z :=
  extractAmount_cleaned (stripMoneyMarks (toLowerCase text)).

(** [handleFixedExpenseReminderResponse]: the flag is the handler's return
    value, false when the message was none of the three answers. *)
Definition handleFixedExpenseReminderResponse (user : User) (message : jsstring)
    (db : Db) (clock : Clock) : bool * (Db * list Sent) :=
  let msgLower := trim (toLowerCase message) in
  if isRegisterAll msgLower then (true, registerAll user db clock)
  else if isAdjust msgLower then
    (true, (clearPendingFixedExpense db (u_id user), [(u_phone user, MsgAdjustAmounts)]))
  else if isSkipMonth msgLower then
    (true, (clearPendingFixedExpense db (u_id user), [(u_phone user, MsgSkipMonth)]))
  else (false, (db, [])).

(** *** Income and financial health *)

(** [SUM(amount)] of the user's income dated in month [m]. *)
Definition monthlyIncomeTotal (db : Db) (userId m : Z) : Q :=
  Qsum (map t_amount
          (filter (fun t => (t_user_id t =? userId) && t_is_income t &&
                            (monthIndex (t_date t) =? m))
                  (transactions db))).

(** The subquery shared by the three income queries: the totals of the
    three months before the current one, by month, [HAVING SUM(amount) > 0]
    (a month without rows forms no group). *)
Definition last3MonthsTotals (db : Db) (userId : Z) (today : Date) : list Q :=
  let cur := monthIndex today in
  filter (fun total => Qltb 0 total)
         (map (monthlyIncomeTotal db userId) [cur - 3; cur - 2; cur - 1]).

(** [COALESCE(AVG(monthly_total), 0)] *)
Definition avg_income (totals : list Q) : Q :=
  match totals with
  | [] => 0%Q
  | _ => (Qsum totals / inject_Z (Z.of_nat (List.length totals)))%Q
  end.

(** [COUNT( * )] *)
Definition months_with_income (totals : list Q) : Z := Z.of_nat (List.length totals).

(** Income of the user dated in the current month. *)
Definition currentMonthIncome (db : Db) (userId : Z) (today : Date) : Q :=
  Qsum (map t_amount
          (filter (fun t => (t_user_id t =? userId) && t_is_income t &&
                            sinceMonthStart today (t_date t))
                  (transactions db))).

(** [getEffectiveMonthlyIncome] *)
Definition getEffectiveMonthlyIncome (user : User) (db : Db) (clock : Clock) : jsnum :=
  let currentIncome := Fin (currentMonthIncome db (u_id user) (today clock)) in
  let avgLast3Months := Fin (avg_income (last3MonthsTotals db (u_id user) (today clock))) in
  let baseIncome := jsmax (parseFloat (monthly_income user)) avgLast3Months in
  if jsgt currentIncome (Fin 0) then jsmax baseIncome currentIncome
  else baseIncome.

Record CategorySpend : Type := mkCategorySpend {
  cs_category : Category;
  cs_total : Q
}.

(** The user's expenses of the current month that are of category [c]. *)
Definition monthExpensesOf (db : Db) (userId : Z) (today : Date) (categoryId : Z)
  : list Transaction :=
  filter (fun t => (t_user_id t =? userId) && sinceMonthStart today (t_date t) &&
                   negb (t_is_income t) &&
                   opt_Z_eqb (t_category_id t) (Some categoryId))
         (transactions db).

(** The spending query of [checkFinancialHealth]: one row per category with
    expenses this month, [ORDER BY category_total DESC]. *)
Definition monthSpendingByCategory (db : Db) (userId : Z) (today : Date)
  : list CategorySpend :=
  sortBy (fun a b => Qleb (cs_total b) (cs_total a))
    (flat_map (fun c =>
                 match monthExpensesOf db userId today (c_id c) with
                 | [] => []
                 | txs => [mkCategorySpend c (Qsum (map t_amount txs))]
                 end)
              (categories db)).

Definition FINANCIAL_HEALTH : jsstring := lit "financial_health".

Definition alertKeyMatches (userId : Z) (alertType : jsstring) (d : Date)
    (a : FinancialAlert) : bool :=
  (fa_user_id a =? userId) && str_eqb (fa_alert_type a) alertType &&
  date_eqb (fa_alert_date a) d.

(** The [alertCheck] query. *)
Definition hasAlertToday (db : Db) (userId : Z) (today : Date) : bool :=
  existsb (alertKeyMatches userId FINANCIAL_HEALTH today) (financial_alerts db).

(** Modelled from the spec: the DDL of [financial_alerts] is not in the
    sources; the row takes [alert_date = CURRENT_DATE] by default and
    (user, alert type, day) is unique, which is what
    [ON CONFLICT (user_id, alert_type, alert_date) DO NOTHING] relies on. *)
Definition insertFinancialAlert (db : Db) (userId : Z) (alertType : jsstring)
    (today : Date) : Db :=
  if existsb (alertKeyMatches userId alertType today) (financial_alerts db) then db
  else set_financial_alerts db
         (financial_alerts db ++ [mkFinancialAlert userId alertType today]).

(** [generateFinancialAdvice]: [response] is the text of the advice call,
    [None] when the call throws or comes back empty. *)
Definition generateFinancialAdvice (response : option jsstring) (topCategory : jsstring)
  : Advice :=
  match response with
  | Some text => AdviceText text
  | None => AdviceFallback topCategory
  end.

Definition isSome {A : Type} (o : option A) : bool :=
  match o with Some _ => true | None => false end.

(** The three conditions of [checkFinancialHealth], in the order of the
    source; the second and the third also test [!shouldAlert]. *)
Definition selectHealthAlert
    (percentageUsed projectedSavings savingsGoal topCategoryPercentage : jsnum)
  : option HealthAlert :=
  let alert := None in
  let alert :=
    if jsgt percentageUsed (ofZ 70) && jslt percentageUsed (ofZ 100)
    then Some high_spending else alert in
  let alert :=
    if jslt projectedSavings (jsmul savingsGoal (Fin (8 # 10))) && negb (isSome alert)
    then Some savings_risk else alert in
  let alert :=
    if jsgt topCategoryPercentage (ofZ 30) && negb (isSome alert)
    then Some category_high else alert in
  alert.

(** [checkFinancialHealth].  The percentages are exact here; the source
    computes them in binary64, which can differ when the spending is exactly
    at a threshold (70% can come out as 70.00000000000001). *)
Definition checkFinancialHealth (user : User) (db : Db) (clock : Clock)
    (response : option jsstring) : Db * list Sent :=
  let income := getEffectiveMonthlyIncome user db clock in
  let savingsGoal := parseFloat (savings_goal user) in
  let spendingBudget := jssub income savingsGoal in
  if hasAlertToday db (u_id user) (today clock) then (db, [])
  else
    match monthSpendingByCategory db (u_id user) (today clock) with
    | [] => (db, [])
    | (topCategory :: _) as rows =>
        let totalSpent :=
          fold_left (fun sum row => jsadd sum (Fin (cs_total row))) rows (Fin 0) in
        if falsy spendingBudget || jsle spendingBudget (Fin 0) then (db, [])
        else
          let percentageUsed := jsmul (jsdiv totalSpent spendingBudget) (ofZ 100) in
          let projectedTotal :=
            jsround (jsmul (jsdiv totalSpent (ofZ (dayOfMonth clock)))
                           (ofZ (daysInMonth clock))) in
          let projectedSavings := jsround (jssub income projectedTotal) in
          let topCategoryPercentage :=
            jsmul (jsdiv (Fin (cs_total topCategory)) income) (ofZ 100) in
          match selectHealthAlert percentageUsed projectedSavings savingsGoal
                  topCategoryPercentage with
          | Some alertType =>
              let advice :=
                generateFinancialAdvice response (c_name (cs_category topCategory)) in
              (insertFinancialAlert db (u_id user) FINANCIAL_HEALTH (today clock),
               [(u_phone user,
                 MsgFinancialHealth alertType (c_name (cs_category topCategory)) advice)])
          | None => (db, [])
          end
    end.

(** The number of financial-health records of a user on a day. *)
Definition healthAlertsOn (db : Db) (userId : Z) (d : Date) : nat :=
  List.length (filter (alertKeyMatches userId FINANCIAL_HEALTH d) (financial_alerts db)).

Fixpoint checkAfterEach (events : list ExpenseEvent) (db : Db) : Db * list Sent :=
  match events with
  | [] => (db, [])
  | ev :: rest =>
      let db1 := insertTransaction db (ev_row ev) in
      let '(db2, out) := checkFinancialHealth (ev_user ev) db1 (ev_clock ev) (ev_response ev) in
      let '(db3, outs) := checkAfterEach rest db2 in
      (db3, out ++ outs)
  end.

(** *** Positional edit and delete *)

(** [!index || index < 1], for an index that is absent or an integer. *)
Definition indexMissing (index : option Z) : bool :=
  match index with
  | None => true
  | Some i => (i =? 0) || (i <? 1)
  end.

(** The fallback query: the ids of the user's transactions of the current
    month, [ORDER BY created_at DESC LIMIT 20]. *)
Definition monthTransactionIds (db : Db) (userId : Z) (today : Date) : list Z :=
  map t_id
    (firstn 20
       (sortBy (fun a b => t_created_at b <=? t_created_at a)
          (filter (fun t => (t_user_id t =? userId) &&
                            sinceMonthStart today (t_date t))
                  (transactions db)))).

(** The resolution of a position, the same in [handleEditExpense] and
    [handleDeleteExpense]: the stored list when it is present and long
    enough, the fallback list otherwise; [None] is the "no such expense"
    exit of the fallback. *)
Definition resolvePosition (db : Db) (userId : Z) (today : Date) (index : Z) : option Z :=
  let fallback :=
    let rows := monthTransactionIds db userId today in
    if Z.of_nat (List.length rows) <? index then None
    else Some (nth (Z.to_nat (index - 1)) rows 0) in
  match getLastShownTxIds db userId with
  | Some lastShownIds =>
      if index <=? Z.of_nat (List.length lastShownIds)
      then Some (nth (Z.to_nat (index - 1)) lastShownIds 0)
      else fallback
  | None => fallback
  end.

(** [SELECT ... FROM transactions t WHERE t.id = $1 AND t.user_id = $2] *)
Definition findTransaction (db : Db) (txId userId : Z) : option Transaction :=
  find (fun t => (t_id t =? txId) && (t_user_id t =? userId)) (transactions db).

(** [DELETE FROM transactions WHERE id = $1 AND user_id = $2] *)
Definition deleteTransaction (db : Db) (txId userId : Z) : Db :=
  set_transactions db
    (filter (fun t => negb ((t_id t =? txId) && (t_user_id t =? userId)))
            (transactions db)).

(** [handleEditExpense] *)
Definition handleEditExpense (user : User) (index : option Z) (db : Db) (clock : Clock)
  : Db * list Sent :=
  match index with
  | Some i =>
      if indexMissing index then (db, [(u_phone user, MsgIndicateNumber)])
      else
        match resolvePosition db (u_id user) (today clock) i with
        | None => (db, [(u_phone user, MsgNoSuchExpense i)])
        | Some txId =>
            match findTransaction db txId (u_id user) with
            | None => (db, [(u_phone user, MsgExpenseNotFound i)])
            | Some tx =>
                (update_user db (u_id user)
                   (with_pending (Some (pendingTransactionEdit (t_id tx)))),
                 [(u_phone user, MsgEditing i tx)])
            end
        end
  | None => (db, [(u_phone user, MsgIndicateNumber)])
  end.

(** [handleDeleteExpense] *)
Definition handleDeleteExpense (user : User) (index : option Z) (db : Db) (clock : Clock)
  : Db * list Sent :=
  match index with
  | Some i =>
      if indexMissing index then (db, [(u_phone user, MsgIndicateNumber)])
      else
        match resolvePosition db (u_id user) (today clock) i with
        | None => (db, [(u_phone user, MsgNoSuchExpense i)])
        | Some txId =>
            match findTransaction db txId (u_id user) with
            | None => (db, [(u_phone user, MsgExpenseNotFound i)])
            | Some tx =>
                (deleteTransaction db (t_id tx) (u_id user),
                 [(u_phone user, MsgDeleted i tx)])
            end
        end
  | None => (db, [(u_phone user, MsgIndicateNumber)])
  end.

(** Position [n] (from 1) of the list the handlers resolve against holds
    [txId]: the stored list when present and long enough, the fallback list
    otherwise. *)
Definition atPosition (db : Db) (userId : Z) (today : Date) (n txId : Z) : Prop :=
  (exists shown, getLastShownTxIds db userId = Some shown /\
                 n <= Z.of_nat (List.length shown) /\
                 nth_error shown (Z.to_nat (n - 1)) = Some txId) \/
  ((forall shown, getLastShownTxIds db userId = Some shown ->
                  Z.of_nat (List.length shown) < n) /\
   nth_error (monthTransactionIds db userId today) (Z.to_nat (n - 1)) = Some txId).

(** The outcomes that change nothing and tell the user so. *)
Definition notFoundReply (n : Z) (r : Reply) : Prop :=
  r = MsgNoSuchExpense n \/ r = MsgExpenseNotFound n.

(** *** Budgets *)

(** [budgets b JOIN categories c ON b.category_id = c.id WHERE b.user_id = $1] *)
Definition budgetsWithCategory (db : Db) (userId : Z) : list (Budget * Category) :=
  flat_map (fun b =>
              if b_user_id b =? userId
              then map (fun c => (b, c))
                       (filter (fun c => c_id c =? b_category_id b) (categories db))
              else [])
           (budgets db).

(** The spending of the month in a category: [SUM(amount)] of the user's
    expenses, 0 when there is none ([spendingMap[id] || 0], [total || 0]). *)
Definition monthSpent (db : Db) (userId : Z) (today : Date) (categoryId : Z) : Q :=
  Qsum (map t_amount (monthExpensesOf db userId today categoryId)).

(** [(limit > 0) ? (spent / limit) * 100 : 0] *)
Definition budgetPercentage (spent limit : jsnum) : jsnum :=
  if jsgt limit (Fin 0) then jsmul (jsdiv spent limit) (ofZ 100) else Fin 0.

Definition badgeOf (percentage : jsnum) : Badge :=
  if jsge percentage (ofZ 100) then BadgeOver
  else if jsge percentage (ofZ 80) then BadgeWarn
  else if jsge percentage (ofZ 50) then BadgeHalf
  else BadgeOk.

Record StatusAcc : Type := mkStatusAcc {
  sa_lines : list BudgetLine;
  sa_totalBudget : jsnum;
  sa_totalSpent : jsnum
}.

(** The [for (const budget of budgetsResult.rows)] loop of
    [handleBudgetStatus]. *)
Fixpoint budgetStatus_loop (db : Db) (userId : Z) (today : Date)
    (rows : list (Budget * Category)) (acc : StatusAcc) : StatusAcc :=
  match rows with
  | [] => acc
  | (budget, category) :: rest =>
      let limit := parseFloat (Some (b_monthly_limit budget)) in
      let totalBudget := jsadd (sa_totalBudget acc) limit in
      let spent := Fin (monthSpent db userId today (b_category_id budget)) in
      let totalSpent := jsadd (sa_totalSpent acc) spent in
      let percentage := budgetPercentage spent limit in
      let available := jssub limit spent in
      budgetStatus_loop db userId today rest
        (mkStatusAcc
           (sa_lines acc ++
            [mkBudgetLine (c_name category) limit spent percentage
                          (badgeOf percentage) available])
           totalBudget totalSpent)
  end.

(** The percentage of the last line of the report:
    [(totalSpent / totalBudget) * 100], computed without a guard. *)
Definition aggregatePercentage (totalSpent totalBudget : jsnum) : jsnum :=
  jsmul (jsdiv totalSpent totalBudget) (ofZ 100).

(** [handleBudgetStatus] *)
Definition handleBudgetStatus (user : User) (db : Db) (clock : Clock) : Db * list Sent :=
  match sortBy (fun a b => str_leb (c_name (snd a)) (c_name (snd b)))
               (budgetsWithCategory db (u_id user)) with
  | [] => (db, [(u_phone user, MsgNoBudgets)])
  | rows =>
      let acc := budgetStatus_loop db (u_id user) (today clock) rows
                   (mkStatusAcc [] (ofZ 0) (ofZ 0)) in
      (db, [(u_phone user,
             MsgBudgetStatus (sa_lines acc) (sa_totalBudget acc) (sa_totalSpent acc)
               (aggregatePercentage (sa_totalSpent acc) (sa_totalBudget acc)))])
  end.

(** [checkBudgetAlerts] (the definition with [category_id], which is the
    one in force).  The percentage is exact here; the source computes it in
    binary64, which can differ when the spending is exactly at a threshold
    (80% can come out as 79.99999999999999). *)
Definition checkBudgetAlerts (user : User) (categoryId : Z) (db : Db) (clock : Clock)
  : Db * list Sent :=
  match filter (fun bc => b_category_id (fst bc) =? categoryId)
               (budgetsWithCategory db (u_id user)) with
  | [] => (db, [])
  | (row, category) :: _ =>
      let budget := parseFloat (Some (b_monthly_limit row)) in
      let spent := Fin (monthSpent db (u_id user) (today clock) categoryId) in
      if falsy budget || jsle budget (Fin 0) then (db, [])
      else
        let percentage := jsmul (jsdiv spent budget) (ofZ 100) in
        if jsge percentage (ofZ 100)
        then (db, [(u_phone user, MsgBudgetExceeded (c_name category) spent budget)])
        else if jsge percentage (ofZ 80)
        then (db, [(u_phone user, MsgBudgetWarning (c_name category) percentage)])
        else (db, [])
  end.

(** *** Income re-estimation *)

(** [INCOME_UPDATE_CONFIG] *)
Definition MIN_MONTHS_HISTORY : Z := 2.
Definition DIFF_THRESHOLD_PERCENT : Z := 20.
Definition COOLDOWN_DAYS_NORMAL : Z := 30.
Definition COOLDOWN_DAYS_DECLINED : Z := 60.

Definition MS_PER_DAY : Z := 1000 * 60 * 60 * 24.

(** Step 1 of [checkIncomeUpdatePrompt]: a prompt was sent and fewer days
    have passed than the cooldown, which is the longer one after a
    decline. *)
Definition onCooldown (user : User) (clock : Clock) : bool :=
  match last_income_update_prompt user with
  | Some last =>
      let daysSinceLastPrompt := (inject_Z (now clock - last) / inject_Z MS_PER_DAY)%Q in
      let cooldownDays :=
        if income_update_declined user then COOLDOWN_DAYS_DECLINED
        else COOLDOWN_DAYS_NORMAL in
      Qltb daysSinceLastPrompt (inject_Z cooldownDays)
  | None => false
  end.

(** [checkIncomeUpdatePrompt].  The difference in percent is exact here;
    the source computes it in binary64, which can differ when it is exactly
    20% (it can come out as 19.999999999999996). *)
Definition checkIncomeUpdatePrompt (user : User) (db : Db) (clock : Clock) : Db * list Sent :=
  if onCooldown user clock then (db, [])
  else
    let totals := last3MonthsTotals db (u_id user) (today clock) in
    let avgIncome := avg_income totals in
    let monthsWithIncome := months_with_income totals in
    if monthsWithIncome <? MIN_MONTHS_HISTORY then (db, [])
    else
      match monthly_income user with
      | None => (db, [])
      | Some currentIncome =>
          if Qeq_bool currentIncome 0 || Qleb currentIncome 0 then (db, [])
          else
            let difference := (avgIncome - currentIncome)%Q in
            let percentDiff := Qabs (difference / currentIncome * inject_Z 100) in
            if Qltb percentDiff (inject_Z DIFF_THRESHOLD_PERCENT) then (db, [])
            else
              (update_user db (u_id user) (with_income_prompt (Some (now clock))),
               [(u_phone user,
                 MsgIncomeUpdatePrompt currentIncome (Math_round avgIncome))])
      end.

(** [handleIncomeUpdateResponse] *)
Definition handleIncomeUpdateResponse (user : User) (accepted : bool) (db : Db)
    (clock : Clock) : Db * list Sent :=
  if accepted then
    let newIncome :=
      Math_round (avg_income (last3MonthsTotals db (u_id user) (today clock))) in
    (update_user db (u_id user) (with_income (Some (inject_Z newIncome)) false),
     [(u_phone user, MsgIncomeUpdated newIncome)])
  else
    (update_user db (u_id user) (with_declined true),
     [(u_phone user, MsgIncomeKept (monthly_income user))]).

(** *** Fixed expenses *)

(** [findFixedExpenseByDescription]: the first row of the user whose
    lowered description equals the lowered argument, or null. *)
Definition sameDescription (userId : Z) (description : jsstring) (fe : FixedExpense) : bool :=
  (fe_user_id fe =? userId) && str_eqb (LOWER (fe_description fe)) (LOWER description).

Definition findFixedExpenseByDescription (db : Db) (userId : Z) (description : jsstring)
  : option FixedExpense :=
  find (sameDescription userId description) (fixed_expenses db).

(** The [updates] object of [updateFixedExpense]: a field is [None] when
    the object does not have it; [reminder_day: null] is [Some None]. *)
Record Updates : Type := mkUpdates {
  up_typical_amount : option Q;
  up_category_id : option (option Z);
  up_reminder_day : option (option Z);
  up_is_active : option bool
}.

Definition noUpdates : Updates := mkUpdates None None None None.

Definition applyUpdates (up : Updates) (fe : FixedExpense) : FixedExpense :=
  mkFixedExpense (fe_id fe) (fe_user_id fe) (fe_description fe)
    (match up_typical_amount up with Some a => a | None => fe_typical_amount fe end)
    (match up_category_id up with Some c => c | None => fe_category_id fe end)
    (match up_reminder_day up with Some d => d | None => fe_reminder_day fe end)
    (match up_is_active up with Some b => b | None => fe_is_active fe end).

Definition isEmptyUpdates (up : Updates) : bool :=
  negb (isSome (up_typical_amount up) || isSome (up_category_id up) ||
        isSome (up_reminder_day up) || isSome (up_is_active up)).

(** [updateFixedExpense]: nothing happens for an empty [updates]. *)
Definition updateFixedExpense (db : Db) (id userId : Z) (up : Updates) : Db :=
  if isEmptyUpdates up then db
  else set_fixed_expenses db
         (map (fun fe => if (fe_id fe =? id) && (fe_user_id fe =? userId)
                         then applyUpdates up fe else fe)
              (fixed_expenses db)).

(** [INSERT INTO fixed_expenses ...]: the new row takes the next id. *)
Definition insertFixedExpense (db : Db) (row : Z -> FixedExpense) : Db :=
  mkDb (users db) (transactions db)
       (fixed_expenses db ++ [row (next_fixed_expense_id db)])
       (budgets db) (categories db) (financial_alerts db)
       (next_transaction_id db) (next_fixed_expense_id db + 1).

(** [createFixedExpense]: the database with the new row, and its id. *)
Definition createFixedExpense (db : Db) (userId : Z) (description : jsstring) (amount : Q)
    (categoryId : option Z) (reminderDay : option Z) : Db * Z :=
  (insertFixedExpense db
     (fun id => mkFixedExpense id userId description amount categoryId reminderDay true),
   next_fixed_expense_id db).

Definition TEN_MINUTES : Z := 10 * 60 * 1000.

(** The query of [handleMarkAsFixed] for a user without pending action: the
    newest variable expense of the last ten minutes. *)
Definition recentVariableExpense (db : Db) (userId : Z) (clock : Clock) : option Z :=
  match sortBy (fun a b => t_created_at b <=? t_created_at a)
               (filter (fun t => (t_user_id t =? userId) && negb (t_is_income t) &&
                                 (match t_expense_type t with variable => true | fixed => false end) &&
                                 (now clock - TEN_MINUTES <=? t_created_at t))
                       (transactions db)) with
  | [] => None
  | t :: _ => Some (t_id t)
  end.

(** The first part of [handleMarkAsFixed]: the transaction to mark, or the
    reply it returns with. *)
Definition markAsFixedTarget (user : User) (db : Db) (clock : Clock) : Reply + Z :=
  match pending_fixed_expense_id user with
  | None | Some 0 =>
      match recentVariableExpense db (u_id user) clock with
      | None => inl MsgNoRecentExpense
      | Some id => inr id
      end
  | Some pendingId =>
      if (pendingId <? 0) && negb (pendingId =? -999) then inr (Z.abs pendingId)
      else if 0 <? pendingId then inl MsgAskReminderDay
      else inl MsgNothingToMarkFixed
  end.

Definition categoryName (db : Db) (categoryId : option Z) : option jsstring :=
  match categoryId with
  | Some id => option_map c_name (find (fun c => c_id c =? id) (categories db))
  | None => None
  end.

(** [UPDATE transactions SET expense_type = 'fixed', fixed_expense_id = $2
    WHERE id = $3] *)
Definition linkTransaction (db : Db) (transactionId fixedExpenseId : Z) : Db :=
  set_transactions db
    (map (fun t => if t_id t =? transactionId
                   then mkTransaction (t_id t) (t_user_id t) (t_amount t) (t_category_id t)
                          (t_description t) (t_date t) (t_is_income t) fixed
                          (Some fixedExpenseId) (t_created_at t)
                   else t)
         (transactions db)).

(** [handleMarkAsFixed].  A transaction with neither description nor
    category makes the INSERT fail on the NOT NULL description; the
    exception ends in the catch of [processUserMessage]. *)
Definition handleMarkAsFixed (user : User) (db : Db) (clock : Clock) : Db * list Sent :=
  match markAsFixedTarget user db clock with
  | inl reply => (db, [(u_phone user, reply)])
  | inr transactionId =>
      match findTransaction db transactionId (u_id user) with
      | None => (clearPendingFixedExpense db (u_id user), [(u_phone user, MsgExpenseGone)])
      | Some tx =>
          let existingFixed := findFixedExpenseByDescription db (u_id user) (t_description tx) in
          let finish (created : Db * Z) :=
            (setPendingFixedExpense (linkTransaction (fst created) transactionId (snd created))
               (u_id user) (snd created),
             [(u_phone user, MsgMarkedAsFixed (t_description tx))]) in
          match existingFixed with
          | Some existing =>
              if fe_is_active existing then
                (clearPendingFixedExpense db (u_id user),
                 [(u_phone user, MsgAlreadyFixed (t_description tx))])
              else
                finish (updateFixedExpense db (fe_id existing) (u_id user)
                          (mkUpdates (Some (t_amount tx)) None None (Some true)),
                        fe_id existing)
          | None =>
              match (match t_description tx with
                     | [] => categoryName db (t_category_id tx)
                     | d => Some d
                     end) with
              | Some description =>
                  finish (createFixedExpense db (u_id user) description (t_amount tx)
                            (t_category_id tx) None)
              | None => (db, [(u_phone user, MsgProblem)])
              end
          end
      end
  end.

(** The invariant of the fixed expenses: at most one row per user and
    lowered description. *)
Definition fixedExpensesUnique (db : Db) : Prop :=
  forall userId description,
    (List.length (filter (sameDescription userId description) (fixed_expenses db)) <= 1)%nat.

(** *** The router: pending actions *)

(** [deleteUser(phone)] *)
Definition deleteUser (db : Db) (phone : jsstring) : Db :=
  match find (fun u => str_eqb (u_phone u) phone) (users db) with
  | None => db
  | Some u =>
      let userId := u_id u in
      mkDb (filter (fun v => negb (u_id v =? userId)) (users db))
           (filter (fun t => negb (t_user_id t =? userId)) (transactions db))
           (filter (fun fe => negb (fe_user_id fe =? userId)) (fixed_expenses db))
           (filter (fun b => negb (b_user_id b =? userId)) (budgets db))
           (categories db)
           (filter (fun a => negb (fa_user_id a =? userId)) (financial_alerts db))
           (next_transaction_id db) (next_fixed_expense_id db)
  end.

(** Step 3.5.5: the answer to the account-deletion confirmation. *)
Definition accountDeletionConfirm (user : User) (message : jsstring) (db : Db)
  : Db * list Sent :=
  let msgLower := trim (toLowerCase message) in
  if oneOf msgLower [lit "confirmar eliminar"; lit "confirmar"; lit "si eliminar"] then
    (deleteUser db (u_phone user), [(u_phone user, MsgAccountDeleted)])
  else if oneOf msgLower [lit "cancelar"; lit "no"] then
    (clearPendingFixedExpense db (u_id user), [(u_phone user, MsgDeletionCancelled)])
  else (db, [(u_phone user, MsgDeletionReprompt)]).

(** [UPDATE transactions SET description = $1 WHERE id = $2 AND user_id = $3] *)
Definition setTransactionDescription (db : Db) (txId userId : Z) (d : jsstring) : Db :=
  set_transactions db
    (map (fun t => if (t_id t =? txId) && (t_user_id t =? userId)
                   then mkTransaction (t_id t) (t_user_id t) (t_amount t) (t_category_id t)
                          d (t_date t) (t_is_income t) (t_expense_type t)
                          (t_fixed_expense_id t) (t_created_at t)
                   else t)
         (transactions db)).

(** [UPDATE transactions SET amount = $1 WHERE id = $2 AND user_id = $3] *)
Definition setTransactionAmount (db : Db) (txId userId : Z) (amount : Z) : Db :=
  set_transactions db
    (map (fun t => if (t_id t =? txId) && (t_user_id t =? userId)
                   then mkTransaction (t_id t) (t_user_id t) (inject_Z amount)
                          (t_category_id t) (t_description t) (t_date t) (t_is_income t)
                          (t_expense_type t) (t_fixed_expense_id t) (t_created_at t)
                   else t)
         (transactions db)).

Definition descripcion_colon : jsstring := lit "descripcion:".
Definition descripcion_acute_colon : jsstring := lit "descripci" ++ [o_acute] ++ lit "n:".

(** Step 3.5.6: the answer while a transaction is being edited;
    [transactionId] is [Math.abs(pending + 2000)]. *)
Definition transactionEdit (user : User) (transactionId : Z) (message : jsstring) (db : Db)
  : Db * list Sent :=
  let msgLower := trim (toLowerCase message) in
  if str_eqb msgLower (lit "cancelar") then
    (clearPendingFixedExpense db (u_id user), [(u_phone user, MsgEditCancelled)])
  else if str_eqb msgLower (lit "eliminar") || str_eqb msgLower (lit "borrar") then
    match findTransaction db transactionId (u_id user) with
    | Some tx =>
        (clearPendingFixedExpense (deleteTransaction db transactionId (u_id user)) (u_id user),
         [(u_phone user, MsgEditDeleted tx)])
    | None =>
        (clearPendingFixedExpense db (u_id user),
         [(u_phone user, MsgEditTransactionNotFound)])
    end
  else if startsWith msgLower (lit "desc:") || startsWith msgLower descripcion_colon ||
          startsWith msgLower descripcion_acute_colon then
    match trim (afterFirstColon message) with
    | [] => (db, [(u_phone user, MsgDescriptionMissing)])
    | newDesc =>
        (clearPendingFixedExpense
           (setTransactionDescription db transactionId (u_id user) newDesc) (u_id user),
         [(u_phone user, MsgDescriptionUpdated newDesc)])
    end
  else
    match extractAmount message with
    | Some newAmount =>
        if negb (newAmount =? 0) && (0 <? newAmount) then
          (clearPendingFixedExpense
             (setTransactionAmount db transactionId (u_id user) newAmount) (u_id user),
           [(u_phone user, MsgAmountUpdated newAmount)])
        else (db, [(u_phone user, MsgEditReprompt)])
    | None => (db, [(u_phone user, MsgEditReprompt)])
    end.

(** [if (amount)]: null and 0 are falsy. *)
Definition truthyZ (v : option Z) : bool :=
  match v with
  | Some z => negb (z =? 0)
  | None => false
  end.

Definition wantsNoReminder (msgLower : jsstring) : bool :=
  includes msgLower (lit "sin recordatorio") || includes msgLower (lit "quitar recordatorio") ||
  includes msgLower (lit "sin dia") || includes msgLower (lit "sin d" ++ [i_acute] ++ lit "a") ||
  includes msgLower (lit "quitar dia") ||
  includes msgLower (lit "quitar d" ++ [i_acute] ++ lit "a").

(** [/^\d{1,2}$/.test(msgLower) && day !== null] *)
Definition isJustADay (msgLower : jsstring) (day : option Z) : bool :=
  isOneOrTwoDigits msgLower && isSome day.

(** The [updates] object of step 3.6: a field is set when its value is
    truthy. *)
Definition reminderUpdates (amount day : option Z) : Updates :=
  mkUpdates (if truthyZ amount then option_map inject_Z amount else None)
            None
            (if truthyZ day then Some day else None)
            None.

(** Step 3.6: the answer while a fixed expense awaits its reminder day or an
    edit. *)
Definition fixedExpenseEditOrDay (user : User) (fixedExpenseId : Z) (message : jsstring)
    (db : Db) : Db * list Sent :=
  let msgLower := trim (toLowerCase message) in
  if oneOf msgLower [lit "cancelar"; lit "saltar"; lit "skip"; lit "omitir"] then
    (clearPendingFixedExpense db (u_id user), [(u_phone user, MsgCancelled)])
  else if wantsNoReminder msgLower then
    (clearPendingFixedExpense
       (updateFixedExpense db fixedExpenseId (u_id user)
          (mkUpdates None None (Some None) None))
       (u_id user),
     [(u_phone user, MsgReminderRemoved)])
  else
    let day := extractReminderDay message in
    let amount := if isJustADay msgLower day then None else extractAmount message in
    if truthyZ amount || truthyZ day then
      let db' :=
        clearPendingFixedExpense
          (updateFixedExpense db fixedExpenseId (u_id user) (reminderUpdates amount day))
          (u_id user) in
      if truthyZ day && negb (truthyZ amount) then
        (db', [(u_phone user, MsgReminderConfigured (match day with Some d => d | None => 0 end))])
      else
        (db', [(u_phone user,
                MsgFixedExpenseUpdated (if truthyZ amount then amount else None)
                                       (if truthyZ day then day else None))])
    else (db, [(u_phone user, MsgReminderReprompt)]).

(** The placeholder of a declined suggestion: an inactive fixed expense
    with the description, amount and category of the transaction.  The
    table has no unique index in the migrations, so [ON CONFLICT DO
    NOTHING] never applies. *)
Definition insertRejectedPlaceholder (db : Db) (userId : Z) (tx : Transaction) : Db :=
  insertFixedExpense db
    (fun id => mkFixedExpense id userId (t_description tx) (t_amount tx)
                              (t_category_id tx) None false).

(** [SELECT ... FROM transactions WHERE id = $1] *)
Definition findTransactionById (db : Db) (txId : Z) : option Transaction :=
  find (fun t => t_id t =? txId) (transactions db).

(** Step 3.7: the answer to the "is this a fixed expense?" suggestion;
    [inl] is the early return after [handleMarkAsFixed], [inr] the database
    with which the router goes on to classify the message. *)
Definition markAsFixedConfirm (user : User) (pendingId : Z) (message : jsstring) (db : Db)
    (clock : Clock) : (Db * list Sent) + Db :=
  let msgLower := trim (toLowerCase message) in
  if oneOf msgLower [lit "fijo"; lit "es fijo"; lit "si fijo"; lit "s" ++ [i_acute] ++ lit " fijo";
                     lit "hacerlo fijo"; lit "si"; lit "s" ++ [i_acute]] then
    inl (handleMarkAsFixed user db clock)
  else
    let transactionId := Z.abs pendingId in
    let db' :=
      match findTransactionById db transactionId with
      | Some tx => insertRejectedPlaceholder db (u_id user) tx
      | None => db
      end in
    inr (clearPendingFixedExpense db' (u_id user)).

(** The branches of the router that consume a pending action. *)
Inductive PendingBranch : Type :=
| BulkReminderBranch
| AccountDeletionBranch
| TransactionEditBranch (transactionId : Z)
| FixedExpenseBranch (fixedExpenseId : Z)
| MarkAsFixedBranch (transactionId : Z).

(** What the pending-action steps of [processUserMessage] did: the branches
    whose body was entered, in order (a record kept for the statements, not
    a value of the source), whether the function returned there, and the
    database and messages at that point. *)
Record Routed : Type := mkRouted {
  entered : list PendingBranch;
  returned : bool;
  outcome : Db * list Sent
}.

(** Steps 3.5 to 3.7 of [processUserMessage], for the [user] row loaded at
    the start of the request.  [pending &&] makes null and 0 skip a
    branch. *)
Definition processPendingAction (user : User) (message : jsstring) (db : Db) (clock : Clock)
  : Routed :=
  let pending := pending_fixed_expense_id user in
  let pendingIs (v : Z) := opt_Z_eqb pending (Some v) in
  let bulk :=
    if pendingIs PENDING_BULK_REMINDER
    then Some (handleFixedExpenseReminderResponse user message db clock)
    else None in
  match bulk with
  | Some (true, r) => mkRouted [BulkReminderBranch] true r
  | _ =>
      let before := match bulk with Some _ => [BulkReminderBranch] | None => [] end in
      if pendingIs PENDING_ACCOUNT_DELETION then
        mkRouted (before ++ [AccountDeletionBranch]) true
                 (accountDeletionConfirm user message db)
      else
        match pending with
        | Some p =>
            if negb (p =? 0) && (p <? -2000) then
              mkRouted (before ++ [TransactionEditBranch (Z.abs (p + 2000))]) true
                       (transactionEdit user (Z.abs (p + 2000)) message db)
            else if negb (p =? 0) && (0 <? p) then
              mkRouted (before ++ [FixedExpenseBranch p]) true
                       (fixedExpenseEditOrDay user p message db)
            else if negb (p =? 0) && (p <? 0) && negb (p =? -999) then
              match markAsFixedConfirm user p message db clock with
              | inl r => mkRouted (before ++ [MarkAsFixedBranch (Z.abs p)]) true r
              | inr db' => mkRouted (before ++ [MarkAsFixedBranch (Z.abs p)]) false (db', [])
              end
            else mkRouted before false (db, [])
        | None => mkRouted before false (db, [])
        end
  end.

(** Step 3 of [processUserMessage]: within five minutes of the income
    prompt a yes or a no from the two vocabularies is the answer to it. *)
Definition incomeUpdateAnswer (user : User) (message : jsstring) (clock : Clock)
  : option bool :=
  match last_income_update_prompt user with
  | Some prompt =>
      let minutesSincePrompt := (inject_Z (now clock - prompt) / inject_Z (1000 * 60))%Q in
      if Qltb minutesSincePrompt 5 then
        let msgLower := trim (toLowerCase message) in
        if oneOf msgLower [lit "si"; lit "s" ++ [i_acute]; lit "dale"; lit "ok"; lit "okay";
                           lit "actualizar"; lit "acepto"; lit "correcto"; lit "yes"]
        then Some true
        else if oneOf msgLower [lit "no"; lit "nope"; lit "mejor no";
                                lit "despu" ++ [e_acute] ++ lit "s"; lit "mantener";
                                lit "nop"; lit "nel"]
        then Some false
        else None
      else None
  | None => None
  end.

(** [processUserMessage] from step 3 on, that is for a user who completed
    onboarding and a message that is not an admin command. *)
Definition processUserMessage (user : User) (message : jsstring) (db : Db) (clock : Clock)
  : Db * list Sent :=
  match incomeUpdateAnswer user message clock with
  | Some accepted => handleIncomeUpdateResponse user accepted db clock
  | None =>
      let routed := processPendingAction user message db clock in
      if returned routed then outcome routed
      else
        let '(db', sent) := outcome routed in
        let '(db'', sent') := classifyAndDispatch user message db' clock in
        (db'', sent ++ sent')
  end.

(** The writers of the pending action. *)

(** [handleDeleteAccount] *)
Definition handleDeleteAccount (user : User) (db : Db) : Db * list Sent :=
  (update_user db (u_id user) (with_pending (Some PENDING_ACCOUNT_DELETION)),
   [(u_phone user, MsgDeletionReprompt)]).

(** The end of [handleTransaction] for a variable expense that looks like a
    fixed one and has no fixed expense yet: the id of the new transaction is
    stored negated. *)
Definition suggestMarkAsFixed (db : Db) (userId transactionId : Z) : Db :=
  update_user db userId
    (with_pending (Some (pendingMarkAsFixedSuggestion transactionId))).

(** The end of an iteration of [sendFixedExpenseReminders]. *)
Definition awaitBulkReminderResponse (db : Db) (userId : Z) : Db :=
  update_user db userId (with_pending (Some PENDING_BULK_REMINDER)).

(** *** The ledger: listing, and the last expense *)

(** The rows of the listing query, which is also the fallback query of the
    positional handlers: the user's transactions of the current month,
    [ORDER BY created_at DESC LIMIT 20]. *)
Definition monthTransactions (db : Db) (userId : Z) (today : Date) : list Transaction :=
  firstn 20
    (sortBy (fun a b => t_created_at b <=? t_created_at a)
       (filter (fun t => (t_user_id t =? userId) &&
                         sinceMonthStart today (t_date t))
               (transactions db))).

(** [handleListMyExpenses]: an empty month is answered without touching the
    stored list. *)
Definition handleListMyExpenses (user : User) (db : Db) (clock : Clock)
  : Db * list (jsstring * LedgerReply) :=
  match monthTransactions db (u_id user) (today clock) with
  | [] => (db, [(u_phone user, LgNoExpensesThisMonth)])
  | rows =>
      (setLastShownTxIds db (u_id user) (map t_id rows),
       [(u_phone user, LgExpenseList rows)])
  end.

Definition FIVE_MINUTES : Z := 5 * 60 * 1000.

(** The query of [handleEditLastExpense] and [handleDeleteLastExpense]: the
    user's transaction created in the last five minutes,
    [ORDER BY created_at DESC LIMIT 1]. *)
Definition lastRecentTransaction (db : Db) (userId : Z) (clock : Clock)
  : option Transaction :=
  hd_error
    (sortBy (fun a b => t_created_at b <=? t_created_at a)
       (filter (fun t => (t_user_id t =? userId) &&
                         (now clock - FIVE_MINUTES <=? t_created_at t))
               (transactions db))).

(** [handleEditLastExpense] *)
Definition handleEditLastExpense (user : User) (db : Db) (clock : Clock)
  : Db * list (jsstring * LedgerReply) :=
  match lastRecentTransaction db (u_id user) clock with
  | None => (db, [(u_phone user, LgNoRecentToEdit)])
  | Some tx =>
      (update_user db (u_id user)
         (with_pending (Some (pendingTransactionEdit (t_id tx)))),
       [(u_phone user, LgEditingLast tx)])
  end.

(** [handleDeleteLastExpense] *)
Definition handleDeleteLastExpense (user : User) (db : Db) (clock : Clock)
  : Db * list (jsstring * LedgerReply) :=
  match lastRecentTransaction db (u_id user) clock with
  | None => (db, [(u_phone user, LgNoRecentToDelete)])
  | Some tx =>
      (deleteTransaction db (t_id tx) (u_id user),
       [(u_phone user, LgDeletedLast tx)])
  end.

(** *** Fixed expenses by position *)

(** [handleEditFixedExpense]; [fixedExpenses[index - 1]] is an element once
    [1 <= index <= fixedExpenses.length]. *)
Definition handleEditFixedExpense (user : User) (index : option Z) (db : Db)
  : Db * list (jsstring * FixedReply) :=
  match index with
  | Some i =>
      if indexMissing index then (db, [(u_phone user, FxIndicateToEdit)])
      else
        let fixedExpenses := getFixedExpenses db (u_id user) false in
        if Z.of_nat (List.length fixedExpenses) <? i then
          (db, [(u_phone user, FxNoSuchFixed i (List.length fixedExpenses))])
        else
          match nth_error fixedExpenses (Z.to_nat (i - 1)) with
          | Some expense =>
              (setPendingFixedExpense db (u_id user) (fe_id expense),
               [(u_phone user, FxEditing expense)])
          | None => (db, [])
          end
  | None => (db, [(u_phone user, FxIndicateToEdit)])
  end.

(** [handlePauseFixedExpense] *)
Definition handlePauseFixedExpense (user : User) (index : option Z) (db : Db)
  : Db * list (jsstring * FixedReply) :=
  match index with
  | Some i =>
      if indexMissing index then (db, [(u_phone user, FxIndicateToPause)])
      else
        let fixedExpenses := getFixedExpenses db (u_id user) false in
        if Z.of_nat (List.length fixedExpenses) <? i then
          (db, [(u_phone user, FxNoSuchFixed i (List.length fixedExpenses))])
        else
          match nth_error fixedExpenses (Z.to_nat (i - 1)) with
          | Some expense =>
              if negb (fe_is_active expense) then
                (db, [(u_phone user, FxAlreadyPaused expense i)])
              else
                (updateFixedExpense db (fe_id expense) (u_id user)
                   (mkUpdates None None None (Some false)),
                 [(u_phone user, FxPaused expense i)])
          | None => (db, [])
          end
  | None => (db, [(u_phone user, FxIndicateToPause)])
  end.

(** [handleActivateFixedExpense] *)
Definition handleActivateFixedExpense (user : User) (index : option Z) (db : Db)
  : Db * list (jsstring * FixedReply) :=
  match index with
  | Some i =>
      if indexMissing index then (db, [(u_phone user, FxIndicateToActivate)])
      else
        let fixedExpenses := getFixedExpenses db (u_id user) false in
        if Z.of_nat (List.length fixedExpenses) <? i then
          (db, [(u_phone user, FxNoSuchFixed i (List.length fixedExpenses))])
        else
          match nth_error fixedExpenses (Z.to_nat (i - 1)) with
          | Some expense =>
              if fe_is_active expense then
                (db, [(u_phone user, FxAlreadyActive expense)])
              else
                (updateFixedExpense db (fe_id expense) (u_id user)
                   (mkUpdates None None None (Some true)),
                 [(u_phone user, FxActivated expense)])
          | None => (db, [])
          end
  | None => (db, [(u_phone user, FxIndicateToActivate)])
  end.

(** *** The reminder day *)

(** The [day] field of the data of a SET_REMINDER_DAY intent: absent, null
    or an integer. *)
Inductive DayField : Type :=
| DayAbsent
| DayNull
| DayNumber (d : Z).

(** [day || extractReminderDay(String(data.day))]: the second operand is
    evaluated for a falsy [day], whose string is then one of these three. *)
Definition reminderDayOf (day : DayField) : option Z :=
  match day with
  | DayAbsent => extractReminderDay (lit "undefined")
  | DayNull => extractReminderDay (lit "null")
  | DayNumber d => if d =? 0 then extractReminderDay (lit "0") else Some d
  end.

(** [handleSetReminderDay] *)
Definition handleSetReminderDay (user : User) (day : DayField) (fixedExpenseId : option Z)
    (db : Db) : Db * list (jsstring * FixedReply) :=
  match reminderDayOf day with
  | Some reminderDay =>
      if (reminderDay =? 0) || (reminderDay <? 1) || (31 <? reminderDay) then
        (db, [(u_phone user, FxDayOutOfRange)])
      else
        let expenseId :=
          if truthyZ fixedExpenseId then fixedExpenseId
          else pending_fixed_expense_id user in
        match expenseId with
        | Some id =>
            if (id =? 0) || (id <? 0) then (db, [(u_phone user, FxNoPendingFixedExpense)])
            else
              (clearPendingFixedExpense
                 (updateFixedExpense db id (u_id user)
                    (mkUpdates None None (Some (Some reminderDay)) None))
                 (u_id user),
               [(u_phone user, FxReminderDaySet reminderDay)])
        | None => (db, [(u_phone user, FxNoPendingFixedExpense)])
        end
  | None => (db, [(u_phone user, FxDayOutOfRange)])
  end.

(** Every stored reminder day is a day of the month, the CHECK of the
    column. *)
Definition reminderDaysValid (db : Db) : Prop :=
  forall fe, In fe (fixed_expenses db) ->
    match fe_reminder_day fe with
    | Some d => 1 <= d <= 31
    | None => True
    end.

(** *** The monthly reminders *)

(** A row of [getFixedExpensesForReminderDay]. *)
Record UserReminder : Type := mkUserReminder {
  ur_user_id : Z;
  ur_phone : jsstring;
  ur_name : option jsstring;
  ur_expenses : list FixedExpense
}.

(** [fe.user_id = u.id AND fe.reminder_day = $1 AND fe.is_active = true] *)
Definition dueOn (day userId : Z) (fe : FixedExpense) : bool :=
  (fe_user_id fe =? userId) && opt_Z_eqb (fe_reminder_day fe) (Some day) &&
  fe_is_active fe.

(** [getFixedExpensesForReminderDay]: one row per onboarded user with an
    active fixed expense due that day; the query has no ORDER BY, the rows
    are taken in storage order. *)
Definition getFixedExpensesForReminderDay (db : Db) (day : Z) : list UserReminder :=
  flat_map
    (fun u =>
       if onboarding_complete u then
         match filter (dueOn day (u_id u)) (fixed_expenses db) with
         | [] => []
         | expenses => [mkUserReminder (u_id u) (u_phone u) (u_name u) expenses]
         end
       else [])
    (users db).

Record RemindersAcc : Type := mkRemindersAcc {
  rm_db : Db;
  rm_sent : list (jsstring * FixedReply);
  rm_sentCount : Z
}.

(** The message of one iteration: [total] is the sum of the amounts. *)
Definition reminderMessage (userReminder : UserReminder) : jsstring * FixedReply :=
  let total := Qsum (map fe_typical_amount (ur_expenses userReminder)) in
  (ur_phone userReminder,
   FxMonthlyReminder (ur_name userReminder) (ur_expenses userReminder) total).

(** The [for (const userReminder of usersWithReminders)] loop. *)
Fixpoint sendReminders_loop (rows : list UserReminder) (acc : RemindersAcc) : RemindersAcc :=
  match rows with
  | [] => acc
  | userReminder :: rest =>
      sendReminders_loop rest
        (mkRemindersAcc
           (awaitBulkReminderResponse (rm_db acc) (ur_user_id userReminder))
           (rm_sent acc ++ [reminderMessage userReminder])
           (rm_sentCount acc + 1))
  end.

(** [sendFixedExpenseReminders]; [rm_sentCount] is [usersNotified]. *)
Definition sendFixedExpenseReminders (db : Db) (clock : Clock) : RemindersAcc :=
  sendReminders_loop (getFixedExpensesForReminderDay db (dayOfMonth clock))
                     (mkRemindersAcc db [] 0).

(** The user got a reminder for that day. *)
Definition notified (db : Db) (day userId : Z) : bool :=
  existsb (fun r => ur_user_id r =? userId) (getFixedExpensesForReminderDay db day).

(** *** Several transactions in one message *)

(** [SELECT id, name, emoji FROM categories WHERE LOWER(name) = LOWER($1)] *)
Definition findCategoryByName (db : Db) (name : jsstring) : option Category :=
  find (fun c => str_eqb (LOWER (c_name c)) (LOWER name)) (categories db).

(** [SELECT id, name, emoji FROM categories WHERE name = 'otros'], then
    [rows[0]?.id]. *)
Definition otrosCategoryId (db : Db) : option Z :=
  option_map c_id (find (fun c => str_eqb (c_name c) (lit "otros")) (categories db)).

(** [s || d] for a string field that may be absent. *)
Definition orElse (s : option jsstring) (d : jsstring) : jsstring :=
  match s with
  | Some (c :: r) => c :: r
  | _ => d
  end.

Record BatchAcc : Type := mkBatchAcc {
  ba_db : Db;
  ba_totalAmount : Q;
  ba_registered : nat
}.

(** The [for (const tx of transactions)] loop of
    [handleMultipleTransactions], for amounts that are numbers. *)
Fixpoint multipleTransactions_loop (user : User) (clock : Clock) (entries : list TxEntry)
    (acc : BatchAcc) : BatchAcc :=
  match entries with
  | [] => acc
  | tx :: rest =>
      match e_amount tx with
      | Some amount =>
          if Qeq_bool amount 0 || Qleb amount 0 then
            multipleTransactions_loop user clock rest acc
          else
            let categoryId :=
              match findCategoryByName (ba_db acc) (orElse (e_category tx) (lit "otros")) with
              | Some c => Some (c_id c)
              | None => otrosCategoryId (ba_db acc)
              end in
            multipleTransactions_loop user clock rest
              (mkBatchAcc
                 (insertTransaction (ba_db acc)
                    (fun id => mkTransaction id (u_id user) amount categoryId
                                 (orElse (e_description tx) [])
                                 (today clock)
                                 (match e_is_income tx with Some b => b | None => false end)
                                 variable None (now clock)))
                 (ba_totalAmount acc + amount)%Q
                 (S (ba_registered acc)))
      | None => multipleTransactions_loop user clock rest acc
      end
  end.

(** [handleMultipleTransactions]; [transactions] is [None] when the field
    is missing or not an array. *)
Definition handleMultipleTransactions (user : User) (transactions : option (list TxEntry))
    (db : Db) (clock : Clock) : Db * list (jsstring * LedgerReply) :=
  match transactions with
  | None | Some [] => (db, [(u_phone user, LgNotIdentified)])
  | Some entries =>
      let acc := multipleTransactions_loop user clock entries (mkBatchAcc db 0%Q 0) in
      match ba_registered acc with
      | O => (ba_db acc, [(u_phone user, LgNoneRegistered)])
      | S _ =>
          (ba_db acc,
           [(u_phone user,
             LgBatchRegistered (ba_registered acc)
               (existsb (fun t => match e_is_income t with Some b => b | None => false end)
                        entries)
               (ba_totalAmount acc))])
      end
  end.

(** The entries the loop registers. *)
Definition hasPositiveAmount (tx : TxEntry) : bool :=
  match e_amount tx with
  | Some amount => Qltb 0 amount
  | None => false
  end.

(** The amount of an entry that has one. *)
Definition amountOf (tx : TxEntry) : Q :=
  match e_amount tx with
  | Some amount => amount
  | None => 0%Q
  end.

(** *** Sending *)

(** [s.replace(p, r)] for a string pattern: the first occurrence. *)
Fixpoint replaceFirst (p r s : jsstring) : jsstring :=
  match eat p s with
  | Some rest => r ++ rest
  | None =>
      match s with
      | [] => []
      | c :: s' => c :: replaceFirst p r s'
      end
  end.

(** The [toNumber] of [sendWhatsApp(to, message)]. *)
Definition toNumber (to : jsstring) : jsstring :=
  let cleanPhone := replaceFirst (lit "+") [] (replaceFirst (lit "whatsapp:") [] to) in
  let cleanPhone :=
    if negb (startsWith cleanPhone (lit "56"))
    then lit "56" ++ dropWhile (fun c => (c =? 48)%N) cleanPhone
    else cleanPhone in
  lit "whatsapp:+" ++ cleanPhone.

(** A transaction of the user linked to the fixed expense. *)
Definition linkedTo (userId fixedExpenseId : Z) (t : Transaction) : bool :=
  (t_user_id t =? userId) && opt_Z_eqb (t_fixed_expense_id t) (Some fixedExpenseId).

Lemma extractReminderDay_loop_range (ps : list (jsstring -> option jsstring))
    (cleaned : jsstring) (d : Z) :
  extractReminderDay_loop ps cleaned = Some d -> 1 <= d <= 31.
Proof.
  induction ps as [|p ps IH]; simpl; [discriminate|].
  destruct (p cleaned) as [m1|]; [|exact IH].
  destruct ((1 <=? parseInt m1) && (parseInt m1 <=? 31)) eqn:E; [|exact IH].
  intros [= <-]. apply andb_true_iff in E. lia.
Qed.

(** C9: for every input string, [extractReminderDay] returns null or a day
    [d] with [1 <= d <= 31]. *)
Theorem extractReminderDay_null_or_day_of_month (message : jsstring) :
  extractReminderDay message = None \/
  exists d, extractReminderDay message = Some d /\ 1 <= d <= 31.
Proof.
  destruct (extractReminderDay message) as [d|] eqn:E; [right|left; reflexivity].
  exists d. split; [reflexivity|].
  exact (extractReminderDay_loop_range _ _ _ E).
Qed.

(** *** Register-all *)

Lemma existingCheck_app (db : Db) (clock : Clock) (userId feId : Z) (extra : list Transaction) (db' : Db) :
  transactions db' = transactions db ++ extra ->
  existingCheck db clock userId feId = true ->
  existingCheck db' clock userId feId = true.
Proof.
  unfold existingCheck. intros -> H. rewrite existsb_app, H. reflexivity.
Qed.

Lemma existingCheck_same_month (db : Db) (clock clock' : Clock) (userId feId : Z) :
  monthIndex (today clock') = monthIndex (today clock) ->
  existingCheck db clock' userId feId = existingCheck db clock userId feId.
Proof.
  intros H. unfold existingCheck, sinceMonthStart. rewrite H. reflexivity.
Qed.

Lemma existingCheck_inserted (db : Db) (clock : Clock) (userId : Z) (expense : FixedExpense) :
  existingCheck (insertTransaction db (fixedExpenseTransaction clock userId expense))
                clock userId (fe_id expense) = true.
Proof.
  unfold existingCheck, insertTransaction. simpl. rewrite existsb_app. simpl.
  unfold sinceMonthStart. rewrite !Z.eqb_refl, Z.leb_refl. simpl.
  apply orb_true_r.
Qed.

Lemma linkedTo_inserted (clock : Clock) (userId feId id : Z) (expense : FixedExpense) :
  linkedTo userId feId (fixedExpenseTransaction clock userId expense id)
  = (fe_id expense =? feId).
Proof.
  unfold linkedTo. simpl. rewrite Z.eqb_refl. reflexivity.
Qed.

Lemma existingCheck_of_linked (db : Db) (clock : Clock) (userId feId : Z) (t : Transaction) :
  In t (transactions db) -> linkedTo userId feId t = true ->
  sinceMonthStart (today clock) (t_date t) = true ->
  existingCheck db clock userId feId = true.
Proof.
  intros Hin Hl Hd. unfold existingCheck. apply existsb_exists.
  exists t. split; [exact Hin|]. unfold linkedTo in Hl. rewrite Hl, Hd. reflexivity.
Qed.

(** What one run of the loop does: it appends transactions, at most one per
    fixed expense and none for an expense already registered this month, and
    afterwards every expense of the list passes the duplicate check. *)
Lemma registerAll_loop_spec (clock : Clock) (userId : Z) (expenses : list FixedExpense) :
  forall acc : RegisterAcc,
  exists created,
    transactions (ra_db (registerAll_loop clock userId expenses acc))
    = transactions (ra_db acc) ++ created /\
    fixed_expenses (ra_db (registerAll_loop clock userId expenses acc))
    = fixed_expenses (ra_db acc) /\
    users (ra_db (registerAll_loop clock userId expenses acc)) = users (ra_db acc) /\
    (forall feId,
        (List.length (filter (linkedTo userId feId) created) <= 1)%nat /\
        (existingCheck (ra_db acc) clock userId feId = true ->
         filter (linkedTo userId feId) created = [])) /\
    (forall e, In e expenses ->
        existingCheck (ra_db (registerAll_loop clock userId expenses acc))
                      clock userId (fe_id e) = true).
Proof.
  induction expenses as [|expense rest IH]; intros acc; simpl.
  - exists []. rewrite app_nil_r. repeat split; simpl; auto; contradiction.
  - destruct (existingCheck (ra_db acc) clock userId (fe_id expense)) eqn:Hex.
    + destruct (IH (mkRegisterAcc (ra_db acc) (ra_total acc) (ra_registered acc)
                                  (ra_skipped acc ++ [expense])))
        as (created & Ht & Hf & Hu & Hcount & Hall).
      simpl in *. exists created. repeat split; auto.
      * apply Hcount.
      * apply Hcount.
      * intros e [<-|Hin]; [|apply Hall; exact Hin].
        eapply existingCheck_app; [exact Ht|exact Hex].
    + set (db1 := insertTransaction (ra_db acc) (fixedExpenseTransaction clock userId expense)).
      destruct (IH (mkRegisterAcc db1 (ra_total acc + fe_typical_amount expense)%Q
                                  (ra_registered acc ++ [expense]) (ra_skipped acc)))
        as (created & Ht & Hf & Hu & Hcount & Hall).
      simpl in *.
      exists (fixedExpenseTransaction clock userId expense (next_transaction_id (ra_db acc))
              :: created).
      split; [rewrite Ht; unfold db1; simpl; rewrite <- app_assoc; reflexivity|].
      split; [exact Hf|]. split; [exact Hu|]. split.
      * intros feId. simpl. rewrite linkedTo_inserted.
        destruct (Z.eqb_spec (fe_id expense) feId) as [<-|Hne].
        -- destruct (Hcount (fe_id expense)) as [_ Hnone].
           rewrite Hnone by (apply existingCheck_inserted).
           split; [simpl; lia|]. intros Habs. congruence.
        -- destruct (Hcount feId) as [Hle Hnone]. split; [exact Hle|].
           intros Hold. apply Hnone.
           eapply existingCheck_app; [|exact Hold]. unfold db1. simpl. reflexivity.
      * intros e [<-|Hin]; [|apply Hall; exact Hin].
        apply (existingCheck_app db1 clock userId (fe_id expense) created);
          [exact Ht|apply existingCheck_inserted].
Qed.

(** A run over a list whose every expense passes the duplicate check
    inserts nothing. *)
Lemma registerAll_loop_all_registered (clock : Clock) (userId : Z) (expenses : list FixedExpense) :
  forall acc : RegisterAcc,
  (forall e, In e expenses -> existingCheck (ra_db acc) clock userId (fe_id e) = true) ->
  ra_db (registerAll_loop clock userId expenses acc) = ra_db acc /\
  ra_registered (registerAll_loop clock userId expenses acc) = ra_registered acc.
Proof.
  induction expenses as [|expense rest IH]; intros acc Hall; simpl; [split; reflexivity|].
  rewrite (Hall expense) by (left; reflexivity).
  apply (IH (mkRegisterAcc (ra_db acc) (ra_total acc) (ra_registered acc)
                           (ra_skipped acc ++ [expense]))).
  intros e Hin. simpl. apply Hall. right. exact Hin.
Qed.

Lemma registerAll_transactions (user : User) (db : Db) (clock : Clock) :
  transactions (fst (registerAll user db clock))
  = transactions (ra_db (registerAll_loop clock (u_id user)
                           (getFixedExpenses db (u_id user) true)
                           (mkRegisterAcc db 0%Q [] []))) /\
  fixed_expenses (fst (registerAll user db clock)) = fixed_expenses db.
Proof.
  unfold registerAll.
  destruct (registerAll_loop_spec clock (u_id user) (getFixedExpenses db (u_id user) true)
              (mkRegisterAcc db 0%Q [] [])) as (created & _ & Hf & _).
  simpl in Hf.
  destruct (getFixedExpenses db (u_id user) true) as [|e l] eqn:Hl; [split; reflexivity|].
  destruct (ra_registered _) as [|r rs]; destruct (ra_skipped _) as [|k ks];
    simpl; split; solve [reflexivity | exact Hf].
Qed.

Lemma handle_register_all (user : User) (message : jsstring) (db : Db) (clock : Clock) :
  isRegisterAll (trim (toLowerCase message)) = true ->
  handleFixedExpenseReminderResponse user message db clock
  = (true, registerAll user db clock).
Proof.
  intros H. unfold handleFixedExpenseReminderResponse. rewrite H. reflexivity.
Qed.

(** C1: two register-all answers in one calendar month.  The first run
    creates at most one transaction linked to each fixed expense, and none
    for an expense that already has a transaction this month; the second
    run skips every expense and inserts nothing. *)
Theorem register_all_twice_at_most_one
    (user user' : User) (message message' : jsstring) (db : Db) (clock clock' : Clock) :
  isRegisterAll (trim (toLowerCase message)) = true ->
  isRegisterAll (trim (toLowerCase message')) = true ->
  u_id user' = u_id user ->
  year (today clock') = year (today clock) ->
  month (today clock') = month (today clock) ->
  let db1 := fst (snd (handleFixedExpenseReminderResponse user message db clock)) in
  let db2 := fst (snd (handleFixedExpenseReminderResponse user' message' db1 clock')) in
  exists created,
    transactions db1 = transactions db ++ created /\
    transactions db2 = transactions db1 /\
    forall fixedExpenseId,
      (List.length (filter (linkedTo (u_id user) fixedExpenseId) created) <= 1)%nat /\
      (existingCheck db clock (u_id user) fixedExpenseId = true ->
       filter (linkedTo (u_id user) fixedExpenseId) created = []).
Proof.
  intros Hm Hm' Hid Hy Hmo db1 db2.
  assert (Hmi : monthIndex (today clock') = monthIndex (today clock))
    by (unfold monthIndex; rewrite Hy, Hmo; reflexivity).
  subst db2 db1.
  rewrite (handle_register_all user' message' _ clock' Hm').
  rewrite (handle_register_all user message db clock Hm).
  cbn [fst snd]. set (db1 := fst (registerAll user db clock)).
  destruct (registerAll_transactions user db clock) as [Ht1 Hf1]. fold db1 in Ht1, Hf1.
  destruct (registerAll_transactions user' db1 clock') as [Ht2 _].
  destruct (registerAll_loop_spec clock (u_id user) (getFixedExpenses db (u_id user) true)
              (mkRegisterAcc db 0%Q [] [])) as (created & Ht & _ & _ & Hcount & Hall).
  simpl in Ht, Hcount.
  exists created. split; [rewrite Ht1; exact Ht|]. split; [|exact Hcount].
  rewrite Ht2, Hid.
  assert (Hsame : getFixedExpenses db1 (u_id user) true = getFixedExpenses db (u_id user) true)
    by (unfold getFixedExpenses; rewrite Hf1; reflexivity).
  rewrite Hsame.
  destruct (registerAll_loop_all_registered clock' (u_id user)
              (getFixedExpenses db (u_id user) true) (mkRegisterAcc db1 0%Q [] []))
    as [Hdb _]; [|rewrite Hdb; reflexivity].
  intros e Hin. simpl. rewrite (existingCheck_same_month _ _ _ _ _ Hmi).
  specialize (Hall e Hin).
  unfold existingCheck in *. rewrite Ht1. exact Hall.
Qed.

(** *** Financial health *)

Lemma existsb_false_filter {A : Type} (f : A -> bool) (l : list A) :
  existsb f l = false -> filter f l = [].
Proof.
  induction l as [|a l IH]; simpl; [reflexivity|].
  destruct (f a); simpl; [discriminate|exact IH].
Qed.

Lemma str_eqb_refl (a : jsstring) : str_eqb a a = true.
Proof.
  induction a as [|x a IH]; simpl; [reflexivity|].
  rewrite N.eqb_refl. exact IH.
Qed.

Lemma date_eqb_refl (d : Date) : date_eqb d d = true.
Proof. unfold date_eqb. rewrite !Z.eqb_refl. reflexivity. Qed.

Lemma alertKeyMatches_self (userId : Z) (alertType : jsstring) (d : Date) :
  alertKeyMatches userId alertType d (mkFinancialAlert userId alertType d) = true.
Proof.
  unfold alertKeyMatches. cbn [fa_user_id fa_alert_type fa_alert_date].
  rewrite Z.eqb_refl, str_eqb_refl, date_eqb_refl. reflexivity.
Qed.

Lemma healthAlertsOn_insert (db : Db) (userId : Z) (d : Date) :
  hasAlertToday db userId d = false ->
  healthAlertsOn db userId d = 0%nat /\
  healthAlertsOn (insertFinancialAlert db userId FINANCIAL_HEALTH d) userId d = 1%nat.
Proof.
  intros H. unfold hasAlertToday in H. unfold healthAlertsOn, insertFinancialAlert.
  rewrite H. cbn [financial_alerts set_financial_alerts].
  rewrite filter_app, (existsb_false_filter _ _ H). cbn [filter app].
  rewrite alertKeyMatches_self. split; reflexivity.
Qed.

(** A check either leaves everything as it is and sends nothing, or finds no
    record for today, inserts one and sends one alert. *)
Lemma checkFinancialHealth_cases (user : User) (db : Db) (clock : Clock)
    (response : option jsstring) :
  checkFinancialHealth user db clock response = (db, []) \/
  (hasAlertToday db (u_id user) (today clock) = false /\
   exists alertType topCategory advice,
     checkFinancialHealth user db clock response
     = (insertFinancialAlert db (u_id user) FINANCIAL_HEALTH (today clock),
        [(u_phone user, MsgFinancialHealth alertType topCategory advice)])).
Proof.
  unfold checkFinancialHealth.
  destruct (hasAlertToday db (u_id user) (today clock)) eqn:Hex; [left; reflexivity|].
  destruct (monthSpendingByCategory db (u_id user) (today clock)) as [|top rows];
    [left; reflexivity|].
  destruct (falsy _ || jsle _ _); [left; reflexivity|].
  destruct (selectHealthAlert _ _ _ _) as [alertType|]; [|left; reflexivity].
  right. split; [reflexivity|]. eauto.
Qed.

Lemma checkFinancialHealth_count (user : User) (db : Db) (clock : Clock)
    (response : option jsstring) :
  (healthAlertsOn db (u_id user) (today clock) <= 1)%nat ->
  (healthAlertsOn (fst (checkFinancialHealth user db clock response))
                  (u_id user) (today clock) <= 1)%nat /\
  healthAlertsOn (fst (checkFinancialHealth user db clock response))
                 (u_id user) (today clock)
  = (healthAlertsOn db (u_id user) (today clock)
     + List.length (snd (checkFinancialHealth user db clock response)))%nat.
Proof.
  intros Hle.
  destruct (checkFinancialHealth_cases user db clock response)
    as [->|(Hnone & alertType & top & advice & ->)]; simpl.
  - split; [exact Hle|lia].
  - destruct (healthAlertsOn_insert db (u_id user) (today clock) Hnone) as [-> ->].
    split; lia.
Qed.

Lemma checkAfterEach_count (userId : Z) (d : Date) (events : list ExpenseEvent) :
  forall db : Db,
  Forall (fun ev => u_id (ev_user ev) = userId /\ today (ev_clock ev) = d) events ->
  (healthAlertsOn db userId d <= 1)%nat ->
  (healthAlertsOn (fst (checkAfterEach events db)) userId d <= 1)%nat /\
  healthAlertsOn (fst (checkAfterEach events db)) userId d
  = (healthAlertsOn db userId d + List.length (snd (checkAfterEach events db)))%nat.
Proof.
  induction events as [|ev rest IH]; intros db Hall Hle; simpl.
  - split; [exact Hle|lia].
  - inversion Hall as [|? ? [Hu Hd] Hrest]; subst.
    set (db1 := insertTransaction db (ev_row ev)).
    assert (H1 : healthAlertsOn db1 (u_id (ev_user ev)) (today (ev_clock ev))
                 = healthAlertsOn db (u_id (ev_user ev)) (today (ev_clock ev)))
      by reflexivity.
    destruct (checkFinancialHealth_count (ev_user ev) db1 (ev_clock ev) (ev_response ev))
      as [Hle2 Heq2]; [rewrite H1; exact Hle|].
    destruct (checkFinancialHealth (ev_user ev) db1 (ev_clock ev) (ev_response ev))
      as [db2 out] eqn:Hc.
    simpl in Hle2, Heq2.
    destruct (IH db2 Hrest Hle2) as [Hle3 Heq3].
    destruct (checkAfterEach rest db2) as [db3 outs]. simpl in *.
    split; [exact Hle3|]. rewrite Heq3, Heq2, H1, length_app. lia.
Qed.

(** C2: at most one financial-health record per user and calendar day.  A
    check that finds today's record returns without firing; a check that
    fires inserts exactly one record; and after any number of expenses
    written and checked on that day there is still at most one record, and
    at most one alert was sent. *)
Theorem financial_health_at_most_one_per_day
    (user : User) (db : Db) (clock : Clock) (response : option jsstring)
    (events : list ExpenseEvent) :
  (healthAlertsOn db (u_id user) (today clock) <= 1)%nat ->
  Forall (fun ev => u_id (ev_user ev) = u_id user /\ today (ev_clock ev) = today clock)
         events ->
  (hasAlertToday db (u_id user) (today clock) = true ->
   checkFinancialHealth user db clock response = (db, [])) /\
  (snd (checkFinancialHealth user db clock response) <> [] ->
   healthAlertsOn db (u_id user) (today clock) = 0%nat /\
   healthAlertsOn (fst (checkFinancialHealth user db clock response))
                  (u_id user) (today clock) = 1%nat) /\
  (healthAlertsOn (fst (checkAfterEach events db)) (u_id user) (today clock) <= 1)%nat /\
  (healthAlertsOn db (u_id user) (today clock)
   + List.length (snd (checkAfterEach events db)) <= 1)%nat.
Proof.
  intros Hle Hall. split; [|split].
  - intros Hex. unfold checkFinancialHealth. rewrite Hex. reflexivity.
  - intros Hout.
    destruct (checkFinancialHealth_cases user db clock response)
      as [E|(Hnone & alertType & top & advice & E)]; rewrite E in *; simpl in *.
    + contradiction.
    + apply healthAlertsOn_insert. exact Hnone.
  - destruct (checkAfterEach_count (u_id user) (today clock) events db Hall Hle)
      as [H1 H2].
    split; [exact H1|]. rewrite <- H2. exact H1.
Qed.

(** *** The priority of the three conditions *)

Lemma Qltb_lt (a b : Q) : Qltb a b = true <-> (a < b)%Q.
Proof.
  unfold Qltb. rewrite Qlt_alt. destruct (a ?= b)%Q; split; congruence.
Qed.

Lemma Qleb_le (a b : Q) : Qleb a b = true <-> (a <= b)%Q.
Proof.
  unfold Qleb. rewrite Qle_alt. destruct (a ?= b)%Q; split; congruence.
Qed.

Lemma Qltb_of_lt (a b : Q) : (a < b)%Q -> Qltb a b = true.
Proof. apply Qltb_lt. Qed.

Lemma Qleb_false_of_lt (a b : Q) : (b < a)%Q -> Qleb a b = false.
Proof.
  intros H. destruct (Qleb a b) eqn:E; [|reflexivity].
  apply Qleb_le in E. exfalso. exact (Qlt_not_le _ _ H E).
Qed.

Lemma Qeq_bool_false_of_lt (a : Q) : (0 < a)%Q -> Qeq_bool a 0 = false.
Proof.
  intros H. destruct (Qeq_bool a 0) eqn:E; [|reflexivity].
  apply Qeq_bool_iff in E. rewrite E in H. exfalso. exact (Qlt_irrefl _ H).
Qed.

(** The first condition wins: when between 70% and 100% of the spending
    budget is used, the alert is [high_spending] whatever the other two
    conditions say. *)
Lemma selectHealthAlert_first (percentageUsed projectedSavings savingsGoal top : jsnum) :
  jsgt percentageUsed (ofZ 70) && jslt percentageUsed (ofZ 100) = true ->
  selectHealthAlert percentageUsed projectedSavings savingsGoal top = Some high_spending.
Proof.
  intros H. unfold selectHealthAlert. rewrite H. cbn [isSome negb].
  rewrite !andb_false_r. reflexivity.
Qed.

(** C3, as the code has it: effective income 800000, savings goal 100000
    and 560000 spent this month in a single category.  Exactly one alert is
    sent; it is the generic [high_spending] alert, the first condition in
    the priority order (80% of the spending budget is used); the category
    alert is not sent.  The message names the category only through the
    tip. *)
Theorem scenario_800000_fires_high_spending
    (user : User) (db : Db) (clock : Clock) (response : option jsstring)
    (income goal : Q) (row : CategorySpend) :
  getEffectiveMonthlyIncome user db clock = Fin income ->
  (income == 800000)%Q ->
  savings_goal user = Some goal ->
  (goal == 100000)%Q ->
  hasAlertToday db (u_id user) (today clock) = false ->
  monthSpendingByCategory db (u_id user) (today clock) = [row] ->
  (cs_total row == 560000)%Q ->
  checkFinancialHealth user db clock response
  = (insertFinancialAlert db (u_id user) FINANCIAL_HEALTH (today clock),
     [(u_phone user,
       MsgFinancialHealth high_spending (c_name (cs_category row))
         (generateFinancialAdvice response (c_name (cs_category row))))]).
Proof.
  intros Hinc Einc Hgoal Egoal Hnone Hrows Etot.
  unfold checkFinancialHealth. rewrite Hnone, Hrows, Hinc, Hgoal.
  cbn [parseFloat jssub jsneg jsadd fold_left falsy jsle].
  assert (Hbudget : (0 < income + - goal)%Q) by (rewrite Einc, Egoal; reflexivity).
  rewrite (Qeq_bool_false_of_lt _ Hbudget), (Qleb_false_of_lt _ _ Hbudget).
  cbn [orb].
  rewrite selectHealthAlert_first; [reflexivity|].
  unfold jsdiv. rewrite (Qeq_bool_false_of_lt _ Hbudget).
  cbn [jsmul ofZ jsgt jslt]. apply andb_true_iff. split; apply Qltb_of_lt.
  - rewrite Einc, Egoal, Etot. reflexivity.
  - rewrite Einc, Egoal, Etot. reflexivity.
Qed.

(** *** Positional edit and delete *)

Lemma nth_at_position {A : Type} (l : list A) (n : Z) (d : A) :
  1 <= n -> n <= Z.of_nat (List.length l) ->
  nth_error l (Z.to_nat (n - 1)) = Some (nth (Z.to_nat (n - 1)) l d).
Proof.
  intros H1 H2. apply nth_error_nth'. lia.
Qed.

Lemma resolvePosition_atPosition (db : Db) (userId : Z) (today : Date) (n txId : Z) :
  1 <= n ->
  resolvePosition db userId today n = Some txId ->
  atPosition db userId today n txId.
Proof.
  intros Hn. unfold resolvePosition, atPosition.
  destruct (getLastShownTxIds db userId) as [shown|].
  - destruct (Z.leb_spec n (Z.of_nat (List.length shown))) as [Hle|Hgt].
    + intros [= <-]. left. exists shown. split; [reflexivity|]. split; [exact Hle|].
      apply nth_at_position; assumption.
    + destruct (Z.ltb_spec (Z.of_nat (List.length (monthTransactionIds db userId today))) n)
        as [Hlt|Hge]; [discriminate|].
      intros [= <-]. right. split.
      * intros shown' [= <-]. exact Hgt.
      * apply nth_at_position; assumption.
  - destruct (Z.ltb_spec (Z.of_nat (List.length (monthTransactionIds db userId today))) n)
      as [Hlt|Hge]; [discriminate|].
    intros [= <-]. right. split; [intros shown' [=]|].
    apply nth_at_position; assumption.
Qed.

Lemma resolvePosition_beyond (db : Db) (userId : Z) (today : Date) (n : Z) :
  (forall shown, getLastShownTxIds db userId = Some shown ->
                 Z.of_nat (List.length shown) < n) ->
  Z.of_nat (List.length (monthTransactionIds db userId today)) < n ->
  resolvePosition db userId today n = None.
Proof.
  intros Hshown Hfb. unfold resolvePosition.
  apply Z.ltb_lt in Hfb. rewrite Hfb.
  destruct (getLastShownTxIds db userId) as [shown|]; [|reflexivity].
  specialize (Hshown shown eq_refl).
  destruct (Z.leb_spec n (Z.of_nat (List.length shown))); [lia|reflexivity].
Qed.

Lemma findTransaction_some (db : Db) (txId userId : Z) (tx : Transaction) :
  findTransaction db txId userId = Some tx ->
  In tx (transactions db) /\ t_id tx = txId /\ t_user_id tx = userId.
Proof.
  unfold findTransaction. intros H. apply find_some in H. destruct H as [Hin Hb].
  apply andb_true_iff in Hb. destruct Hb as [H1 H2].
  apply Z.eqb_eq in H1. apply Z.eqb_eq in H2. auto.
Qed.

Lemma indexMissing_false (n : Z) : 1 <= n -> indexMissing (Some n) = false.
Proof.
  intros H. unfold indexMissing.
  destruct (Z.eqb_spec n 0); [lia|]. destruct (Z.ltb_spec n 1); [lia|]. reflexivity.
Qed.

(** C4, as the code has it: a position resolves against the stored list of
    shown ids when that list is present and long enough, and against the
    fallback list (this month's transactions, newest first, at most 20)
    otherwise.  Delete removes, and edit opens for editing, only the
    transaction of the user at that position; any other outcome is a "not
    found" reply that changes nothing; a position beyond both lists is "no
    such expense". *)
Theorem positional_edit_delete_resolve_shown_or_fallback
    (user : User) (db : Db) (clock : Clock) (n : Z) :
  1 <= n ->
  ((exists r, notFoundReply n r /\
              handleDeleteExpense user (Some n) db clock = (db, [(u_phone user, r)])) \/
   (exists tx, In tx (transactions db) /\ t_user_id tx = u_id user /\
               atPosition db (u_id user) (today clock) n (t_id tx) /\
               handleDeleteExpense user (Some n) db clock
               = (deleteTransaction db (t_id tx) (u_id user),
                  [(u_phone user, MsgDeleted n tx)]))) /\
  ((exists r, notFoundReply n r /\
              handleEditExpense user (Some n) db clock = (db, [(u_phone user, r)])) \/
   (exists tx, In tx (transactions db) /\ t_user_id tx = u_id user /\
               atPosition db (u_id user) (today clock) n (t_id tx) /\
               handleEditExpense user (Some n) db clock
               = (update_user db (u_id user)
                    (with_pending (Some (pendingTransactionEdit (t_id tx)))),
                  [(u_phone user, MsgEditing n tx)]))) /\
  (forall t, In t (transactions db) ->
             ~ In t (transactions (fst (handleDeleteExpense user (Some n) db clock))) ->
             t_user_id t = u_id user /\
             atPosition db (u_id user) (today clock) n (t_id t)) /\
  ((forall shown, getLastShownTxIds db (u_id user) = Some shown ->
                  Z.of_nat (List.length shown) < n) ->
   Z.of_nat (List.length (monthTransactionIds db (u_id user) (today clock))) < n ->
   handleDeleteExpense user (Some n) db clock = (db, [(u_phone user, MsgNoSuchExpense n)]) /\
   handleEditExpense user (Some n) db clock = (db, [(u_phone user, MsgNoSuchExpense n)])).
Proof.
  intros Hn.
  unfold handleDeleteExpense, handleEditExpense.
  rewrite (indexMissing_false n Hn).
  destruct (resolvePosition db (u_id user) (today clock) n) as [txId|] eqn:Hres.
  - pose proof (resolvePosition_atPosition _ _ _ _ _ Hn Hres) as Hat.
    assert (Hbeyond : forall P : Prop,
               (forall shown, getLastShownTxIds db (u_id user) = Some shown ->
                              Z.of_nat (List.length shown) < n) ->
               Z.of_nat (List.length (monthTransactionIds db (u_id user) (today clock))) < n ->
               P).
    { intros P Hshown Hfallback.
      rewrite (resolvePosition_beyond _ _ _ _ Hshown Hfallback) in Hres. discriminate. }
    destruct (findTransaction db txId (u_id user)) as [tx|] eqn:Hfind.
    + destruct (findTransaction_some _ _ _ _ Hfind) as (Hin & Hid & Hu). subst txId.
      split; [right; exists tx; auto|]. split; [right; exists tx; auto|]. split.
      * intros t Ht Hgone.
        cbn [fst deleteTransaction set_transactions transactions] in Hgone.
        destruct (Z.eqb_spec (t_id t) (t_id tx)) as [Eid|Eid];
          destruct (Z.eqb_spec (t_user_id t) (u_id user)) as [Eu|Eu].
        -- split; [exact Eu|rewrite Eid; exact Hat].
        -- exfalso. apply Hgone. apply filter_In. split; [exact Ht|].
           apply Z.eqb_neq in Eu. rewrite Eu, andb_false_r. reflexivity.
        -- exfalso. apply Hgone. apply filter_In. split; [exact Ht|].
           apply Z.eqb_neq in Eid. rewrite Eid. reflexivity.
        -- exfalso. apply Hgone. apply filter_In. split; [exact Ht|].
           apply Z.eqb_neq in Eid. rewrite Eid. reflexivity.
      * intros Hshown Hfallback. exact (Hbeyond _ Hshown Hfallback).
    + split; [left; exists (MsgExpenseNotFound n); split; [right|]; reflexivity|].
      split; [left; exists (MsgExpenseNotFound n); split; [right|]; reflexivity|].
      split.
      * intros t Ht Hgone. contradiction.
      * intros Hshown Hfallback. exact (Hbeyond _ Hshown Hfallback).
  - split; [left; exists (MsgNoSuchExpense n); split; [left|]; reflexivity|].
    split; [left; exists (MsgNoSuchExpense n); split; [left|]; reflexivity|].
    split.
    + intros t Ht Hgone. contradiction.
    + intros _ _. split; reflexivity.
Qed.

(** *** Budgets *)

Lemma budgetPercentage_nonpositive_limit (spent : jsnum) (limit : Q) :
  (limit <= 0)%Q -> budgetPercentage spent (Fin limit) = Fin 0.
Proof.
  intros H. unfold budgetPercentage, jsgt, jslt.
  destruct (Qltb 0 limit) eqn:E; [|reflexivity].
  apply Qltb_lt in E. exfalso. exact (Qlt_not_le _ _ E H).
Qed.

Lemma budgetStatus_line_nonpositive_limit (db : Db) (userId : Z) (today : Date)
    (budget : Budget) (category : Category) (acc : StatusAcc) :
  (b_monthly_limit budget <= 0)%Q ->
  exists line,
    sa_lines (budgetStatus_loop db userId today [(budget, category)] acc)
    = sa_lines acc ++ [line] /\ bl_percentage line = Fin 0.
Proof.
  intros H. simpl. eexists. split; [reflexivity|]. simpl.
  apply budgetPercentage_nonpositive_limit. exact H.
Qed.

Lemma checkBudgetAlerts_nonpositive_limit (user : User) (categoryId : Z) (db : Db)
    (clock : Clock) (row : Budget) (category : Category) (rest : list (Budget * Category)) :
  filter (fun bc => b_category_id (fst bc) =? categoryId)
         (budgetsWithCategory db (u_id user)) = (row, category) :: rest ->
  (b_monthly_limit row <= 0)%Q ->
  checkBudgetAlerts user categoryId db clock = (db, []).
Proof.
  intros Hrow Hle. unfold checkBudgetAlerts. rewrite Hrow.
  cbn [parseFloat falsy jsle].
  apply Qleb_le in Hle. rewrite Hle, orb_true_r. reflexivity.
Qed.

(** *** Income re-estimation *)

Lemma last3MonthsTotals_same (db db' : Db) (userId : Z) (d d' : Date) :
  transactions db' = transactions db ->
  monthIndex d' = monthIndex d ->
  last3MonthsTotals db' userId d' = last3MonthsTotals db userId d.
Proof.
  intros Ht Hm. unfold last3MonthsTotals, monthlyIncomeTotal. rewrite Ht, Hm. reflexivity.
Qed.

Lemma Math_round_eq (q : Q) (z : Z) : (q == inject_Z z)%Q -> Math_round q = z.
Proof.
  intros H. unfold Math_round. rewrite H.
  unfold Qfloor, Qplus, inject_Z. cbn [Qnum Qden Pos.mul].
  symmetry. apply (Z.div_unique _ _ z 1); lia.
Qed.

Lemma find_user_update (db : Db) (userId : Z) (f : User -> User) (u : User) :
  (forall v, u_id (f v) = u_id v) ->
  find_user db userId = Some u ->
  find_user (update_user db userId f) userId = Some (f u).
Proof.
  intros Hf. unfold find_user, update_user. cbn [users set_users].
  induction (users db) as [|v l IH]; simpl; [discriminate|].
  destruct (Z.eqb_spec (u_id v) userId) as [E|E].
  - intros [= <-]. rewrite Hf. apply Z.eqb_eq in E. rewrite E. reflexivity.
  - apply Z.eqb_neq in E. rewrite E. exact IH.
Qed.

Lemma onCooldown_after_decline (u : User) (clock : Clock) (last : Z) :
  last_income_update_prompt u = Some last ->
  income_update_declined u = true ->
  now clock - last < COOLDOWN_DAYS_DECLINED * MS_PER_DAY ->
  onCooldown u clock = true.
Proof.
  intros Hlast Hdecl Hlt. unfold onCooldown. rewrite Hlast, Hdecl.
  apply Qltb_of_lt. apply Qlt_shift_div_r; [reflexivity|].
  rewrite <- inject_Z_mult, <- Zlt_Qlt. exact Hlt.
Qed.

(** C6: declared income 500000, an average of 650000 over the trailing
    three months, at least two of them with income, cooldown elapsed.  The
    prompt is sent (and its time recorded); accepting sets the declared
    income to 650000 and resets the decline flag; declining sets the flag,
    keeps the income, and the next prompt waits for the 60-day cooldown. *)
Theorem income_reestimation_500000_to_650000
    (user user' stored : User) (db : Db) (clock clock' : Clock) (currentIncome : Q) :
  monthly_income user = Some currentIncome ->
  (currentIncome == 500000)%Q ->
  (avg_income (last3MonthsTotals db (u_id user) (today clock)) == 650000)%Q ->
  2 <= months_with_income (last3MonthsTotals db (u_id user) (today clock)) ->
  onCooldown user clock = false ->
  find_user db (u_id user) = Some stored ->
  u_id user' = u_id user ->
  monthIndex (today clock') = monthIndex (today clock) ->
  let db1 := update_user db (u_id user) (with_income_prompt (Some (now clock))) in
  checkIncomeUpdatePrompt user db clock
  = (db1, [(u_phone user, MsgIncomeUpdatePrompt currentIncome 650000)]) /\
  (snd (handleIncomeUpdateResponse user' true db1 clock')
   = [(u_phone user', MsgIncomeUpdated 650000)] /\
   exists u2,
     find_user (fst (handleIncomeUpdateResponse user' true db1 clock')) (u_id user)
     = Some u2 /\
     monthly_income u2 = Some (inject_Z 650000) /\
     income_update_declined u2 = false) /\
  (exists u3,
     find_user (fst (handleIncomeUpdateResponse user' false db1 clock')) (u_id user)
     = Some u3 /\
     income_update_declined u3 = true /\
     monthly_income u3 = monthly_income stored /\
     forall later : Clock,
       now later - now clock < COOLDOWN_DAYS_DECLINED * MS_PER_DAY ->
       checkIncomeUpdatePrompt u3
         (fst (handleIncomeUpdateResponse user' false db1 clock')) later
       = (fst (handleIncomeUpdateResponse user' false db1 clock'), [])).
Proof.
  intros Hinc Einc Havg Hmonths Hcool Hstored Hid Hmonth db1.
  assert (Hround : Math_round (avg_income (last3MonthsTotals db (u_id user) (today clock)))
                   = 650000) by (apply Math_round_eq; exact Havg).
  assert (Hstored1 : find_user db1 (u_id user)
                     = Some (with_income_prompt (Some (now clock)) stored))
    by (apply find_user_update; [reflexivity|exact Hstored]).
  split; [|split].
  - unfold checkIncomeUpdatePrompt. rewrite Hcool, Hinc, Hround.
    destruct (Z.ltb_spec (months_with_income (last3MonthsTotals db (u_id user) (today clock)))
                MIN_MONTHS_HISTORY) as [Hlt|_]; [unfold MIN_MONTHS_HISTORY in Hlt; lia|].
    assert (Hpos : (0 < currentIncome)%Q) by (rewrite Einc; reflexivity).
    rewrite (Qeq_bool_false_of_lt _ Hpos), (Qleb_false_of_lt _ _ Hpos). cbn [orb].
    destruct (Qltb _ _) eqn:Hdiff; [|reflexivity].
    apply Qltb_lt in Hdiff. rewrite Havg, Einc in Hdiff. discriminate Hdiff.
  - unfold handleIncomeUpdateResponse. cbn [fst snd]. rewrite Hid.
    rewrite (last3MonthsTotals_same db db1 (u_id user) (today clock) (today clock')
               eq_refl Hmonth), Hround.
    split; [reflexivity|].
    eexists. split; [apply find_user_update; [reflexivity|exact Hstored1]|].
    split; reflexivity.
  - unfold handleIncomeUpdateResponse. cbn [fst snd]. rewrite Hid.
    eexists. split; [apply find_user_update; [reflexivity|exact Hstored1]|].
    split; [reflexivity|]. split; [reflexivity|].
    intros later Hlater. unfold checkIncomeUpdatePrompt.
    rewrite (onCooldown_after_decline _ later (now clock)); [reflexivity|reflexivity|reflexivity|exact Hlater].
Qed.

(** *** Marking as fixed *)

Lemma find_hd_filter {A : Type} (f : A -> bool) (l : list A) :
  find f l = hd_error (filter f l).
Proof.
  induction l as [|a l IH]; simpl; [reflexivity|].
  destruct (f a); [reflexivity|exact IH].
Qed.

Lemma filter_single {A : Type} (f : A -> bool) (l : list A) (a : A) :
  In a l -> f a = true -> (List.length (filter f l) <= 1)%nat -> filter f l = [a].
Proof.
  intros Hin Hf Hlen.
  assert (Ha : In a (filter f l)) by (apply filter_In; split; assumption).
  destruct (filter f l) as [|x [|y r]]; simpl in *.
  - contradiction.
  - destruct Ha as [->|[]]. reflexivity.
  - lia.
Qed.

(** C7: marking as fixed a transaction whose description matches, whatever
    the case, an active fixed expense of the user.  The reply is "already in
    your fixed expenses", the pending action is cleared, the table of fixed
    expenses is left as it is, so that there is still exactly one row for
    that description and at most one row per user and description. *)
Theorem mark_as_fixed_already_active
    (user : User) (db : Db) (clock : Clock) (transactionId : Z) (tx : Transaction)
    (existing : FixedExpense) :
  fixedExpensesUnique db ->
  markAsFixedTarget user db clock = inr transactionId ->
  findTransaction db transactionId (u_id user) = Some tx ->
  In existing (fixed_expenses db) ->
  fe_user_id existing = u_id user ->
  LOWER (fe_description existing) = LOWER (t_description tx) ->
  fe_is_active existing = true ->
  handleMarkAsFixed user db clock
  = (clearPendingFixedExpense db (u_id user),
     [(u_phone user, MsgAlreadyFixed (t_description tx))]) /\
  fixed_expenses (fst (handleMarkAsFixed user db clock)) = fixed_expenses db /\
  filter (sameDescription (u_id user) (t_description tx))
         (fixed_expenses (fst (handleMarkAsFixed user db clock))) = [existing] /\
  fixedExpensesUnique (fst (handleMarkAsFixed user db clock)).
Proof.
  intros Huniq Htarget Htx Hin Huser Hdesc Hactive.
  assert (Hsame : sameDescription (u_id user) (t_description tx) existing = true).
  { unfold sameDescription. rewrite Huser, Hdesc, Z.eqb_refl, str_eqb_refl. reflexivity. }
  pose proof (filter_single _ _ _ Hin Hsame (Huniq (u_id user) (t_description tx))) as Hone.
  assert (Hrun : handleMarkAsFixed user db clock
                 = (clearPendingFixedExpense db (u_id user),
                    [(u_phone user, MsgAlreadyFixed (t_description tx))])).
  { unfold handleMarkAsFixed. rewrite Htarget, Htx.
    unfold findFixedExpenseByDescription. rewrite find_hd_filter, Hone. cbn [hd_error].
    rewrite Hactive. reflexivity. }
  rewrite Hrun. cbn [fst]. split; [reflexivity|]. split; [reflexivity|].
  split; [exact Hone|exact Huniq].
Qed.

(** *** The dispatch on the pending action *)

(** The flows whose stored value reaches their own branch and no other: the
    bulk reminder, the account deletion, the edit of a transaction, a fixed
    expense awaiting its day, and the suggestion for a transaction whose id
    is at most 2000 and is neither 998 nor 999. *)
Lemma router_dispatch_own_branch (user : User) (message : jsstring) (db : Db) (clock : Clock) :
  (pending_fixed_expense_id user = Some PENDING_BULK_REMINDER ->
   entered (processPendingAction user message db clock) = [BulkReminderBranch]) /\
  (pending_fixed_expense_id user = Some PENDING_ACCOUNT_DELETION ->
   entered (processPendingAction user message db clock) = [AccountDeletionBranch]) /\
  (forall txId, 1 <= txId ->
   pending_fixed_expense_id user = Some (pendingTransactionEdit txId) ->
   entered (processPendingAction user message db clock) = [TransactionEditBranch txId]) /\
  (forall feId, 1 <= feId ->
   pending_fixed_expense_id user = Some (pendingFixedExpense feId) ->
   entered (processPendingAction user message db clock) = [FixedExpenseBranch feId]) /\
  (forall txId, 1 <= txId <= 2000 -> txId <> 998 -> txId <> 999 ->
   pending_fixed_expense_id user = Some (pendingMarkAsFixedSuggestion txId) ->
   entered (processPendingAction user message db clock) = [MarkAsFixedBranch txId]).
Proof.
  unfold processPendingAction, PENDING_BULK_REMINDER, PENDING_ACCOUNT_DELETION,
    pendingTransactionEdit, pendingFixedExpense, pendingMarkAsFixedSuggestion.
  repeat split.
  - intros ->. cbn [opt_Z_eqb]. rewrite Z.eqb_refl.
    destruct (handleFixedExpenseReminderResponse user message db clock) as [[|] r];
      reflexivity.
  - intros ->. reflexivity.
  - intros txId Hpos ->. cbn [opt_Z_eqb].
    destruct (Z.eqb_spec (-2000 - txId) (-999)); [lia|].
    destruct (Z.eqb_spec (-2000 - txId) (-998)); [lia|].
    destruct (Z.eqb_spec (-2000 - txId) 0); [lia|].
    destruct (Z.ltb_spec (-2000 - txId) (-2000)); [|lia].
    cbn [negb andb app entered]. f_equal. f_equal. lia.
  - intros feId Hpos ->. cbn [opt_Z_eqb].
    destruct (Z.eqb_spec feId (-999)); [lia|].
    destruct (Z.eqb_spec feId (-998)); [lia|].
    destruct (Z.eqb_spec feId 0); [lia|].
    destruct (Z.ltb_spec feId (-2000)); [lia|].
    destruct (Z.ltb_spec 0 feId); [|lia].
    reflexivity.
  - intros txId Hrange H998 H999 ->. cbn [opt_Z_eqb].
    destruct (Z.eqb_spec (- txId) (-999)); [lia|].
    destruct (Z.eqb_spec (- txId) (-998)); [lia|].
    destruct (Z.eqb_spec (- txId) 0); [lia|].
    destruct (Z.ltb_spec (- txId) (-2000)); [lia|].
    destruct (Z.ltb_spec 0 (- txId)); [lia|].
    destruct (Z.ltb_spec (- txId) 0); [|lia].
    cbn [negb andb app].
    replace (Z.abs (- txId)) with txId by lia.
    destruct (markAsFixedConfirm user (- txId) message db clock); reflexivity.
Qed.

(** The suggestion for a transaction whose id is above 2000 is stored as a
    value below -2000, which the router reads as the edit of transaction
    [id - 2000]; the ids 999 and 998 are read as the bulk reminder and the
    account deletion. *)
Lemma router_suggestion_misrouted (user : User) (message : jsstring) (db : Db) (clock : Clock) :
  (forall txId, 2000 < txId ->
   pending_fixed_expense_id user = Some (pendingMarkAsFixedSuggestion txId) ->
   processPendingAction user message db clock
   = mkRouted [TransactionEditBranch (txId - 2000)] true
              (transactionEdit user (txId - 2000) message db)) /\
  (pending_fixed_expense_id user = Some (pendingMarkAsFixedSuggestion 998) ->
   processPendingAction user message db clock
   = mkRouted [AccountDeletionBranch] true (accountDeletionConfirm user message db)).
Proof.
  unfold processPendingAction, PENDING_BULK_REMINDER, PENDING_ACCOUNT_DELETION,
    pendingMarkAsFixedSuggestion.
  split.
  - intros txId Hbig ->. cbn [opt_Z_eqb].
    destruct (Z.eqb_spec (- txId) (-999)); [lia|].
    destruct (Z.eqb_spec (- txId) (-998)); [lia|].
    destruct (Z.eqb_spec (- txId) 0); [lia|].
    destruct (Z.ltb_spec (- txId) (-2000)); [|lia].
    cbn [negb andb app].
    replace (Z.abs (- txId + 2000)) with (txId - 2000) by lia. reflexivity.
  - intros ->. reflexivity.
Qed.

(** *** A bare day while a fixed expense is pending *)

Lemma isDigit_cases (c : N) :
  isDigit c = true ->
  (c = 48 \/ c = 49 \/ c = 50 \/ c = 51 \/ c = 52 \/
   c = 53 \/ c = 54 \/ c = 55 \/ c = 56 \/ c = 57)%N.
Proof.
  unfold isDigit. intros H. apply andb_true_iff in H. destruct H as [H1 H2].
  apply N.leb_le in H1. apply N.leb_le in H2. lia.
Qed.

Ltac each_digit H :=
  destruct (isDigit_cases _ H) as [->|[->|[->|[->|[->|[->|[->|[->|[->| ->]]]]]]]]].

(** What the string tests of step 3.6 answer on a message of one or two
    digits. *)
Lemma bare_digits_tests (m : jsstring) :
  isOneOrTwoDigits m = true ->
  trim m = m /\
  oneOf m [lit "cancelar"; lit "saltar"; lit "skip"; lit "omitir"] = false /\
  wantsNoReminder m = false /\
  forall user clock, toLowerCase m = m -> incomeUpdateAnswer user m clock = None.
Proof.
  assert (Hanswer : forall user clock,
             (oneOf (trim (toLowerCase m))
                    [lit "si"; lit "s" ++ [i_acute]; lit "dale"; lit "ok"; lit "okay";
                     lit "actualizar"; lit "acepto"; lit "correcto"; lit "yes"] = false /\
              oneOf (trim (toLowerCase m))
                    [lit "no"; lit "nope"; lit "mejor no";
                     lit "despu" ++ [e_acute] ++ lit "s"; lit "mantener";
                     lit "nop"; lit "nel"] = false) ->
             incomeUpdateAnswer user m clock = None).
  { intros user clock [Hyes Hno]. unfold incomeUpdateAnswer.
    destruct (last_income_update_prompt user); [|reflexivity].
    destruct (Qltb _ 5); [|reflexivity]. rewrite Hyes, Hno. reflexivity. }
  revert Hanswer.
  destruct m as [|d1 [|d2 [|d3 r]]]; cbn [isOneOrTwoDigits]; try discriminate.
  - intros Hanswer H1.
    each_digit H1; (repeat split; try reflexivity);
      intros user clock Hlow; apply Hanswer; rewrite Hlow; split; reflexivity.
  - intros Hanswer H. apply andb_true_iff in H. destruct H as [H1 H2].
    each_digit H1; each_digit H2; (repeat split; try reflexivity);
      intros user clock Hlow; apply Hanswer; rewrite Hlow; split; reflexivity.
Qed.

Lemma extractReminderDay_bare_digits (message : jsstring) :
  isOneOrTwoDigits message = true ->
  toLowerCase message = message ->
  1 <= parseInt message <= 31 ->
  extractReminderDay message = Some (parseInt message).
Proof.
  intros Hd Hlow Hrange. unfold extractReminderDay.
  rewrite Hlow. destruct (bare_digits_tests message Hd) as [-> _].
  cbn [reminderDayPatterns extractReminderDay_loop]. unfold pattern_only_number.
  rewrite Hd.
  destruct (Z.leb_spec 1 (parseInt message)); [|lia].
  destruct (Z.leb_spec (parseInt message) 31); [|lia].
  reflexivity.
Qed.

Lemma updateFixedExpense_keeps_amounts (db : Db) (id userId : Z) (up : Updates) :
  up_typical_amount up = None ->
  map fe_typical_amount (fixed_expenses (updateFixedExpense db id userId up))
  = map fe_typical_amount (fixed_expenses db).
Proof.
  intros Hnone. unfold updateFixedExpense.
  destruct (isEmptyUpdates up); [reflexivity|].
  cbn [fixed_expenses set_fixed_expenses]. rewrite map_map.
  apply map_ext. intros fe.
  destruct ((fe_id fe =? id) && (fe_user_id fe =? userId)); [|reflexivity].
  unfold applyUpdates. rewrite Hnone. reflexivity.
Qed.

(** C10: a fixed expense is pending (a positive id) and the message is one
    or two digits that read as a day from 1 to 31.  The router takes the
    fixed-expense branch, sets the reminder day and nothing else, confirms
    the day and clears the pending action, and that is the whole of what
    [processUserMessage] does with the message: afterwards the row of the
    user with the pending id has that day as its reminder day and every
    other column as before, every other row is as it was, the transactions
    are untouched and the user's pending action is null.  And for any
    message at all, when the message is such a bare day the typical amounts
    stay as they were: an amount is only taken from a message that is not a
    bare day. *)
Theorem bare_day_sets_only_reminder_day
    (user : User) (fixedExpenseId : Z) (message : jsstring) (db : Db) (clock : Clock) :
  pending_fixed_expense_id user = Some fixedExpenseId ->
  0 < fixedExpenseId ->
  isOneOrTwoDigits message = true ->
  toLowerCase message = message ->
  1 <= parseInt message <= 31 ->
  processPendingAction user message db clock
  = mkRouted [FixedExpenseBranch fixedExpenseId] true
      (clearPendingFixedExpense
         (updateFixedExpense db fixedExpenseId (u_id user)
            (mkUpdates None None (Some (Some (parseInt message))) None))
         (u_id user),
       [(u_phone user, MsgReminderConfigured (parseInt message))]) /\
  processUserMessage user message db clock
  = outcome (processPendingAction user message db clock) /\
  (forall anyMessage : jsstring,
    isJustADay (trim (toLowerCase anyMessage)) (extractReminderDay anyMessage) = true ->
    map fe_typical_amount
        (fixed_expenses (fst (fixedExpenseEditOrDay user fixedExpenseId anyMessage db)))
    = map fe_typical_amount (fixed_expenses db)) /\
  fixed_expenses (fst (processUserMessage user message db clock))
  = map (fun fe =>
           if (fe_id fe =? fixedExpenseId) && (fe_user_id fe =? u_id user)
           then mkFixedExpense (fe_id fe) (fe_user_id fe) (fe_description fe)
                  (fe_typical_amount fe) (fe_category_id fe)
                  (Some (parseInt message)) (fe_is_active fe)
           else fe)
        (fixed_expenses db) /\
  transactions (fst (processUserMessage user message db clock)) = transactions db /\
  snd (processUserMessage user message db clock)
  = [(u_phone user, MsgReminderConfigured (parseInt message))] /\
  (forall u, In u (users (fst (processUserMessage user message db clock))) ->
             u_id u = u_id user -> pending_fixed_expense_id u = None).
Proof.
  intros Hpending Hpos Hdigits Hlow Hrange.
  assert (Hrouted :
    processPendingAction user message db clock
    = mkRouted [FixedExpenseBranch fixedExpenseId] true
        (clearPendingFixedExpense
           (updateFixedExpense db fixedExpenseId (u_id user)
              (mkUpdates None None (Some (Some (parseInt message))) None))
           (u_id user),
         [(u_phone user, MsgReminderConfigured (parseInt message))])).
  2: assert (Hwhole : processUserMessage user message db clock
                      = outcome (processPendingAction user message db clock)).
  3: split; [exact Hrouted|]; split; [exact Hwhole|]; split; [|rewrite Hwhole, Hrouted;
       cbn [outcome fst snd]; split; [|split; [|split]]].
  - unfold processPendingAction. rewrite Hpending.
    unfold PENDING_BULK_REMINDER, PENDING_ACCOUNT_DELETION. cbn [opt_Z_eqb].
    destruct (Z.eqb_spec fixedExpenseId (-999)); [lia|].
    destruct (Z.eqb_spec fixedExpenseId (-998)); [lia|].
    destruct (Z.eqb_spec fixedExpenseId 0); [lia|].
    destruct (Z.ltb_spec fixedExpenseId (-2000)); [lia|].
    destruct (Z.ltb_spec 0 fixedExpenseId); [|lia].
    cbn [negb andb app]. f_equal.
    unfold fixedExpenseEditOrDay. rewrite Hlow.
    destruct (bare_digits_tests message Hdigits) as (Htrim & Hcancel & Hnone & _).
    rewrite Htrim, Hcancel, Hnone.
    rewrite (extractReminderDay_bare_digits message Hdigits Hlow Hrange).
    unfold isJustADay. rewrite Hdigits. cbn [isSome andb truthyZ orb negb].
    destruct (Z.eqb_spec (parseInt message) 0); [lia|].
    cbn [negb andb]. unfold reminderUpdates. cbn [truthyZ].
    destruct (Z.eqb_spec (parseInt message) 0); [lia|]. reflexivity.
  - unfold processUserMessage.
    destruct (bare_digits_tests message Hdigits) as (_ & _ & _ & Hanswer).
    rewrite (Hanswer user clock Hlow), Hrouted. reflexivity.
  - intros anyMessage Hbare. unfold fixedExpenseEditOrDay. rewrite Hbare.
    destruct (oneOf _ _); [reflexivity|].
    destruct (wantsNoReminder _);
      [apply (updateFixedExpense_keeps_amounts db fixedExpenseId (u_id user)); reflexivity|].
    cbn [truthyZ orb negb andb].
    destruct (truthyZ (extractReminderDay anyMessage)) eqn:Hday; [|reflexivity].
    cbn [andb fst].
    apply (updateFixedExpense_keeps_amounts db fixedExpenseId (u_id user)). reflexivity.
  - reflexivity.
  - reflexivity.
  - reflexivity.
  - intros u Hin Hid. unfold clearPendingFixedExpense, update_user in Hin.
    cbn [users set_users] in Hin. apply in_map_iff in Hin.
    destruct Hin as (v & Hv & _). subst u.
    destruct (Z.eqb_spec (u_id v) (u_id user)) as [_|Hne]; [reflexivity|].
    contradiction.
Qed.

(** ** Further properties of the modelled code *)

(** *** Amounts read from text *)

Lemma parseInt_acc_nonneg (ds : jsstring) :
  forall acc, 0 <= acc ->
  Forall (fun c => isDigit c = true) ds ->
  0 <= fold_left (fun acc c => 10 * acc + (Z.of_N c - 48)) ds acc.
Proof.
  induction ds as [|c ds IH]; intros acc Hacc Hall; cbn [fold_left]; [exact Hacc|].
  inversion Hall as [|? ? Hc Hrest]; subst. apply IH; [|exact Hrest].
  unfold isDigit in Hc. apply andb_true_iff in Hc. destruct Hc as [H1 _].
  apply N.leb_le in H1. lia.
Qed.

Lemma takeWhile_all (p : N -> bool) (s : jsstring) :
  Forall (fun c => p c = true) (takeWhile p s).
Proof.
  induction s as [|c s IH]; simpl; [constructor|].
  destruct (p c) eqn:E; constructor; assumption.
Qed.

Lemma search_some {A : Type} (m : jsstring -> option A) (s : jsstring) (a : A) :
  search m s = Some a -> exists t, m t = Some a.
Proof.
  induction s as [|c s IH]; simpl.
  - destruct (m []) eqn:E; [intros [= <-]; eauto|discriminate].
  - destruct (m (c :: s)) eqn:E; [intros [= <-]; eauto|exact IH].
Qed.

Lemma numberThenUnit_digits (units : list jsstring) (cleaned m1 : jsstring) :
  numberThenUnit units cleaned = Some m1 -> Forall (fun c => isDigit c = true) m1.
Proof.
  intros H. apply search_some in H. destruct H as [t Ht].
  pose proof (takeWhile_all isDigit t) as Hall.
  destruct (takeWhile isDigit t) as [|d ds]; [discriminate|].
  destruct (tryAlternatives _ _ _); [|discriminate].
  injection Ht as <-. exact Hall.
Qed.

Lemma firstNumber_digits (cleaned m1 : jsstring) :
  firstNumber cleaned = Some m1 -> Forall (fun c => isDigit c = true) m1.
Proof.
  intros H. apply search_some in H. destruct H as [t Ht].
  pose proof (takeWhile_all isDigit t) as Hall.
  destruct (takeWhile isDigit t) as [|d ds]; [discriminate|].
  injection Ht as <-. exact Hall.
Qed.

(** [extractAmount] never returns a negative amount: a minus sign in the
    text is not read, for any text and any lowering. *)
Theorem extractAmount_never_negative (text : jsstring) :
  extractAmount text = None \/
  exists amount, extractAmount text = Some amount /\ 0 <= amount.
Proof.
  destruct (extractAmount text) as [amount|] eqn:E; [right|left; reflexivity].
  exists amount. split; [reflexivity|].
  revert E. unfold extractAmount, extractAmount_cleaned.
  repeat match goal with
         | |- (if ?b then _ else _) = _ -> _ => destruct b; [intros [= <-]; lia|]
         end.
  destruct (numberThenUnit _ _) as [m1|] eqn:E1.
  { intros [= <-]. apply numberThenUnit_digits in E1.
    pose proof (parseInt_acc_nonneg m1 0 ltac:(lia) E1). unfold parseInt. lia. }
  destruct (numberThenUnit (lit "palo" :: _) _) as [m2|] eqn:E2.
  { intros [= <-]. apply numberThenUnit_digits in E2.
    pose proof (parseInt_acc_nonneg m2 0 ltac:(lia) E2). unfold parseInt. lia. }
  destruct (firstNumber _) as [m3|] eqn:E3; [|discriminate].
  intros [= <-]. apply firstNumber_digits in E3.
  exact (parseInt_acc_nonneg m3 0 ltac:(lia) E3).
Qed.

(** *** Effective income *)

Lemma jsmax_fin (a b : Q) :
  exists e, jsmax (Fin a) (Fin b) = Fin e /\ (a <= e)%Q /\ (b <= e)%Q /\ (e = a \/ e = b).
Proof.
  unfold jsmax, jslt. destruct (Qltb a b) eqn:E.
  - apply Qltb_lt in E. exists b. repeat split; auto using Qlt_le_weak, Qle_refl.
  - exists a. repeat split; auto using Qle_refl.
    apply Qnot_lt_le. intros H. apply Qltb_lt in H. congruence.
Qed.

(** The effective income of a user with a declared income is the largest
    of the declared income, the average of the trailing months with income
    and, when there is income this month, the income of this month: it is
    one of the three and not below any of them. *)
Theorem effective_income_is_the_largest
    (user : User) (db : Db) (clock : Clock) (declared : Q) :
  monthly_income user = Some declared ->
  exists effective,
    getEffectiveMonthlyIncome user db clock = Fin effective /\
    (declared <= effective)%Q /\
    (avg_income (last3MonthsTotals db (u_id user) (today clock)) <= effective)%Q /\
    (currentMonthIncome db (u_id user) (today clock) <= effective \/
     currentMonthIncome db (u_id user) (today clock) <= 0)%Q /\
    (effective = declared \/
     effective = avg_income (last3MonthsTotals db (u_id user) (today clock)) \/
     effective = currentMonthIncome db (u_id user) (today clock)).
Proof.
  intros Hdecl. unfold getEffectiveMonthlyIncome. rewrite Hdecl. cbn [parseFloat].
  destruct (jsmax_fin declared (avg_income (last3MonthsTotals db (u_id user) (today clock))))
    as (base & Ebase & Hd & Ha & Hbase).
  rewrite Ebase.
  unfold jsgt, jslt. destruct (Qltb 0 _) eqn:Hcur.
  - destruct (jsmax_fin base (currentMonthIncome db (u_id user) (today clock)))
      as (e & Ee & Hb & Hc & He).
    rewrite Ee. exists e. split; [reflexivity|].
    split; [eapply Qle_trans; eassumption|].
    split; [eapply Qle_trans; eassumption|].
    split; [left; exact Hc|].
    destruct He as [-> | ->]; [|auto]. destruct Hbase as [-> | ->]; auto.
  - exists base. split; [reflexivity|]. split; [exact Hd|]. split; [exact Ha|].
    split.
    + right. apply Qnot_lt_le. intros H. apply Qltb_lt in H. congruence.
    + destruct Hbase as [-> | ->]; auto.
Qed.

(** *** Thresholds, in amounts *)

Lemma div_as_factor (t b : Q) : (0 < b)%Q -> (t == b * (t / b))%Q.
Proof.
  intros Hb. rewrite Qmult_div_r; [reflexivity|].
  intros E. rewrite E in Hb. exact (Qlt_irrefl _ Hb).
Qed.

Lemma Qltb_false_le (a b : Q) : Qltb a b = false <-> (b <= a)%Q.
Proof.
  split; intros H.
  - apply Qnot_lt_le. intros Hlt. apply Qltb_lt in Hlt. congruence.
  - destruct (Qltb a b) eqn:E; [|reflexivity].
    apply Qltb_lt in E. exfalso. exact (Qlt_not_le _ _ E H).
Qed.

Lemma Qleb_false_lt (a b : Q) : Qleb a b = false <-> (b < a)%Q.
Proof.
  split; intros H.
  - apply Qnot_le_lt. intros Hle. apply Qleb_le in Hle. congruence.
  - apply Qleb_false_of_lt. exact H.
Qed.

Lemma fold_spent_fin (rows : list CategorySpend) (a : Q) :
  fold_left (fun sum row => jsadd sum (Fin (cs_total row))) rows (Fin a)
  = Fin (fold_left Qplus (map cs_total rows) a).
Proof.
  revert a. induction rows as [|r rows IH]; intros a; simpl; [reflexivity|].
  apply IH.
Qed.

Lemma selectHealthAlert_high_spending_iff
    (percentageUsed projectedSavings savingsGoal top : jsnum) :
  selectHealthAlert percentageUsed projectedSavings savingsGoal top = Some high_spending
  <-> jsgt percentageUsed (ofZ 70) && jslt percentageUsed (ofZ 100) = true.
Proof.
  split; [|apply selectHealthAlert_first].
  unfold selectHealthAlert.
  destruct (jsgt percentageUsed (ofZ 70) && jslt percentageUsed (ofZ 100));
    [reflexivity|].
  cbn [isSome negb]. rewrite andb_true_r.
  destruct (jslt projectedSavings _); cbn [isSome negb];
    [rewrite andb_false_r; discriminate|].
  rewrite andb_true_r. destruct (jsgt top _); discriminate.
Qed.

(** In the exact arithmetic of the model the first condition of
    [checkFinancialHealth] holds when the spending lies strictly between 70%
    and 100% of the spending budget; the source divides in binary64, so at
    the two thresholds themselves its comparison can fall on either side. *)
Lemma high_spending_band_exact
    (user : User) (db : Db) (clock : Clock) (response : option jsstring)
    (income goal : Q) (top : CategorySpend) (others : list CategorySpend) :
  getEffectiveMonthlyIncome user db clock = Fin income ->
  savings_goal user = Some goal ->
  (goal < income)%Q ->
  hasAlertToday db (u_id user) (today clock) = false ->
  monthSpendingByCategory db (u_id user) (today clock) = top :: others ->
  ((7 # 10) * (income - goal) < Qsum (map cs_total (top :: others)) /\
   Qsum (map cs_total (top :: others)) < income - goal)%Q
  <->
  snd (checkFinancialHealth user db clock response)
  = [(u_phone user,
      MsgFinancialHealth high_spending (c_name (cs_category top))
        (generateFinancialAdvice response (c_name (cs_category top))))].
Proof.
  intros Hinc Hgoal Hpos Hnone Hrows.
  unfold checkFinancialHealth. rewrite Hnone, Hrows, Hinc, Hgoal.
  cbn [parseFloat jssub jsneg jsadd falsy jsle].
  assert (Hbudget : (0 < income + - goal)%Q) by lra.
  rewrite (Qeq_bool_false_of_lt _ Hbudget), (Qleb_false_of_lt _ _ Hbudget).
  cbn [orb]. rewrite fold_spent_fin. fold (Qsum (map cs_total (top :: others))).
  set (spent := Qsum (map cs_total (top :: others))).
  unfold jsdiv at 1. rewrite (Qeq_bool_false_of_lt _ Hbudget). cbn [jsmul ofZ].
  pose proof (div_as_factor spent (income + - goal) Hbudget) as Hfactor.
  set (x := (spent / (income + - goal))%Q) in *.
  split.
  - intros [Hlow Hhigh].
    rewrite selectHealthAlert_first; [reflexivity|].
    cbn [jsgt jslt ofZ]. apply andb_true_iff.
    split; apply Qltb_of_lt; unfold inject_Z; nra.
  - destruct (selectHealthAlert _ _ _ _) as [alertType|] eqn:Hsel; [|discriminate].
    cbn [snd]. intros [= ->].
    apply selectHealthAlert_high_spending_iff in Hsel.
    cbn [jsgt jslt ofZ] in Hsel. apply andb_true_iff in Hsel.
    destruct Hsel as [H1 H2]. apply Qltb_lt in H1. apply Qltb_lt in H2.
    unfold inject_Z in H1, H2. split; nra.
Qed.

(** The generic alert of [checkFinancialHealth], in amounts, for a positive
    spending budget (effective income less savings goal), a day without
    alert yet and a month with expenses: spending from 71% to 99% of the
    spending budget sends the high-spending alert, and spending of at most
    69% or at least 101% of it does not.  The statement keeps one
    percentage point away from the thresholds 70% and 100%, where the
    rounding of the source's division decides. *)
Theorem high_spending_alert_band
    (user : User) (db : Db) (clock : Clock) (response : option jsstring)
    (income goal : Q) (top : CategorySpend) (others : list CategorySpend) :
  getEffectiveMonthlyIncome user db clock = Fin income ->
  savings_goal user = Some goal ->
  (goal < income)%Q ->
  hasAlertToday db (u_id user) (today clock) = false ->
  monthSpendingByCategory db (u_id user) (today clock) = top :: others ->
  let spent := Qsum (map cs_total (top :: others)) in
  let alert :=
    [(u_phone user,
      MsgFinancialHealth high_spending (c_name (cs_category top))
        (generateFinancialAdvice response (c_name (cs_category top))))] in
  (((71 # 100) * (income - goal) <= spent /\ spent <= (99 # 100) * (income - goal))%Q ->
   snd (checkFinancialHealth user db clock response) = alert) /\
  ((spent <= (69 # 100) * (income - goal) \/ (101 # 100) * (income - goal) <= spent)%Q ->
   snd (checkFinancialHealth user db clock response) <> alert).
Proof.
  intros Hinc Hgoal Hpos Hnone Hrows spent alert.
  pose proof (high_spending_band_exact user db clock response income goal top others
                Hinc Hgoal Hpos Hnone Hrows) as Hexact.
  fold spent in Hexact. fold alert in Hexact.
  split.
  - intros [Hlow Hhigh]. apply Hexact. split; lra.
  - intros Hout Hsent. apply Hexact in Hsent. destruct Hsent as [Hlow Hhigh].
    destruct Hout; lra.
Qed.

(** [checkFinancialHealth] stays silent and records nothing when the
    savings goal is not below the effective income (or is missing): the
    guard on the spending budget returns before any percentage is
    computed. *)
Theorem financial_health_silent_without_budget
    (user : User) (db : Db) (clock : Clock) (response : option jsstring) (income : Q) :
  getEffectiveMonthlyIncome user db clock = Fin income ->
  (forall goal, savings_goal user = Some goal -> (income <= goal)%Q) ->
  checkFinancialHealth user db clock response = (db, []).
Proof.
  intros Hinc Hgoal. unfold checkFinancialHealth. rewrite Hinc.
  destruct (hasAlertToday _ _ _); [reflexivity|].
  destruct (monthSpendingByCategory _ _ _) as [|top rows]; [reflexivity|].
  destruct (savings_goal user) as [goal|]; cbn [parseFloat jssub jsneg jsadd falsy jsle];
    [|reflexivity].
  specialize (Hgoal goal eq_refl).
  assert (Hle : (income + - goal <= 0)%Q) by lra.
  apply Qleb_le in Hle. rewrite Hle, orb_true_r. reflexivity.
Qed.

(** The budget alert after an expense, in amounts: for a budget with a
    positive limit, spending at or above the limit sends the "exceeded"
    message, spending from 81% to 99% of the limit sends the warning, and
    spending of at most 79% of the limit sends nothing.  The statement keeps
    one percentage point away from the threshold 80% and below 100%, where
    the rounding of the source's division decides. *)
Theorem budget_alert_thresholds
    (user : User) (categoryId : Z) (db : Db) (clock : Clock)
    (row : Budget) (category : Category) (rest : list (Budget * Category)) :
  filter (fun bc => b_category_id (fst bc) =? categoryId)
         (budgetsWithCategory db (u_id user)) = (row, category) :: rest ->
  (0 < b_monthly_limit row)%Q ->
  let spent := monthSpent db (u_id user) (today clock) categoryId in
  let limit := b_monthly_limit row in
  ((limit <= spent)%Q ->
   checkBudgetAlerts user categoryId db clock
   = (db, [(u_phone user, MsgBudgetExceeded (c_name category) (Fin spent) (Fin limit))])) /\
  (((81 # 100) * limit <= spent /\ spent <= (99 # 100) * limit)%Q ->
   exists percentage,
     checkBudgetAlerts user categoryId db clock
     = (db, [(u_phone user, MsgBudgetWarning (c_name category) percentage)])) /\
  ((spent <= (79 # 100) * limit)%Q ->
   checkBudgetAlerts user categoryId db clock = (db, [])).
Proof.
  intros Hrow Hpos spent limit.
  unfold checkBudgetAlerts. rewrite Hrow. fold spent. fold limit.
  cbn [parseFloat falsy jsle].
  assert (Hlimit : (0 < limit)%Q) by exact Hpos.
  rewrite (Qeq_bool_false_of_lt _ Hlimit), (Qleb_false_of_lt _ _ Hlimit). cbn [orb].
  unfold jsdiv. rewrite (Qeq_bool_false_of_lt _ Hlimit). cbn [jsmul ofZ jsge jsle].
  pose proof (div_as_factor spent limit Hlimit) as Hfactor.
  set (x := (spent / limit)%Q) in *.
  split; [|split].
  - intros Hover.
    assert (H100 : Qleb (inject_Z 100) (x * inject_Z 100) = true)
      by (apply Qleb_le; unfold inject_Z; nra).
    rewrite H100. reflexivity.
  - intros [Hlow Hhigh].
    assert (H100 : Qleb (inject_Z 100) (x * inject_Z 100) = false)
      by (apply Qleb_false_lt; unfold inject_Z; nra).
    assert (H80 : Qleb (inject_Z 80) (x * inject_Z 100) = true)
      by (apply Qleb_le; unfold inject_Z; nra).
    rewrite H100, H80. eexists. reflexivity.
  - intros Hlow.
    assert (H100 : Qleb (inject_Z 100) (x * inject_Z 100) = false)
      by (apply Qleb_false_lt; unfold inject_Z; nra).
    assert (H80 : Qleb (inject_Z 80) (x * inject_Z 100) = false)
      by (apply Qleb_false_lt; unfold inject_Z; nra).
    rewrite H100, H80. reflexivity.
Qed.

(** *** The budget report *)

Lemma budgetStatus_loop_lines (db : Db) (userId : Z) (d : Date)
    (rows : list (Budget * Category)) :
  forall acc : StatusAcc,
  exists lines,
    sa_lines (budgetStatus_loop db userId d rows acc) = sa_lines acc ++ lines /\
    Forall2 (fun (row : Budget * Category) (line : BudgetLine) =>
               bl_name line = c_name (snd row) /\
               bl_limit line = Fin (b_monthly_limit (fst row)) /\
               bl_spent line = Fin (monthSpent db userId d (b_category_id (fst row))) /\
               ((b_monthly_limit (fst row) <= 0)%Q ->
                bl_percentage line = Fin 0 /\ bl_badge line = BadgeOk))
            rows lines.
Proof.
  induction rows as [|[budget category] rows IH]; intros acc; simpl.
  - exists []. rewrite app_nil_r. split; [reflexivity|constructor].
  - match goal with
    | |- context [budgetStatus_loop db userId d rows ?a] => destruct (IH a) as (lines & Hl & Hall)
    end.
    simpl in Hl. rewrite <- app_assoc in Hl. eexists. split; [exact Hl|].
    constructor; [|exact Hall]. simpl. repeat split.
    + apply budgetPercentage_nonpositive_limit. assumption.
    + rewrite budgetPercentage_nonpositive_limit by assumption. reflexivity.
Qed.

(** The budget report has one line per budget of the user, in the order of
    the category names, each with the limit and the spending of the month;
    the line of a budget whose limit is zero or negative shows 0% and the
    "ok" badge, whatever was spent. *)
Theorem budget_status_lines
    (user : User) (db : Db) (clock : Clock)
    (first : Budget * Category) (more : list (Budget * Category)) :
  sortBy (fun a b => str_leb (c_name (snd a)) (c_name (snd b)))
         (budgetsWithCategory db (u_id user)) = first :: more ->
  exists lines totalBudget totalSpent aggregate,
    handleBudgetStatus user db clock
    = (db, [(u_phone user, MsgBudgetStatus lines totalBudget totalSpent aggregate)]) /\
    Forall2 (fun (row : Budget * Category) (line : BudgetLine) =>
               bl_name line = c_name (snd row) /\
               bl_limit line = Fin (b_monthly_limit (fst row)) /\
               bl_spent line
               = Fin (monthSpent db (u_id user) (today clock) (b_category_id (fst row))) /\
               ((b_monthly_limit (fst row) <= 0)%Q ->
                bl_percentage line = Fin 0 /\ bl_badge line = BadgeOk))
            (first :: more) lines.
Proof.
  intros Hrows. unfold handleBudgetStatus. rewrite Hrows.
  destruct (budgetStatus_loop_lines db (u_id user) (today clock) (first :: more)
              (mkStatusAcc [] (ofZ 0) (ofZ 0))) as (lines & Hl & Hall).
  cbn [sa_lines app] in Hl. rewrite Hl.
  do 4 eexists. split; [reflexivity|exact Hall].
Qed.

(** *** When the income prompt is sent *)

(** In the exact arithmetic of the model the prompt of
    [checkIncomeUpdatePrompt] is sent when the trailing average is at least
    20% above or below the declared income; the source divides in binary64,
    so at that threshold itself its comparison can fall on either side. *)
Lemma income_prompt_exact
    (user : User) (db : Db) (clock : Clock) (declared : Q) :
  monthly_income user = Some declared ->
  let average := avg_income (last3MonthsTotals db (u_id user) (today clock)) in
  snd (checkIncomeUpdatePrompt user db clock) <> []
  <->
  onCooldown user clock = false /\
  2 <= months_with_income (last3MonthsTotals db (u_id user) (today clock)) /\
  (0 < declared)%Q /\
  ((12 # 10) * declared <= average \/ average <= (8 # 10) * declared)%Q.
Proof.
  intros Hdecl average. unfold checkIncomeUpdatePrompt. rewrite Hdecl. fold average.
  destruct (onCooldown user clock); [split; [intros H; contradiction H; reflexivity|intros [H _]; discriminate]|].
  unfold MIN_MONTHS_HISTORY, DIFF_THRESHOLD_PERCENT.
  destruct (Z.ltb_spec (months_with_income (last3MonthsTotals db (u_id user) (today clock))) 2)
    as [Hfew|Hmonths].
  { split; [intros H; contradiction H; reflexivity|intros (_ & H & _); lia]. }
  destruct (Qeq_bool declared 0 || Qleb declared 0) eqn:Hbad.
  { split; [intros H; contradiction H; reflexivity|]. intros (_ & _ & Hpos & _).
    rewrite (Qeq_bool_false_of_lt _ Hpos), (Qleb_false_of_lt _ _ Hpos) in Hbad.
    discriminate. }
  apply orb_false_iff in Hbad. destruct Hbad as [_ Hpos]. apply Qleb_false_lt in Hpos.
  pose proof (div_as_factor (average - declared) declared Hpos) as Hfactor.
  set (x := ((average - declared) / declared)%Q) in *.
  destruct (Qltb (Qabs (x * inject_Z 100)) (inject_Z 20)) eqn:Hdiff.
  - split; [intros H; contradiction H; reflexivity|].
    intros (_ & _ & _ & Hfar). exfalso.
    apply Qltb_lt in Hdiff. apply Qabs_Qlt_condition in Hdiff.
    unfold inject_Z in Hdiff. destruct Hdiff as [H1 H2]. destruct Hfar; nra.
  - split; [|intros _; discriminate]. intros _.
    split; [reflexivity|]. split; [exact Hmonths|]. split; [exact Hpos|].
    apply Qltb_false_le in Hdiff.
    destruct (Qlt_le_dec (x * inject_Z 100) 0) as [Hneg|Hnonneg].
    + right. rewrite Qabs_neg in Hdiff by (apply Qlt_le_weak; exact Hneg).
      unfold inject_Z in Hdiff. nra.
    + left. rewrite Qabs_pos in Hdiff by exact Hnonneg.
      unfold inject_Z in Hdiff. nra.
Qed.

(** For a user with a declared income, [checkIncomeUpdatePrompt] sends the
    prompt when no cooldown is running, at least two of the three trailing
    months have income, the declared income is positive, and the trailing
    average is at least 21% above or at least 21% below the declared income;
    and whenever it sends the prompt, no cooldown is running, there are two
    such months, the declared income is positive and the average is at least
    19% above or below it.  The statement keeps one percentage point away
    from the threshold 20%, where the rounding of the source's division
    decides. *)
Theorem income_prompt_exactly_when
    (user : User) (db : Db) (clock : Clock) (declared : Q) :
  monthly_income user = Some declared ->
  let average := avg_income (last3MonthsTotals db (u_id user) (today clock)) in
  (onCooldown user clock = false /\
   2 <= months_with_income (last3MonthsTotals db (u_id user) (today clock)) /\
   (0 < declared)%Q /\
   ((121 # 100) * declared <= average \/ average <= (79 # 100) * declared)%Q ->
   snd (checkIncomeUpdatePrompt user db clock) <> []) /\
  (snd (checkIncomeUpdatePrompt user db clock) <> [] ->
   onCooldown user clock = false /\
   2 <= months_with_income (last3MonthsTotals db (u_id user) (today clock)) /\
   (0 < declared)%Q /\
   ((119 # 100) * declared <= average \/ average <= (81 # 100) * declared)%Q).
Proof.
  intros Hdecl average.
  pose proof (income_prompt_exact user db clock declared Hdecl) as Hexact.
  cbv zeta in Hexact. fold average in Hexact.
  split.
  - intros (Hcool & Hmonths & Hpos & Hfar). apply Hexact.
    split; [exact Hcool|]. split; [exact Hmonths|]. split; [exact Hpos|].
    destruct Hfar; [left|right]; lra.
  - intros Hsent. apply Hexact in Hsent. destruct Hsent as (Hcool & Hmonths & Hpos & Hfar).
    split; [exact Hcool|]. split; [exact Hmonths|]. split; [exact Hpos|].
    destruct Hfar; [left|right]; lra.
Qed.

(** Accepting the income update when none of the three trailing months has
    income stores a declared income of 0: the average of no month is taken
    as 0. *)
Theorem income_accept_without_history
    (user stored : User) (db : Db) (clock : Clock) :
  last3MonthsTotals db (u_id user) (today clock) = [] ->
  find_user db (u_id user) = Some stored ->
  snd (handleIncomeUpdateResponse user true db clock) = [(u_phone user, MsgIncomeUpdated 0)] /\
  exists updated,
    find_user (fst (handleIncomeUpdateResponse user true db clock)) (u_id user)
    = Some updated /\
    monthly_income updated = Some (inject_Z 0) /\
    income_update_declined updated = false.
Proof.
  intros Hnone Hstored. unfold handleIncomeUpdateResponse. rewrite Hnone.
  cbn [fst snd avg_income]. split; [reflexivity|].
  eexists. split; [apply find_user_update; [reflexivity|exact Hstored]|].
  split; reflexivity.
Qed.

(** *** Listing and positions *)

Lemma insertBy_In {A : Type} (leb : A -> A -> bool) (x y : A) (l : list A) :
  In y (insertBy leb x l) <-> y = x \/ In y l.
Proof.
  induction l as [|a l IH]; simpl.
  - split; [intros [H|[]]; auto|intros [H|[]]; auto].
  - destruct (leb x a); simpl.
    + split; [intros [H|H]; auto|intros [H|H]; auto].
    + rewrite IH. split; [intros [H|[H|H]]; auto|intros [H|[H|H]]; auto].
Qed.

Lemma sortBy_In {A : Type} (leb : A -> A -> bool) (y : A) (l : list A) :
  In y (sortBy leb l) <-> In y l.
Proof.
  induction l as [|a l IH]; simpl; [reflexivity|].
  unfold sortBy in *. simpl. rewrite insertBy_In, IH.
  split; [intros [H|H]; auto|intros [H|H]; auto].
Qed.

Lemma insertBy_length {A : Type} (leb : A -> A -> bool) (x : A) (l : list A) :
  List.length (insertBy leb x l) = S (List.length l).
Proof.
  induction l as [|a l IH]; simpl; [reflexivity|].
  destruct (leb x a); simpl; [reflexivity|]. rewrite IH. reflexivity.
Qed.

Lemma In_firstn {A : Type} (n : nat) (l : list A) (x : A) :
  In x (firstn n l) -> In x l.
Proof.
  revert l. induction n as [|n IH]; intros l H; simpl in H; [contradiction|].
  destruct l as [|a l]; simpl in H; [contradiction|].
  destruct H as [H|H]; [left; exact H|right; apply IH; exact H].
Qed.

Lemma monthTransactions_In (db : Db) (userId : Z) (d : Date) (t : Transaction) :
  In t (monthTransactions db userId d) ->
  In t (transactions db) /\ t_user_id t = userId /\ sinceMonthStart d (t_date t) = true.
Proof.
  unfold monthTransactions. intros H. apply In_firstn in H.
  apply sortBy_In in H. apply filter_In in H. destruct H as [Hin Hb].
  apply andb_true_iff in Hb. destruct Hb as [Hu Hd]. apply Z.eqb_eq in Hu. auto.
Qed.

Lemma findTransaction_of_In (db : Db) (t : Transaction) :
  In t (transactions db) ->
  exists tx, findTransaction db (t_id t) (t_user_id t) = Some tx /\ t_id tx = t_id t.
Proof.
  intros Hin. unfold findTransaction.
  destruct (find _ (transactions db)) as [tx|] eqn:E.
  - exists tx. split; [reflexivity|]. apply find_some in E. destruct E as [_ Hb].
    apply andb_true_iff in Hb. destruct Hb as [H _]. apply Z.eqb_eq in H. exact H.
  - exfalso. pose proof (find_none _ _ E t Hin) as Hb. cbn beta in Hb.
    rewrite !Z.eqb_refl in Hb. discriminate.
Qed.

(** After [handleListMyExpenses] shows a month with transactions, the
    stored list is the list shown (at most 20 ids, each a transaction of the
    user dated this month), no transaction has changed, and "delete N" for
    a position N within the list deletes the transaction shown at N. *)
Theorem list_then_delete_by_position
    (user stored : User) (db : Db) (clock later : Clock) :
  find_user db (u_id user) = Some stored ->
  monthTransactions db (u_id user) (today clock) <> [] ->
  let db' := fst (handleListMyExpenses user db clock) in
  let shown := monthTransactions db (u_id user) (today clock) in
  snd (handleListMyExpenses user db clock) = [(u_phone user, LgExpenseList shown)] /\
  getLastShownTxIds db' (u_id user) = Some (map t_id shown) /\
  (List.length shown <= 20)%nat /\
  transactions db' = transactions db /\
  (forall t, In t shown ->
     In t (transactions db) /\ t_user_id t = u_id user /\
     sinceMonthStart (today clock) (t_date t) = true) /\
  (forall n t, 1 <= n -> nth_error shown (Z.to_nat (n - 1)) = Some t ->
     exists tx, t_id tx = t_id t /\
       handleDeleteExpense user (Some n) db' later
       = (deleteTransaction db' (t_id t) (u_id user), [(u_phone user, MsgDeleted n tx)])).
Proof.
  intros Hstored Hrows db' shown.
  assert (Hrun : handleListMyExpenses user db clock
                 = (setLastShownTxIds db (u_id user) (map t_id shown),
                    [(u_phone user, LgExpenseList shown)])).
  { unfold handleListMyExpenses. fold shown.
    destruct shown as [|t l] eqn:E; [contradiction Hrows; reflexivity|reflexivity]. }
  assert (Hshown : getLastShownTxIds db' (u_id user) = Some (map t_id shown)).
  { unfold db'. rewrite Hrun. cbn [fst]. unfold getLastShownTxIds, setLastShownTxIds.
    rewrite (find_user_update db (u_id user) _ stored); [reflexivity|reflexivity|exact Hstored]. }
  assert (Htx : transactions db' = transactions db)
    by (unfold db'; rewrite Hrun; reflexivity).
  split; [rewrite Hrun; reflexivity|]. split; [exact Hshown|].
  split; [unfold shown, monthTransactions; apply firstn_le_length|].
  split; [exact Htx|].
  split; [intros t Ht; apply monthTransactions_In; exact Ht|].
  intros n t Hn Hnth.
  assert (Hlen : n <= Z.of_nat (List.length (map t_id shown))).
  { rewrite length_map. assert (Z.to_nat (n - 1) < List.length shown)%nat
      by (apply nth_error_Some; congruence). lia. }
  assert (Hres : resolvePosition db' (u_id user) (today later) n = Some (t_id t)).
  { unfold resolvePosition. rewrite Hshown.
    destruct (Z.leb_spec n (Z.of_nat (List.length (map t_id shown)))); [|lia].
    f_equal. apply (f_equal (option_map t_id)) in Hnth. cbn [option_map] in Hnth.
    rewrite <- nth_error_map in Hnth.
    rewrite (nth_at_position (map t_id shown) n 0 Hn Hlen) in Hnth.
    injection Hnth as Hnth. exact Hnth. }
  destruct (monthTransactions_In db (u_id user) (today clock) t
              (nth_error_In _ _ Hnth)) as (Hin & Hu & _).
  rewrite <- Htx in Hin.
  destruct (findTransaction_of_In db' t Hin) as (tx & Hfind & Hid).
  rewrite Hu in Hfind.
  exists tx. split; [exact Hid|].
  unfold handleDeleteExpense. rewrite (indexMissing_false n Hn), Hres, Hfind, Hid.
  reflexivity.
Qed.

(** *** The last expense *)

Lemma sortBy_newest_first (l : list Transaction) :
  match hd_error (sortBy (fun a b => t_created_at b <=? t_created_at a) l) with
  | None => l = []
  | Some x => In x l /\ forall y, In y l -> t_created_at y <= t_created_at x
  end.
Proof.
  induction l as [|a l IH]; [reflexivity|].
  change (sortBy (fun a b => t_created_at b <=? t_created_at a) (a :: l))
    with (insertBy (fun a b => t_created_at b <=? t_created_at a) a
            (sortBy (fun a b => t_created_at b <=? t_created_at a) l)).
  destruct (sortBy (fun a b => t_created_at b <=? t_created_at a) l) as [|b s];
    cbn [hd_error] in IH; cbn [insertBy].
  - subst l. cbn [hd_error]. split; [left; reflexivity|].
    intros y [<-|[]]. lia.
  - destruct IH as [Hb Hmax].
    destruct (Z.leb_spec (t_created_at b) (t_created_at a)) as [Hle|Hgt]; cbn [hd_error].
    + split; [left; reflexivity|]. intros y [<-|Hy]; [lia|].
      specialize (Hmax y Hy). lia.
    + split; [right; exact Hb|]. intros y [<-|Hy]; [lia|]. apply Hmax. exact Hy.
Qed.

Lemma lastRecentTransaction_spec (db : Db) (userId : Z) (clock : Clock) :
  match lastRecentTransaction db userId clock with
  | None =>
      forall t, In t (transactions db) -> t_user_id t = userId ->
                t_created_at t < now clock - FIVE_MINUTES
  | Some tx =>
      In tx (transactions db) /\ t_user_id tx = userId /\
      now clock - FIVE_MINUTES <= t_created_at tx /\
      forall t, In t (transactions db) -> t_user_id t = userId ->
                now clock - FIVE_MINUTES <= t_created_at t ->
                t_created_at t <= t_created_at tx
  end.
Proof.
  unfold lastRecentTransaction.
  pose proof (sortBy_newest_first
                (filter (fun t => (t_user_id t =? userId) &&
                                  (now clock - FIVE_MINUTES <=? t_created_at t))
                        (transactions db))) as H.
  destruct (hd_error _) as [tx|].
  - destruct H as [Hin Hmax]. apply filter_In in Hin. destruct Hin as [Hin Hb].
    apply andb_true_iff in Hb. destruct Hb as [Hu Hr].
    apply Z.eqb_eq in Hu. apply Z.leb_le in Hr.
    repeat split; auto. intros t Ht Htu Htr. apply Hmax. apply filter_In.
    split; [exact Ht|]. apply andb_true_iff. split; [apply Z.eqb_eq|apply Z.leb_le]; auto.
  - intros t Ht Htu.
    destruct (Z.ltb_spec (t_created_at t) (now clock - FIVE_MINUTES)) as [Hlt|Hge];
      [exact Hlt|].
    exfalso. assert (Hin : In t (filter (fun t => (t_user_id t =? userId) &&
                                  (now clock - FIVE_MINUTES <=? t_created_at t))
                        (transactions db))).
    { apply filter_In. split; [exact Ht|]. apply andb_true_iff.
      split; [apply Z.eqb_eq|apply Z.leb_le]; auto. }
    rewrite H in Hin. contradiction.
Qed.

(** [handleDeleteLastExpense] deletes nothing when the user has no
    transaction created in the last five minutes; otherwise what it deletes
    is the user's newest transaction of those five minutes (its id, for that
    user), and nothing of another user or with another id. *)
Theorem delete_last_only_the_newest_recent (user : User) (db : Db) (clock : Clock) :
  ((forall t, In t (transactions db) -> t_user_id t = u_id user ->
              t_created_at t < now clock - FIVE_MINUTES) /\
   handleDeleteLastExpense user db clock = (db, [(u_phone user, LgNoRecentToDelete)])) \/
  (exists tx,
     In tx (transactions db) /\ t_user_id tx = u_id user /\
     now clock - FIVE_MINUTES <= t_created_at tx /\
     (forall t, In t (transactions db) -> t_user_id t = u_id user ->
                now clock - FIVE_MINUTES <= t_created_at t ->
                t_created_at t <= t_created_at tx) /\
     snd (handleDeleteLastExpense user db clock) = [(u_phone user, LgDeletedLast tx)] /\
     ~ In tx (transactions (fst (handleDeleteLastExpense user db clock))) /\
     (forall t, In t (transactions db) ->
                t_id t <> t_id tx \/ t_user_id t <> u_id user ->
                In t (transactions (fst (handleDeleteLastExpense user db clock))))).
Proof.
  pose proof (lastRecentTransaction_spec db (u_id user) clock) as H.
  unfold handleDeleteLastExpense.
  destruct (lastRecentTransaction db (u_id user) clock) as [tx|].
  - right. destruct H as (Hin & Hu & Hr & Hmax). exists tx.
    repeat split; auto; cbn [fst deleteTransaction set_transactions transactions].
    + intros Hstill. apply filter_In in Hstill. destruct Hstill as [_ Hb].
      rewrite Hu, !Z.eqb_refl in Hb. discriminate.
    + intros t Ht Hother. apply filter_In. split; [exact Ht|].
      destruct Hother as [Hid|Hus].
      * apply Z.eqb_neq in Hid. rewrite Hid. reflexivity.
      * apply Z.eqb_neq in Hus. rewrite Hus, andb_false_r. reflexivity.
  - left. split; [exact H|reflexivity].
Qed.

(** *** What the edit of a transaction can touch *)

(** Whatever the message, the transaction-edit step of the router changes
    no transaction other than the one being edited, and none of another
    user; the fixed expenses, budgets and alerts are left as they are. *)
Theorem transaction_edit_touches_only_its_transaction
    (user : User) (transactionId : Z) (message : jsstring) (db : Db) :
  let db' := fst (transactionEdit user transactionId message db) in
  (forall t, In t (transactions db) ->
             t_id t <> transactionId \/ t_user_id t <> u_id user ->
             In t (transactions db')) /\
  fixed_expenses db' = fixed_expenses db /\
  budgets db' = budgets db /\
  financial_alerts db' = financial_alerts db.
Proof.
  assert (Hkeep : forall (f : Transaction -> Transaction) t,
             In t (transactions db) ->
             t_id t <> transactionId \/ t_user_id t <> u_id user ->
             In t (map (fun t => if (t_id t =? transactionId) && (t_user_id t =? u_id user)
                                 then f t else t) (transactions db))).
  { intros f t Ht Hother. apply in_map_iff. exists t. split; [|exact Ht].
    destruct Hother as [Hid|Hus].
    - apply Z.eqb_neq in Hid. rewrite Hid. reflexivity.
    - apply Z.eqb_neq in Hus. rewrite Hus, andb_false_r. reflexivity. }
  unfold transactionEdit. cbv zeta.
  destruct (str_eqb _ (lit "cancelar")); [cbn; auto|].
  destruct (str_eqb _ (lit "eliminar") || str_eqb _ (lit "borrar")).
  { destruct (findTransaction db transactionId (u_id user)) as [tx|]; cbn; repeat split; auto.
    intros t Ht Hother. apply filter_In. split; [exact Ht|].
    destruct Hother as [Hid|Hus].
    - apply Z.eqb_neq in Hid. rewrite Hid. reflexivity.
    - apply Z.eqb_neq in Hus. rewrite Hus, andb_false_r. reflexivity. }
  destruct (startsWith _ (lit "desc:") || _ || _).
  { destruct (trim (afterFirstColon message)) as [|c newDesc]; cbn; repeat split; auto.
    all: intros t Ht Hother; apply (Hkeep _ t Ht Hother). }
  destruct (extractAmount message) as [newAmount|]; [|cbn; auto].
  destruct (negb (newAmount =? 0) && (0 <? newAmount)); cbn; repeat split; auto.
  all: intros t Ht Hother; apply (Hkeep _ t Ht Hother).
Qed.

(** *** From a handler to the next message *)

Lemma find_user_id (db : Db) (userId : Z) (u : User) :
  find_user db userId = Some u -> u_id u = userId.
Proof.
  unfold find_user. intros H. apply find_some in H. destruct H as [_ H].
  apply Z.eqb_eq. exact H.
Qed.

(** The router on a user row whose pending action is the edit of a
    transaction with a positive id, or a positive fixed-expense id. *)
Lemma processPendingAction_edit (user : User) (message : jsstring) (db : Db) (clock : Clock)
    (txId : Z) :
  1 <= txId ->
  pending_fixed_expense_id user = Some (pendingTransactionEdit txId) ->
  processPendingAction user message db clock
  = mkRouted [TransactionEditBranch txId] true (transactionEdit user txId message db).
Proof.
  intros Hpos Hp. unfold processPendingAction, pendingTransactionEdit in *.
  rewrite Hp. unfold PENDING_BULK_REMINDER, PENDING_ACCOUNT_DELETION. cbn [opt_Z_eqb].
  destruct (Z.eqb_spec (-2000 - txId) (-999)); [lia|].
  destruct (Z.eqb_spec (-2000 - txId) (-998)); [lia|].
  destruct (Z.eqb_spec (-2000 - txId) 0); [lia|].
  destruct (Z.ltb_spec (-2000 - txId) (-2000)); [|lia].
  cbn [negb andb app].
  replace (Z.abs (-2000 - txId + 2000)) with txId by lia. reflexivity.
Qed.

Lemma processPendingAction_fixed (user : User) (message : jsstring) (db : Db) (clock : Clock)
    (feId : Z) :
  1 <= feId ->
  pending_fixed_expense_id user = Some feId ->
  processPendingAction user message db clock
  = mkRouted [FixedExpenseBranch feId] true (fixedExpenseEditOrDay user feId message db).
Proof.
  intros Hpos Hp. unfold processPendingAction.
  rewrite Hp. unfold PENDING_BULK_REMINDER, PENDING_ACCOUNT_DELETION. cbn [opt_Z_eqb].
  destruct (Z.eqb_spec feId (-999)); [lia|].
  destruct (Z.eqb_spec feId (-998)); [lia|].
  destruct (Z.eqb_spec feId 0); [lia|].
  destruct (Z.ltb_spec feId (-2000)); [lia|].
  destruct (Z.ltb_spec 0 feId); [|lia].
  reflexivity.
Qed.

(** What [processUserMessage] (from step 3 on) does with a message of a
    user whose stored pending action routes to [branch] with result
    [handled]: within five minutes of an income prompt a yes or a no of the
    two vocabularies is the answer to that prompt and the pending action is
    not consulted; any other message is handled by the branch, and the
    classifier is not called. *)
Lemma processUserMessage_pending (user : User) (message : jsstring) (db : Db) (clock : Clock)
    (branch : list PendingBranch) (handled : Db * list Sent) :
  processPendingAction user message db clock = mkRouted branch true handled ->
  processUserMessage user message db clock
  = match incomeUpdateAnswer user message clock with
    | Some accepted => handleIncomeUpdateResponse user accepted db clock
    | None => handled
    end.
Proof.
  intros Hrouted. unfold processUserMessage.
  destruct (incomeUpdateAnswer user message clock); [reflexivity|].
  rewrite Hrouted. reflexivity.
Qed.

(** After [handleEditLastExpense] found the user's newest transaction of
    the last five minutes, the handler has changed no transaction and the
    user row the next request reads has the edit of that transaction as its
    pending action.  The next message of the user (onboarded, not an admin
    command) is then handled by the edit step of that transaction and by
    nothing else, unless it is a yes or a no sent within five minutes of an
    income prompt: step 3 takes that message as the answer to the prompt,
    and the edit stays pending. *)
Theorem edit_last_then_next_message_edits_it
    (user stored : User) (message : jsstring) (db : Db) (clock later : Clock)
    (tx : Transaction) :
  find_user db (u_id user) = Some stored ->
  lastRecentTransaction db (u_id user) clock = Some tx ->
  1 <= t_id tx ->
  let db' := fst (handleEditLastExpense user db clock) in
  let next := with_pending (Some (pendingTransactionEdit (t_id tx))) stored in
  transactions db' = transactions db /\
  snd (handleEditLastExpense user db clock) = [(u_phone user, LgEditingLast tx)] /\
  find_user db' (u_id user) = Some next /\
  processUserMessage next message db' later
  = match incomeUpdateAnswer next message later with
    | Some accepted => handleIncomeUpdateResponse next accepted db' later
    | None => transactionEdit next (t_id tx) message db'
    end.
Proof.
  intros Hstored Hlast Hpos db' next. subst db'.
  unfold handleEditLastExpense. rewrite Hlast. cbn [fst snd].
  split; [reflexivity|]. split; [reflexivity|].
  split.
  - apply find_user_update; [reflexivity|exact Hstored].
  - apply (processUserMessage_pending next message _ later
             [TransactionEditBranch (t_id tx)]).
    apply processPendingAction_edit; [exact Hpos|reflexivity].
Qed.

(** The position of a fixed expense: the lists are numbered from 1. *)
Lemma nth_error_in_range {A : Type} (l : list A) (i : Z) :
  1 <= i -> (Z.of_nat (List.length l) <? i) = false ->
  exists a, nth_error l (Z.to_nat (i - 1)) = Some a.
Proof.
  intros Hi Hlen. apply Z.ltb_ge in Hlen.
  destruct (nth_error l (Z.to_nat (i - 1))) as [a|] eqn:E; [exists a; reflexivity|].
  apply nth_error_None in E. lia.
Qed.

Lemma getFixedExpenses_In (db : Db) (userId : Z) (onlyActive : bool) (fe : FixedExpense) :
  In fe (getFixedExpenses db userId onlyActive) <->
  In fe (fixed_expenses db) /\ fe_user_id fe = userId /\
  (onlyActive = true -> fe_is_active fe = true).
Proof.
  unfold getFixedExpenses. rewrite sortBy_In, filter_In, andb_true_iff, Z.eqb_eq.
  destruct onlyActive; intuition congruence.
Qed.

(** "editar fijo N" for a position within the user's list stores the id of
    the N-th fixed expense (a row of the user) as the pending action of the
    user row the next request reads.  The next message of the user
    (onboarded, not an admin command) is then handled by the edit step of
    that fixed expense and by nothing else, unless it is a yes or a no sent
    within five minutes of an income prompt, which step 3 takes as the
    answer to the prompt.  Outside the list, or without a number, nothing is
    stored. *)
Theorem edit_fixed_then_next_message_edits_it
    (user stored : User) (index : option Z) (message : jsstring) (db : Db) (later : Clock) :
  find_user db (u_id user) = Some stored ->
  (forall fe, In fe (fixed_expenses db) -> 1 <= fe_id fe) ->
  let db' := fst (handleEditFixedExpense user index db) in
  let fixedExpenses := getFixedExpenses db (u_id user) false in
  match index with
  | Some i =>
      if (1 <=? i) && (i <=? Z.of_nat (List.length fixedExpenses)) then
        exists expense,
          let next := with_pending (Some (fe_id expense)) stored in
          nth_error fixedExpenses (Z.to_nat (i - 1)) = Some expense /\
          In expense (fixed_expenses db) /\ fe_user_id expense = u_id user /\
          snd (handleEditFixedExpense user index db) = [(u_phone user, FxEditing expense)] /\
          find_user db' (u_id user) = Some next /\
          processUserMessage next message db' later
          = match incomeUpdateAnswer next message later with
            | Some accepted => handleIncomeUpdateResponse next accepted db' later
            | None => fixedExpenseEditOrDay next (fe_id expense) message db'
            end
      else db' = db
  | None => db' = db
  end.
Proof.
  intros Hstored Hids db' fixedExpenses. subst db'.
  destruct index as [i|]; [|reflexivity].
  unfold handleEditFixedExpense, indexMissing. fold fixedExpenses.
  destruct (Z.leb_spec 1 i) as [H1|H1]; cbn [andb].
  - destruct (Z.eqb_spec i 0); [lia|]. destruct (Z.ltb_spec i 1); [lia|]. cbn [orb].
    destruct (Z.leb_spec i (Z.of_nat (List.length fixedExpenses))) as [H2|H2].
    + destruct (Z.ltb_spec (Z.of_nat (List.length fixedExpenses)) i) as [|_]; [lia|].
      destruct (nth_error_in_range fixedExpenses i H1) as [expense He];
        [apply Z.ltb_ge; lia|].
      rewrite He. cbn [fst snd].
      pose proof (nth_error_In _ _ He) as Hin.
      apply getFixedExpenses_In in Hin. destruct Hin as (Hin & Hu & _).
      exists expense. cbv zeta.
      split; [reflexivity|]. split; [exact Hin|]. split; [exact Hu|].
      split; [reflexivity|]. split.
      * apply find_user_update; [reflexivity|exact Hstored].
      * apply (processUserMessage_pending _ message _ later
                 [FixedExpenseBranch (fe_id expense)]).
        apply processPendingAction_fixed; [apply Hids; exact Hin|reflexivity].
    + destruct (Z.ltb_spec (Z.of_nat (List.length fixedExpenses)) i); [reflexivity|lia].
  - destruct (Z.eqb_spec i 0); [reflexivity|]. destruct (Z.ltb_spec i 1); [reflexivity|lia].
Qed.

(** *** Pausing and reactivating *)



Lemma filter_map_same {A : Type} (p : A -> bool) (f : A -> A) (l : list A) :
  (forall a, p (f a) = p a) ->
  filter p (map f l) = map f (filter p l).
Proof.
  intros Hf. induction l as [|a l IH]; [reflexivity|].
  cbn [map filter]. rewrite Hf. destruct (p a); cbn [map]; rewrite IH; reflexivity.
Qed.









(** The ORDER BY of a query fixes the order of the rows it returns only up
    to rows that compare equal; where no two rows do, the sorted list does
    not depend on the storage order. *)
Section Sorting.
Context {A : Type} (leb : A -> A -> bool).
Hypothesis leb_total : forall a b, leb a b = true \/ leb b a = true.
Hypothesis leb_trans : forall a b c, leb a b = true -> leb b c = true -> leb a c = true.






End Sorting.



(** *** The reminder days that can be stored *)

Lemma valid_same (db db' : Db) :
  fixed_expenses db' = fixed_expenses db -> reminderDaysValid db -> reminderDaysValid db'.
Proof. unfold reminderDaysValid. intros ->. auto. Qed.

Lemma valid_update (db : Db) (id userId : Z) (up : Updates) :
  (forall d, up_reminder_day up = Some (Some d) -> 1 <= d <= 31) ->
  reminderDaysValid db -> reminderDaysValid (updateFixedExpense db id userId up).
Proof.
  intros Hup Hdb. unfold updateFixedExpense.
  destruct (isEmptyUpdates up); [exact Hdb|].
  intros fe Hfe. cbn [fixed_expenses set_fixed_expenses] in Hfe.
  apply in_map_iff in Hfe. destruct Hfe as (x & <- & Hx).
  specialize (Hdb x Hx).
  destruct ((fe_id x =? id) && (fe_user_id x =? userId)); [|exact Hdb].
  cbn [applyUpdates fe_reminder_day].
  destruct (up_reminder_day up) as [[d|]|]; [apply Hup; reflexivity|exact I|exact Hdb].
Qed.

Lemma valid_insert (db : Db) (row : Z -> FixedExpense) :
  fe_reminder_day (row (next_fixed_expense_id db)) = None ->
  reminderDaysValid db -> reminderDaysValid (insertFixedExpense db row).
Proof.
  intros Hrow Hdb fe Hfe. cbn [insertFixedExpense fixed_expenses] in Hfe.
  apply in_app_iff in Hfe. destruct Hfe as [Hfe|[<-|[]]]; [apply Hdb; exact Hfe|].
  rewrite Hrow. exact I.
Qed.

Lemma valid_deleteUser (db : Db) (phone : jsstring) :
  reminderDaysValid db -> reminderDaysValid (deleteUser db phone).
Proof.
  intros Hdb. unfold deleteUser.
  destruct (find _ (users db)); [|exact Hdb].
  intros fe Hfe. cbn [fixed_expenses] in Hfe. apply filter_In in Hfe.
  apply Hdb. apply Hfe.
Qed.

Lemma transactionEdit_fixed_expenses (user : User) (txId : Z) (message : jsstring) (db : Db) :
  fixed_expenses (fst (transactionEdit user txId message db)) = fixed_expenses db.
Proof.
  unfold transactionEdit. cbv zeta.
  destruct (str_eqb _ (lit "cancelar")); [reflexivity|].
  destruct (str_eqb _ (lit "eliminar") || str_eqb _ (lit "borrar")).
  { destruct (findTransaction db txId (u_id user)); reflexivity. }
  destruct (startsWith _ (lit "desc:") || _ || _).
  { destruct (trim (afterFirstColon message)); reflexivity. }
  destruct (extractAmount message) as [newAmount|]; [|reflexivity].
  destruct (negb (newAmount =? 0) && (0 <? newAmount)); reflexivity.
Qed.

Lemma valid_handleMarkAsFixed (user : User) (db : Db) (clock : Clock) :
  reminderDaysValid db -> reminderDaysValid (fst (handleMarkAsFixed user db clock)).
Proof.
  intros Hdb. unfold handleMarkAsFixed.
  destruct (markAsFixedTarget user db clock) as [reply|transactionId]; [exact Hdb|].
  destruct (findTransaction db transactionId (u_id user)) as [tx|]; [|exact Hdb].
  destruct (findFixedExpenseByDescription db (u_id user) (t_description tx)) as [existing|].
  - destruct (fe_is_active existing); [exact Hdb|].
    cbn [fst snd].
    apply (valid_same (updateFixedExpense db (fe_id existing) (u_id user)
                         (mkUpdates (Some (t_amount tx)) None None (Some true))));
      [reflexivity|].
    apply valid_update; [discriminate|exact Hdb].
  - destruct (match t_description tx with
              | [] => categoryName db (t_category_id tx)
              | c :: r => Some (c :: r)
              end) as [description|]; [|exact Hdb].
    cbn [fst snd createFixedExpense].
    apply (valid_same (insertFixedExpense db
             (fun id => mkFixedExpense id (u_id user) description (t_amount tx)
                          (t_category_id tx) None true))); [reflexivity|].
    apply valid_insert; [reflexivity|exact Hdb].
Qed.

Lemma valid_fixedExpenseEditOrDay (user : User) (feId : Z) (message : jsstring) (db : Db) :
  reminderDaysValid db ->
  reminderDaysValid (fst (fixedExpenseEditOrDay user feId message db)).
Proof.
  intros Hdb. unfold fixedExpenseEditOrDay. cbv zeta.
  destruct (oneOf _ [lit "cancelar"; lit "saltar"; lit "skip"; lit "omitir"]); [exact Hdb|].
  destruct (wantsNoReminder _).
  { cbn [fst].
    apply (valid_same (updateFixedExpense db feId (u_id user)
                         (mkUpdates None None (Some None) None))); [reflexivity|].
    apply valid_update; [discriminate|exact Hdb]. }
  assert (Hupd : forall amount,
             reminderDaysValid
               (clearPendingFixedExpense
                  (updateFixedExpense db feId (u_id user)
                     (reminderUpdates amount (extractReminderDay message)))
                  (u_id user))).
  { intros amount.
    apply (valid_same (updateFixedExpense db feId (u_id user)
                         (reminderUpdates amount (extractReminderDay message))));
      [reflexivity|].
    apply valid_update; [|exact Hdb].
    intros d. unfold reminderUpdates. cbn [up_reminder_day].
    destruct (truthyZ (extractReminderDay message)); [|discriminate].
    intros [= E]. unfold extractReminderDay in E.
    exact (extractReminderDay_loop_range _ _ _ E). }
  destruct (truthyZ _ || truthyZ _); [|exact Hdb].
  destruct (truthyZ (extractReminderDay message) && _); cbn [fst]; apply Hupd.
Qed.

(** No message and no reminder-day intent can store a reminder day outside
    1..31: while every stored day is a day of the month, it is so after
    [handleSetReminderDay] (whatever day and id the classifier passes),
    after the pending-action steps of the router on any message, after
    [handleMarkAsFixed], and after pausing or reactivating. *)
Theorem reminder_days_stay_valid (user : User) (db : Db) (clock : Clock) :
  reminderDaysValid db ->
  (forall day fixedExpenseId,
      reminderDaysValid (fst (handleSetReminderDay user day fixedExpenseId db))) /\
  (forall message,
      reminderDaysValid (fst (outcome (processPendingAction user message db clock)))) /\
  reminderDaysValid (fst (handleMarkAsFixed user db clock)) /\
  (forall index,
      reminderDaysValid (fst (handlePauseFixedExpense user index db)) /\
      reminderDaysValid (fst (handleActivateFixedExpense user index db))).
Proof.
  intros Hdb. split; [|split; [|split]].
  - intros day fixedExpenseId. unfold handleSetReminderDay.
    destruct (reminderDayOf day) as [reminderDay|]; [|exact Hdb].
    destruct (Z.eqb_spec reminderDay 0); [exact Hdb|].
    destruct (Z.ltb_spec reminderDay 1); [exact Hdb|].
    destruct (Z.ltb_spec 31 reminderDay); [exact Hdb|]. cbn [orb].
    destruct (if truthyZ fixedExpenseId then fixedExpenseId
              else pending_fixed_expense_id user) as [id|]; [|exact Hdb].
    destruct ((id =? 0) || (id <? 0)); [exact Hdb|]. cbn [fst].
    apply (valid_same (updateFixedExpense db id (u_id user)
                         (mkUpdates None None (Some (Some reminderDay)) None)));
      [reflexivity|].
    apply valid_update; [|exact Hdb].
    cbn [up_reminder_day]. intros d [= <-]. lia.
  - intros message. unfold processPendingAction. cbv zeta.
    assert (Hbulk : forall flag r,
               handleFixedExpenseReminderResponse user message db clock = (flag, r) ->
               reminderDaysValid (fst r)).
    { intros flag r. unfold handleFixedExpenseReminderResponse. cbv zeta.
      destruct (isRegisterAll _).
      { intros [= _ <-]. apply (valid_same db); [|exact Hdb].
        apply registerAll_transactions. }
      destruct (isAdjust _); [intros [= _ <-]; exact Hdb|].
      destruct (isSkipMonth _); intros [= _ <-]; exact Hdb. }
    assert (Hrest : forall before,
               reminderDaysValid
                 (fst (outcome
                    (if opt_Z_eqb (pending_fixed_expense_id user)
                                  (Some PENDING_ACCOUNT_DELETION)
                     then mkRouted (before ++ [AccountDeletionBranch]) true
                                   (accountDeletionConfirm user message db)
                     else
                       match pending_fixed_expense_id user with
                       | Some p =>
                           if negb (p =? 0) && (p <? -2000) then
                             mkRouted (before ++ [TransactionEditBranch (Z.abs (p + 2000))])
                                      true
                                      (transactionEdit user (Z.abs (p + 2000)) message db)
                           else if negb (p =? 0) && (0 <? p) then
                             mkRouted (before ++ [FixedExpenseBranch p]) true
                                      (fixedExpenseEditOrDay user p message db)
                           else if negb (p =? 0) && (p <? 0) && negb (p =? -999) then
                             match markAsFixedConfirm user p message db clock with
                             | inl r => mkRouted (before ++ [MarkAsFixedBranch (Z.abs p)])
                                                 true r
                             | inr db' => mkRouted (before ++ [MarkAsFixedBranch (Z.abs p)])
                                                   false (db', [])
                             end
                           else mkRouted before false (db, [])
                       | None => mkRouted before false (db, [])
                       end)))).
    { intros before.
      destruct (opt_Z_eqb _ (Some PENDING_ACCOUNT_DELETION)).
      { cbn [outcome]. unfold accountDeletionConfirm. cbv zeta.
        destruct (oneOf _ [lit "confirmar eliminar"; lit "confirmar"; lit "si eliminar"]);
          [apply valid_deleteUser; exact Hdb|].
        destruct (oneOf _ [lit "cancelar"; lit "no"]); exact Hdb. }
      destruct (pending_fixed_expense_id user) as [p|]; [|exact Hdb].
      destruct (negb (p =? 0) && (p <? -2000)).
      { cbn [outcome]. apply (valid_same db); [|exact Hdb].
        apply transactionEdit_fixed_expenses. }
      destruct (negb (p =? 0) && (0 <? p)).
      { cbn [outcome]. apply valid_fixedExpenseEditOrDay. exact Hdb. }
      destruct (negb (p =? 0) && (p <? 0) && negb (p =? -999)); [|exact Hdb].
      unfold markAsFixedConfirm. cbv zeta.
      destruct (oneOf _ _).
      { cbn [outcome]. apply valid_handleMarkAsFixed. exact Hdb. }
      cbn [outcome fst].
      destruct (findTransactionById db (Z.abs p)) as [tx|]; [|exact Hdb].
      apply (valid_same (insertRejectedPlaceholder db (u_id user) tx)); [reflexivity|].
      apply valid_insert; [reflexivity|exact Hdb]. }
    destruct (opt_Z_eqb (pending_fixed_expense_id user) (Some PENDING_BULK_REMINDER)).
    + destruct (handleFixedExpenseReminderResponse user message db clock) as [flag r] eqn:E.
      destruct flag; [cbn [outcome]; exact (Hbulk _ _ eq_refl)|apply Hrest].
    + apply Hrest.
  - apply valid_handleMarkAsFixed. exact Hdb.
  - intros index. split.
    + unfold handlePauseFixedExpense. destruct index as [i|]; [|exact Hdb].
      destruct (indexMissing (Some i)); [exact Hdb|]. cbv zeta.
      destruct (_ <? i); [exact Hdb|].
      destruct (nth_error _ _) as [expense|]; [|exact Hdb].
      destruct (negb (fe_is_active expense)); [exact Hdb|].
      cbn [fst]. apply valid_update; [discriminate|exact Hdb].
    + unfold handleActivateFixedExpense. destruct index as [i|]; [|exact Hdb].
      destruct (indexMissing (Some i)); [exact Hdb|]. cbv zeta.
      destruct (_ <? i); [exact Hdb|].
      destruct (nth_error _ _) as [expense|]; [|exact Hdb].
      destruct (fe_is_active expense); [exact Hdb|].
      cbn [fst]. apply valid_update; [discriminate|exact Hdb].
Qed.

(** *** Who is reminded *)

Lemma sendReminders_loop_spec (rows : list UserReminder) :
  forall acc : RemindersAcc,
    rm_sent (sendReminders_loop rows acc) = rm_sent acc ++ map reminderMessage rows /\
    rm_sentCount (sendReminders_loop rows acc)
    = rm_sentCount acc + Z.of_nat (List.length rows) /\
    users (rm_db (sendReminders_loop rows acc))
    = map (fun u => if existsb (fun r => ur_user_id r =? u_id u) rows
                    then with_pending (Some PENDING_BULK_REMINDER) u else u)
          (users (rm_db acc)) /\
    transactions (rm_db (sendReminders_loop rows acc)) = transactions (rm_db acc) /\
    fixed_expenses (rm_db (sendReminders_loop rows acc)) = fixed_expenses (rm_db acc).
Proof.
  induction rows as [|r rows IH]; intros acc.
  - cbn [sendReminders_loop map existsb List.length]. rewrite app_nil_r, Z.add_0_r.
    repeat split; auto. rewrite map_id. reflexivity.
  - cbn [sendReminders_loop].
    destruct (IH (mkRemindersAcc
                    (awaitBulkReminderResponse (rm_db acc) (ur_user_id r))
                    (rm_sent acc ++ [reminderMessage r])
                    (rm_sentCount acc + 1))) as (Hs & Hc & Hu & Ht & Hf).
    cbn [rm_db rm_sent rm_sentCount] in Hs, Hc, Hu, Ht, Hf.
    split; [|split; [|split; [|split]]].
    + rewrite Hs. rewrite <- app_assoc. reflexivity.
    + rewrite Hc. cbn [List.length]. lia.
    + rewrite Hu. unfold awaitBulkReminderResponse, update_user.
      cbn [users set_users]. rewrite map_map. apply map_ext. intros u.
      cbn [existsb]. rewrite (Z.eqb_sym (ur_user_id r) (u_id u)).
      destruct (u_id u =? ur_user_id r); cbn [orb].
      * destruct (existsb _ rows); reflexivity.
      * reflexivity.
    + rewrite Ht. reflexivity.
    + rewrite Hf. reflexivity.
Qed.

Lemma reminder_rows (db : Db) (day : Z) (r : UserReminder) :
  In r (getFixedExpensesForReminderDay db day) <->
  exists u, In u (users db) /\ onboarding_complete u = true /\
            ur_expenses r <> [] /\
            r = mkUserReminder (u_id u) (u_phone u) (u_name u)
                               (filter (dueOn day (u_id u)) (fixed_expenses db)).
Proof.
  unfold getFixedExpensesForReminderDay. rewrite in_flat_map. split.
  - intros (u & Hu & Hr). exists u. split; [exact Hu|].
    destruct (onboarding_complete u); [|contradiction].
    destruct (filter (dueOn day (u_id u)) (fixed_expenses db)) as [|fe l] eqn:E;
      [contradiction|].
    destruct Hr as [<-|[]]. cbn [ur_expenses]. repeat split. discriminate.
  - intros (u & Hu & Hon & Hne & ->). exists u. split; [exact Hu|].
    rewrite Hon. cbn [ur_expenses] in Hne.
    destruct (filter (dueOn day (u_id u)) (fixed_expenses db)) as [|fe l];
      [contradiction Hne; reflexivity|]. left. reflexivity.
Qed.

(** The run of [sendFixedExpenseReminders] on day D.  Every user who
    completed onboarding and has an active fixed expense whose reminder day
    is D is sent a reminder, to the user's phone and with the user's name,
    that lists that expense and totals the amounts listed; every reminder
    sent is such a one, and lists exactly the active expenses of its user
    due on D.  The count returned is the number of messages; the users whose
    id the query returned, which are those users, and no other, are left
    with the bulk-reminder value as pending action (replacing whatever was
    pending); transactions and fixed expenses are not touched. *)
Theorem reminders_reach_exactly_the_due_users (db : Db) (clock : Clock) :
  let run := sendFixedExpenseReminders db clock in
  let day := dayOfMonth clock in
  (forall userId,
      notified db day userId = true <->
      exists u fe, In u (users db) /\ u_id u = userId /\ onboarding_complete u = true /\
                   In fe (fixed_expenses db) /\ fe_user_id fe = userId /\
                   fe_reminder_day fe = Some day /\ fe_is_active fe = true) /\
  (forall phone name expenses total,
      In (phone, FxMonthlyReminder name expenses total) (rm_sent run) ->
      exists u, In u (users db) /\ u_phone u = phone /\ onboarding_complete u = true /\
                expenses <> [] /\
                forall fe, In fe expenses <->
                           In fe (fixed_expenses db) /\ fe_user_id fe = u_id u /\
                           fe_reminder_day fe = Some day /\ fe_is_active fe = true) /\
  (forall u fe,
      In u (users db) -> onboarding_complete u = true ->
      In fe (fixed_expenses db) -> fe_user_id fe = u_id u ->
      fe_reminder_day fe = Some day -> fe_is_active fe = true ->
      exists expenses,
        In fe expenses /\
        In (u_phone u,
            FxMonthlyReminder (u_name u) expenses (Qsum (map fe_typical_amount expenses)))
           (rm_sent run)) /\
  rm_sentCount run = Z.of_nat (List.length (rm_sent run)) /\
  users (rm_db run)
  = map (fun u => if notified db day (u_id u)
                  then with_pending (Some PENDING_BULK_REMINDER) u else u)
        (users db) /\
  (forall u fe,
      In u (users db) -> onboarding_complete u = true ->
      In fe (fixed_expenses db) -> fe_user_id fe = u_id u ->
      fe_reminder_day fe = Some day -> fe_is_active fe = true ->
      In (with_pending (Some PENDING_BULK_REMINDER) u) (users (rm_db run))) /\
  (forall u,
      In u (users db) ->
      (forall v fe, In v (users db) -> u_id v = u_id u -> onboarding_complete v = true ->
                    In fe (fixed_expenses db) -> fe_user_id fe = u_id u ->
                    fe_reminder_day fe = Some day -> fe_is_active fe = false) ->
      In u (users (rm_db run))) /\
  transactions (rm_db run) = transactions db /\
  fixed_expenses (rm_db run) = fixed_expenses db.
Proof.
  intros run day.
  assert (Hdue : forall userId fe,
             dueOn day userId fe = true <->
             fe_user_id fe = userId /\ fe_reminder_day fe = Some day /\
             fe_is_active fe = true).
  { intros userId fe. unfold dueOn. rewrite !andb_true_iff, Z.eqb_eq.
    destruct (fe_reminder_day fe) as [d|]; cbn [opt_Z_eqb].
    - rewrite Z.eqb_eq. split; [intros [[H1 H2] H3]; subst; auto|].
      intros (H1 & [= H2] & H3). auto.
    - split; [intros [[_ H] _]; discriminate|intros (_ & H & _); discriminate]. }
  destruct (sendReminders_loop_spec (getFixedExpensesForReminderDay db day)
              (mkRemindersAcc db [] 0)) as (Hs & Hc & Hu & Ht & Hf).
  cbn [rm_db rm_sent rm_sentCount app] in Hs, Hc, Hu, Ht, Hf.
  subst run. unfold sendFixedExpenseReminders. fold day.
  assert (Hnotified : forall userId,
      notified db day userId = true <->
      exists u fe, In u (users db) /\ u_id u = userId /\ onboarding_complete u = true /\
                   In fe (fixed_expenses db) /\ fe_user_id fe = userId /\
                   fe_reminder_day fe = Some day /\ fe_is_active fe = true).
  { intros userId. unfold notified. rewrite existsb_exists. split.
    + intros (r & Hr & Hid). apply Z.eqb_eq in Hid.
      apply reminder_rows in Hr. destruct Hr as (u & Hin & Hon & Hne & ->).
      cbn [ur_user_id ur_expenses] in Hid, Hne.
      destruct (filter (dueOn day (u_id u)) (fixed_expenses db)) as [|fe l] eqn:E;
        [contradiction Hne; reflexivity|].
      assert (Hfe : In fe (filter (dueOn day (u_id u)) (fixed_expenses db)))
        by (rewrite E; left; reflexivity).
      apply filter_In in Hfe. destruct Hfe as [Hfe Hd]. apply Hdue in Hd.
      destruct Hd as (H1 & H2 & H3).
      exists u, fe. subst userId. repeat split; auto.
    + intros (u & fe & Hin & Hid & Hon & Hfe & Hfu & Hd & Ha).
      exists (mkUserReminder (u_id u) (u_phone u) (u_name u)
                (filter (dueOn day (u_id u)) (fixed_expenses db))).
      split; [|cbn [ur_user_id]; apply Z.eqb_eq; exact Hid].
      apply reminder_rows. exists u. repeat split; auto.
      cbn [ur_expenses]. intros Hnil.
      assert (Hmem : In fe (filter (dueOn day (u_id u)) (fixed_expenses db))).
      { apply filter_In. split; [exact Hfe|]. apply Hdue. rewrite Hid. auto. }
      rewrite Hnil in Hmem. contradiction. }
  split; [exact Hnotified|].
  split; [|split; [|split; [|split; [|split; [|split; [|split]]]]]].
  - intros phone name expenses total Hmsg. rewrite Hs in Hmsg.
    apply in_map_iff in Hmsg. destruct Hmsg as (r & Hr & Hin).
    apply reminder_rows in Hin. destruct Hin as (u & Hin & Hon & Hne & ->).
    unfold reminderMessage in Hr. cbn [ur_phone ur_name ur_expenses] in Hr, Hne.
    injection Hr as Hphone _ Hexp _.
    exists u. repeat split; auto; try (rewrite <- Hexp; exact Hne).
    + rewrite <- Hexp in H. apply filter_In in H. apply H.
    + rewrite <- Hexp in H. apply filter_In in H. destruct H as [_ H].
      apply Hdue in H. apply H.
    + rewrite <- Hexp in H. apply filter_In in H. destruct H as [_ H].
      apply Hdue in H. apply H.
    + rewrite <- Hexp in H. apply filter_In in H. destruct H as [_ H].
      apply Hdue in H. apply H.
    + intros (H1 & H2 & H3 & H4). rewrite <- Hexp. apply filter_In.
      split; [exact H1|]. apply Hdue. auto.
  - intros u fe Hin Hon Hfe Hfu Hd Ha.
    assert (Hmem : In fe (filter (dueOn day (u_id u)) (fixed_expenses db))).
    { apply filter_In. split; [exact Hfe|]. apply Hdue. auto. }
    exists (filter (dueOn day (u_id u)) (fixed_expenses db)).
    split; [exact Hmem|]. rewrite Hs. apply in_map_iff.
    exists (mkUserReminder (u_id u) (u_phone u) (u_name u)
              (filter (dueOn day (u_id u)) (fixed_expenses db))).
    split; [reflexivity|]. apply reminder_rows. exists u.
    split; [exact Hin|]. split; [exact Hon|]. split; [|reflexivity].
    cbn [ur_expenses]. intros Hnil. rewrite Hnil in Hmem. contradiction.
  - rewrite Hc, Hs, length_map. reflexivity.
  - exact Hu.
  - intros u fe Hin Hon Hfe Hfu Hd Ha. rewrite Hu. apply in_map_iff. exists u.
    split; [|exact Hin].
    assert (Hyes : notified db day (u_id u) = true).
    { apply Hnotified. exists u, fe. repeat split; auto. }
    unfold notified in Hyes. rewrite Hyes. reflexivity.
  - intros u Hin Hnone. rewrite Hu. apply in_map_iff. exists u.
    split; [|exact Hin].
    destruct (existsb (fun r => ur_user_id r =? u_id u)
                      (getFixedExpensesForReminderDay db day)) eqn:E; [|reflexivity].
    apply (Hnotified (u_id u)) in E.
    destruct E as (v & fe & Hv & Hid & Hon & Hfe & Hfu & Hd & Ha).
    rewrite (Hnone v fe Hv Hid Hon Hfe Hfu Hd) in Ha. discriminate.
  - exact Ht.
  - exact Hf.
Qed.

(** *** What register-all registers *)

Lemma registerAll_loop_created (clock : Clock) (userId : Z) (expenses : list FixedExpense) :
  forall (acc : RegisterAcc) (t : Transaction),
    In t (transactions (ra_db (registerAll_loop clock userId expenses acc))) ->
    In t (transactions (ra_db acc)) \/
    exists e id, In e expenses /\ t = fixedExpenseTransaction clock userId e id.
Proof.
  induction expenses as [|expense rest IH]; intros acc t Ht; cbn [registerAll_loop] in Ht.
  - left. exact Ht.
  - destruct (existingCheck (ra_db acc) clock userId (fe_id expense)).
    + apply IH in Ht. cbn [ra_db] in Ht. destruct Ht as [Ht|(e & id & He & ->)].
      * left. exact Ht.
      * right. exists e, id. split; [right; exact He|reflexivity].
    + apply IH in Ht. cbn [ra_db insertTransaction transactions] in Ht.
      destruct Ht as [Ht|(e & id & He & ->)].
      * apply in_app_iff in Ht. destruct Ht as [Ht|[<-|[]]]; [left; exact Ht|].
        right. exists expense, (next_transaction_id (ra_db acc)).
        split; [left; reflexivity|reflexivity].
      * right. exists e, id. split; [right; exact He|reflexivity].
Qed.

(** The answer "registrar todos" registers every active fixed expense of
    the user, whatever its reminder day (the reminder listed only those due
    that day): afterwards each has a transaction of this month linked to it.
    And every transaction it adds is today's fixed, non-income transaction
    of this user for one of those active expenses, with its typical amount;
    a paused expense is never registered. *)
Theorem register_all_covers_the_active_only (user : User) (db : Db) (clock : Clock) :
  let db' := fst (registerAll user db clock) in
  (forall fe, In fe (fixed_expenses db) -> fe_user_id fe = u_id user ->
              fe_is_active fe = true ->
              existingCheck db' clock (u_id user) (fe_id fe) = true) /\
  (forall t, In t (transactions db') ->
     In t (transactions db) \/
     exists fe, In fe (fixed_expenses db) /\ fe_user_id fe = u_id user /\
                fe_is_active fe = true /\
                t_user_id t = u_id user /\ t_fixed_expense_id t = Some (fe_id fe) /\
                t_amount t = fe_typical_amount fe /\ t_date t = today clock /\
                t_is_income t = false /\ t_expense_type t = fixed).
Proof.
  intros db'. destruct (registerAll_transactions user db clock) as [Ht _].
  fold db' in Ht. split.
  - intros fe Hin Hu Ha.
    destruct (registerAll_loop_spec clock (u_id user) (getFixedExpenses db (u_id user) true)
                (mkRegisterAcc db 0%Q [] [])) as (created & _ & _ & _ & _ & Hall).
    assert (Hfe : In fe (getFixedExpenses db (u_id user) true))
      by (apply getFixedExpenses_In; auto).
    specialize (Hall fe Hfe). unfold existingCheck in *. rewrite Ht. exact Hall.
  - intros t Hin. rewrite Ht in Hin. apply registerAll_loop_created in Hin.
    cbn [ra_db] in Hin. destruct Hin as [Hin|(e & id & He & ->)]; [left; exact Hin|].
    right. apply getFixedExpenses_In in He. destruct He as (He & Hu & Ha).
    exists e. repeat split; auto.
Qed.

(** *** Several transactions in one message *)

Lemma skip_iff_not_positive (amount : Q) :
  Qeq_bool amount 0 || Qleb amount 0 = negb (Qltb 0 amount).
Proof.
  destruct (Qltb 0 amount) eqn:E.
  - apply Qltb_lt in E. rewrite (Qeq_bool_false_of_lt _ E), (Qleb_false_of_lt _ _ E).
    reflexivity.
  - apply Qltb_false_le in E. apply Qleb_le in E. rewrite E. apply orb_true_r.
Qed.

Lemma multipleTransactions_loop_spec (user : User) (clock : Clock) (entries : list TxEntry) :
  forall acc : BatchAcc,
  exists created,
    transactions (ba_db (multipleTransactions_loop user clock entries acc))
    = transactions (ba_db acc) ++ created /\
    map t_amount created = map amountOf (filter hasPositiveAmount entries) /\
    (forall t, In t created ->
       t_user_id t = u_id user /\ (0 < t_amount t)%Q /\ t_date t = today clock /\
       t_expense_type t = variable /\ t_fixed_expense_id t = None) /\
    ba_registered (multipleTransactions_loop user clock entries acc)
    = (ba_registered acc + List.length (filter hasPositiveAmount entries))%nat /\
    ba_totalAmount (multipleTransactions_loop user clock entries acc)
    = fold_left Qplus (map amountOf (filter hasPositiveAmount entries))
                (ba_totalAmount acc) /\
    users (ba_db (multipleTransactions_loop user clock entries acc)) = users (ba_db acc) /\
    fixed_expenses (ba_db (multipleTransactions_loop user clock entries acc))
    = fixed_expenses (ba_db acc) /\
    budgets (ba_db (multipleTransactions_loop user clock entries acc))
    = budgets (ba_db acc).
Proof.
  induction entries as [|tx rest IH]; intros acc.
  - exists []. cbn. rewrite app_nil_r, Nat.add_0_r. repeat split; auto; contradiction.
  - cbn [multipleTransactions_loop filter].
    destruct (e_amount tx) as [amount|] eqn:Ea.
    2: { assert (Hp : hasPositiveAmount tx = false)
           by (unfold hasPositiveAmount; rewrite Ea; reflexivity).
         rewrite Hp. apply IH. }
    assert (Hp : hasPositiveAmount tx = Qltb 0 amount)
      by (unfold hasPositiveAmount; rewrite Ea; reflexivity).
    rewrite skip_iff_not_positive, Hp.
    destruct (Qltb 0 amount) eqn:Epos; cbn [negb]; [|apply IH].
    match goal with
    | |- context [multipleTransactions_loop user clock rest ?a] =>
        destruct (IH a) as (created & Ht & Ha & Hall & Hn & Htot & Hu & Hf & Hb)
    end.
    cbn [ba_db ba_registered ba_totalAmount insertTransaction transactions users
         fixed_expenses budgets] in Ht, Hn, Htot, Hu, Hf, Hb.
    eexists (_ :: created).
    split; [rewrite Ht, <- app_assoc; reflexivity|].
    assert (Hamt : amountOf tx = amount) by (unfold amountOf; rewrite Ea; reflexivity).
    split; [cbn [map t_amount]; rewrite Ha, Hamt; reflexivity|].
    split.
    { intros t [<-|Hin]; [|apply Hall; exact Hin].
      cbn. repeat split; auto. apply Qltb_lt. exact Epos. }
    split; [rewrite Hn; cbn [List.length]; lia|].
    split; [rewrite Htot; cbn [map fold_left]; rewrite Hamt; reflexivity|].
    auto.
Qed.

(** [handleMultipleTransactions] on a non-empty list registers exactly the
    entries whose amount is greater than zero, in order, each as today's
    variable transaction of the user with that amount; an entry without
    amount, with amount zero or with a negative amount writes nothing.  The
    reply counts those entries and totals their amounts, and is the "none
    registered" message when there is none; users, fixed expenses and
    budgets are not touched. *)
Theorem multiple_transactions_registers_the_positive
    (user : User) (first : TxEntry) (more : list TxEntry) (db : Db) (clock : Clock) :
  let entries := first :: more in
  let valid := filter hasPositiveAmount entries in
  let run := handleMultipleTransactions user (Some entries) db clock in
  exists created,
    transactions (fst run) = transactions db ++ created /\
    map t_amount created = map amountOf valid /\
    (forall t, In t created ->
       t_user_id t = u_id user /\ (0 < t_amount t)%Q /\ t_date t = today clock /\
       t_expense_type t = variable /\ t_fixed_expense_id t = None) /\
    users (fst run) = users db /\
    fixed_expenses (fst run) = fixed_expenses db /\
    budgets (fst run) = budgets db /\
    snd run
    = [(u_phone user,
        match valid with
        | [] => LgNoneRegistered
        | _ :: _ =>
            LgBatchRegistered (List.length valid)
              (existsb (fun t => match e_is_income t with Some b => b | None => false end)
                       entries)
              (Qsum (map amountOf valid))
        end)].
Proof.
  intros entries valid run.
  destruct (multipleTransactions_loop_spec user clock entries (mkBatchAcc db 0%Q 0))
    as (created & Ht & Ha & Hall & Hn & Htot & Hu & Hf & Hb).
  cbn [ba_db ba_registered ba_totalAmount Nat.add] in Ht, Hn, Htot, Hu, Hf, Hb.
  fold valid in Ha, Hn, Htot.
  exists created. subst run. unfold handleMultipleTransactions. fold entries.
  unfold entries at 1.
  destruct (ba_registered (multipleTransactions_loop user clock entries
                             (mkBatchAcc db 0%Q 0))) as [|n] eqn:En; cbn [fst snd].
  - split; [exact Ht|]. split; [exact Ha|]. split; [exact Hall|].
    split; [exact Hu|]. split; [exact Hf|]. split; [exact Hb|].
    destruct valid; [reflexivity|discriminate].
  - split; [exact Ht|]. split; [exact Ha|]. split; [exact Hall|].
    split; [exact Hu|]. split; [exact Hf|]. split; [exact Hb|].
    destruct valid as [|v vs]; [discriminate|].
    rewrite Hn, Htot. reflexivity.
Qed.

(** *** The number a message is sent to *)

Lemma startsWith_56 (s : jsstring) :
  startsWith s (lit "56") = true -> exists rest, s = lit "56" ++ rest.
Proof.
  unfold startsWith. cbn -[N.eqb].
  destruct s as [|a [|b rest]]; cbn -[N.eqb]; try discriminate.
  - destruct (N.eqb_spec 53 a); discriminate.
  - destruct (N.eqb_spec 53 a) as [<-|]; [|discriminate].
    destruct (N.eqb_spec 54 b) as [<-|]; [|discriminate].
    intros _. exists rest. reflexivity.
Qed.

(** Whatever the recipient string, [sendWhatsApp] sends to a number of the
    form whatsapp:+56..., and a recipient already in the form the function
    produces is sent to as it is. *)
Theorem toNumber_has_country_code_and_is_stable (to : jsstring) :
  (exists rest, toNumber to = lit "whatsapp:+56" ++ rest) /\
  toNumber (toNumber to) = toNumber to.
Proof.
  assert (Hform : exists rest, toNumber to = lit "whatsapp:+56" ++ rest).
  { unfold toNumber. cbv zeta.
    destruct (startsWith _ (lit "56")) eqn:E; cbn [negb].
    - apply startsWith_56 in E. destruct E as [rest ->]. exists rest. reflexivity.
    - eexists. reflexivity. }
  split; [exact Hform|].
  destruct Hform as [rest ->]. reflexivity.
Qed.

(** *** Deleting the account *)

Lemma negb_eqb_true (a b : Z) : negb (a =? b) = true <-> a <> b.
Proof. rewrite negb_true_iff. apply Z.eqb_neq. Qed.

(** While the account-deletion confirmation is pending, only the three
    confirmation messages delete anything.  On one of them every row of the
    user is removed from users, transactions, fixed expenses, budgets and
    alerts, and every row of any other user is kept; on any other message no
    table loses or gains a row (only the pending action of the user may be
    cleared). *)
Theorem account_deletion_only_on_confirmation
    (user stored : User) (message : jsstring) (db : Db) :
  find (fun u => str_eqb (u_phone u) (u_phone user)) (users db) = Some stored ->
  u_id stored = u_id user ->
  let db' := fst (accountDeletionConfirm user message db) in
  if oneOf (trim (toLowerCase message))
           [lit "confirmar eliminar"; lit "confirmar"; lit "si eliminar"]
  then
    (forall u, In u (users db') <-> In u (users db) /\ u_id u <> u_id user) /\
    (forall t, In t (transactions db') <-> In t (transactions db) /\ t_user_id t <> u_id user) /\
    (forall fe, In fe (fixed_expenses db') <->
                In fe (fixed_expenses db) /\ fe_user_id fe <> u_id user) /\
    (forall b, In b (budgets db') <-> In b (budgets db) /\ b_user_id b <> u_id user) /\
    (forall a, In a (financial_alerts db') <->
               In a (financial_alerts db) /\ fa_user_id a <> u_id user)
  else
    map u_id (users db') = map u_id (users db) /\
    transactions db' = transactions db /\
    fixed_expenses db' = fixed_expenses db /\
    budgets db' = budgets db /\
    financial_alerts db' = financial_alerts db.
Proof.
  intros Hfind Hid db'. subst db'. unfold accountDeletionConfirm. cbv zeta.
  destruct (oneOf _ [lit "confirmar eliminar"; lit "confirmar"; lit "si eliminar"]).
  - cbn [fst]. unfold deleteUser. rewrite Hfind, Hid.
    cbn [users transactions fixed_expenses budgets financial_alerts].
    split; [|split; [|split; [|split]]]; intros x;
      rewrite filter_In, negb_eqb_true; reflexivity.
  - destruct (oneOf _ [lit "cancelar"; lit "no"]); cbn [fst].
    + repeat split; try reflexivity.
      unfold clearPendingFixedExpense, update_user. cbn [users set_users].
      rewrite map_map. apply map_ext. intros u.
      destruct (u_id u =? u_id user); reflexivity.
    + repeat split; reflexivity.
Qed.

(** *** One row per description *)

Lemma str_eqb_true (a b : jsstring) : str_eqb a b = true -> a = b.
Proof.
  revert b. induction a as [|x a IH]; intros [|y b]; cbn [str_eqb]; try discriminate.
  - reflexivity.
  - intros H. apply andb_true_iff in H. destruct H as [Hx Hab].
    apply N.eqb_eq in Hx. subst y. rewrite (IH b Hab). reflexivity.
Qed.

Lemma unique_same (db db' : Db) :
  fixed_expenses db' = fixed_expenses db -> fixedExpensesUnique db -> fixedExpensesUnique db'.
Proof. unfold fixedExpensesUnique. intros ->. auto. Qed.

Lemma unique_update (db : Db) (id userId : Z) (up : Updates) :
  fixedExpensesUnique db -> fixedExpensesUnique (updateFixedExpense db id userId up).
Proof.
  intros Hdb. unfold updateFixedExpense.
  destruct (isEmptyUpdates up); [exact Hdb|].
  intros u d. cbn [fixed_expenses set_fixed_expenses].
  rewrite filter_map_same, length_map; [apply Hdb|].
  intros fe. destruct ((fe_id fe =? id) && (fe_user_id fe =? userId)); reflexivity.
Qed.

Lemma unique_insert (db : Db) (userId : Z) (description : jsstring) (amount : Q)
    (categoryId reminderDay : option Z) (active : bool) :
  fixedExpensesUnique db ->
  findFixedExpenseByDescription db userId description = None ->
  fixedExpensesUnique
    (insertFixedExpense db
       (fun id => mkFixedExpense id userId description amount categoryId reminderDay active)).
Proof.
  intros Hdb Hnone u d. cbn [insertFixedExpense fixed_expenses].
  rewrite filter_app, length_app. cbn [filter].
  destruct (sameDescription u d _) eqn:E; cbn [List.length]; [|specialize (Hdb u d); lia].
  unfold sameDescription in E. cbn [fe_user_id fe_description] in E.
  apply andb_true_iff in E. destruct E as [Eu Ed].
  apply Z.eqb_eq in Eu. apply str_eqb_true in Ed. subst u.
  unfold findFixedExpenseByDescription in Hnone. rewrite find_hd_filter in Hnone.
  assert (Hext : filter (sameDescription userId d) (fixed_expenses db)
                 = filter (sameDescription userId description) (fixed_expenses db)).
  { apply filter_ext. intros fe. unfold sameDescription. rewrite Ed. reflexivity. }
  rewrite Hext.
  destruct (filter (sameDescription userId description) (fixed_expenses db));
    [cbn; lia|discriminate].
Qed.

(** [handleMarkAsFixed] keeps at most one fixed expense per user and
    description (compared in lower case) as long as the user's transactions
    have a description: it reactivates the row found for the description, or
    creates one only when the lookup found none, and it never adds more than
    one row. *)
Theorem mark_as_fixed_keeps_descriptions_unique (user : User) (db : Db) (clock : Clock) :
  fixedExpensesUnique db ->
  (forall tx, In tx (transactions db) -> t_user_id tx = u_id user -> t_description tx <> []) ->
  fixedExpensesUnique (fst (handleMarkAsFixed user db clock)) /\
  (List.length (fixed_expenses (fst (handleMarkAsFixed user db clock)))
   <= S (List.length (fixed_expenses db)))%nat.
Proof.
  intros Hdb Hdesc. unfold handleMarkAsFixed.
  destruct (markAsFixedTarget user db clock) as [reply|transactionId];
    [split; [exact Hdb|cbn; lia]|].
  destruct (findTransaction db transactionId (u_id user)) as [tx|] eqn:Htx;
    [|split; [exact Hdb|cbn; lia]].
  unfold findTransaction in Htx. apply find_some in Htx. destruct Htx as [Hin Hb].
  apply andb_true_iff in Hb. destruct Hb as [_ Hu]. apply Z.eqb_eq in Hu.
  specialize (Hdesc tx Hin Hu).
  destruct (findFixedExpenseByDescription db (u_id user) (t_description tx))
    as [existing|] eqn:Hfind.
  - destruct (fe_is_active existing); [split; [exact Hdb|cbn; lia]|].
    cbn [fst snd]. split.
    + apply (unique_same (updateFixedExpense db (fe_id existing) (u_id user)
                            (mkUpdates (Some (t_amount tx)) None None (Some true))));
        [reflexivity|]. apply unique_update. exact Hdb.
    + cbn. rewrite length_map. lia.
  - destruct (t_description tx) as [|c r] eqn:Ed; [contradiction Hdesc; reflexivity|].
    cbn [fst snd createFixedExpense]. split.
    + apply (unique_same (insertFixedExpense db
               (fun id => mkFixedExpense id (u_id user) (c :: r) (t_amount tx)
                            (t_category_id tx) None true))); [reflexivity|].
      apply unique_insert; assumption.
    + cbn. rewrite length_app. cbn. lia.
Qed.

End Server.

(** ** The scenarios, evaluated *)

Import Scenario.

Lemma register_all_twice_witness :
  exists created,
    transactions
      (fst (snd (handleFixedExpenseReminderResponse asciiToLowerCase reminderUser
                   (lit "Registrar todos") reminderDb clock15)))
    = transactions reminderDb ++ created /\
    transactions
      (fst (snd (handleFixedExpenseReminderResponse asciiToLowerCase reminderUser
                   (lit "registrar")
                   (fst (snd (handleFixedExpenseReminderResponse asciiToLowerCase
                                reminderUser (lit "Registrar todos") reminderDb clock15)))
                   clock15_later)))
    = transactions
        (fst (snd (handleFixedExpenseReminderResponse asciiToLowerCase reminderUser
                     (lit "Registrar todos") reminderDb clock15))) /\
    forall fixedExpenseId,
      (List.length (filter (linkedTo (u_id reminderUser) fixedExpenseId) created) <= 1)%nat /\
      (existingCheck reminderDb clock15 (u_id reminderUser) fixedExpenseId = true ->
       filter (linkedTo (u_id reminderUser) fixedExpenseId) created = []).
Proof.
  apply (register_all_twice_at_most_one asciiToLowerCase reminderUser reminderUser
           (lit "Registrar todos") (lit "registrar") reminderDb clock15 clock15_later);
    reflexivity.
Defined.

Lemma financial_health_witness :
  (hasAlertToday healthDb (u_id healthUser) (today clock15) = true ->
   checkFinancialHealth healthUser healthDb clock15 None = (healthDb, [])) /\
  (snd (checkFinancialHealth healthUser healthDb clock15 None) <> [] ->
   healthAlertsOn healthDb (u_id healthUser) (today clock15) = 0%nat /\
   healthAlertsOn (fst (checkFinancialHealth healthUser healthDb clock15 None))
                  (u_id healthUser) (today clock15) = 1%nat) /\
  (healthAlertsOn (fst (checkAfterEach twoExpenses healthDb))
                  (u_id healthUser) (today clock15) <= 1)%nat /\
  (healthAlertsOn healthDb (u_id healthUser) (today clock15)
   + List.length (snd (checkAfterEach twoExpenses healthDb)) <= 1)%nat.
Proof.
  apply (financial_health_at_most_one_per_day healthUser healthDb clock15 None twoExpenses).
  - vm_compute. lia.
  - repeat constructor.
Defined.

(** C3, as stated, fails: in the scenario the alert that is sent is not the
    category alert. *)
Lemma scenario_800000_category_alert_not_sent :
  ~ exists topCategory advice,
      snd (checkFinancialHealth healthUser healthDb clock15 None)
      = [(u_phone healthUser, MsgFinancialHealth category_high topCategory advice)].
Proof.
  intros (topCategory & advice & H). vm_compute in H. discriminate H.
Qed.

Lemma scenario_800000_witness :
  checkFinancialHealth healthUser healthDb clock15 None
  = (insertFinancialAlert healthDb (u_id healthUser) FINANCIAL_HEALTH (today clock15),
     [(u_phone healthUser,
       MsgFinancialHealth high_spending (c_name comida)
         (generateFinancialAdvice None (c_name comida)))]).
Proof.
  apply (scenario_800000_fires_high_spending healthUser healthDb clock15 None
           800000 100000 (mkCategorySpend comida 560000)); reflexivity.
Defined.

(** C4, as stated, fails: the user was shown only transaction 2, asks to
    delete (or edit) number 3, and the fallback list resolves it to
    transaction 1. *)
Lemma positional_fallback_reaches_unshown :
  getLastShownTxIds positionalDb (u_id positionalUser) = Some [2] /\
  ~ In (t_id tx1) [2] /\
  handleDeleteExpense positionalUser (Some 3) positionalDb clock15
  = (deleteTransaction positionalDb (t_id tx1) (u_id positionalUser),
     [(u_phone positionalUser, MsgDeleted 3 tx1)]) /\
  transactions (fst (handleDeleteExpense positionalUser (Some 3) positionalDb clock15))
  = [tx2; tx3] /\
  handleEditExpense positionalUser (Some 3) positionalDb clock15
  = (update_user positionalDb (u_id positionalUser)
       (with_pending (Some (pendingTransactionEdit (t_id tx1)))),
     [(u_phone positionalUser, MsgEditing 3 tx1)]).
Proof.
  split; [reflexivity|]. split; [simpl; intros [H|[]]; discriminate H|].
  split; [reflexivity|]. split; reflexivity.
Qed.

Lemma positional_witness :
  1 <= 3 /\
  ((exists r, notFoundReply 3 r /\
              handleDeleteExpense positionalUser (Some 3) positionalDb clock15
              = (positionalDb, [(u_phone positionalUser, r)])) \/
   (exists tx, In tx (transactions positionalDb) /\ t_user_id tx = u_id positionalUser /\
               atPosition positionalDb (u_id positionalUser) (today clock15) 3 (t_id tx) /\
               handleDeleteExpense positionalUser (Some 3) positionalDb clock15
               = (deleteTransaction positionalDb (t_id tx) (u_id positionalUser),
                  [(u_phone positionalUser, MsgDeleted 3 tx)]))).
Proof.
  split; [lia|].
  exact (proj1 (positional_edit_delete_resolve_shown_or_fallback
                  positionalUser positionalDb clock15 3 ltac:(lia))).
Defined.

(** C5: the report's last line is not guarded.  With a single budget whose
    limit is 0 the line of the budget shows 0%, as the guard intends, but
    the total is [0 / 0 * 100], NaN, when nothing was spent, and Infinity
    once something was. *)
Theorem budget_status_aggregate_unguarded :
  (exists lines totalBudget totalSpent,
     snd (handleBudgetStatus healthUser zeroBudgetDb clock15)
     = [(u_phone healthUser, MsgBudgetStatus lines totalBudget totalSpent NaN)] /\
     map bl_percentage lines = [Fin 0]) /\
  (exists lines totalBudget totalSpent,
     snd (handleBudgetStatus healthUser zeroBudgetSpentDb clock15)
     = [(u_phone healthUser, MsgBudgetStatus lines totalBudget totalSpent PInf)] /\
     map bl_percentage lines = [Fin 0]) /\
  snd (checkBudgetAlerts healthUser 1 zeroBudgetSpentDb clock15) = [].
Proof.
  split; [|split].
  - do 3 eexists. split; vm_compute; reflexivity.
  - do 3 eexists. split; vm_compute; reflexivity.
  - reflexivity.
Qed.

Lemma income_reestimation_witness :
  checkIncomeUpdatePrompt incomeUser incomeDb clock15
  = (update_user incomeDb (u_id incomeUser) (with_income_prompt (Some (now clock15))),
     [(u_phone incomeUser, MsgIncomeUpdatePrompt 500000 650000)]) /\
  snd (handleIncomeUpdateResponse incomeUser true
         (update_user incomeDb (u_id incomeUser) (with_income_prompt (Some (now clock15))))
         clock15_later)
  = [(u_phone incomeUser, MsgIncomeUpdated 650000)].
Proof.
  destruct (income_reestimation_500000_to_650000 incomeUser incomeUser incomeUser
              incomeDb clock15 clock15_later 500000
              eq_refl (Qeq_refl _)
              ltac:(vm_compute; reflexivity) ltac:(vm_compute; discriminate)
              eq_refl eq_refl eq_refl eq_refl) as (Hprompt & (Haccept & _) & _).
  split; [exact Hprompt|exact Haccept].
Defined.

Lemma fixedExpensesUnique_one_row (LOWER : jsstring -> jsstring) (db : Db) (fe : FixedExpense) :
  fixed_expenses db = [fe] -> fixedExpensesUnique LOWER db.
Proof.
  intros H userId description. rewrite H. simpl.
  destruct (sameDescription LOWER userId description fe); simpl; lia.
Qed.

Lemma mark_as_fixed_witness :
  handleMarkAsFixed asciiToLowerCase markUser markDb clock15
  = (clearPendingFixedExpense markDb (u_id markUser),
     [(u_phone markUser, MsgAlreadyFixed (lit "netflix"))]) /\
  fixed_expenses (fst (handleMarkAsFixed asciiToLowerCase markUser markDb clock15))
  = [netflix].
Proof.
  destruct (mark_as_fixed_already_active asciiToLowerCase markUser markDb clock15 7 tx7
              netflix (fixedExpensesUnique_one_row asciiToLowerCase markDb netflix eq_refl)
              eq_refl eq_refl (or_introl eq_refl) eq_refl eq_refl eq_refl)
    as (Hrun & Hsame & _).
  split; [exact Hrun|exact Hsame].
Defined.

(** C8: the suggestion for transaction 2001 stores -2001.  The answer
    "fijo" is then taken by the transaction-edit branch for transaction 1,
    not by the mark-as-fixed branch: the user is asked again for an edit,
    and an answer that holds a number overwrites the amount of transaction
    1. *)
Theorem suggestion_2001_routed_to_transaction_edit :
  pending_fixed_expense_id suggestionUser = Some (pendingMarkAsFixedSuggestion 2001) /\
  processPendingAction asciiToLowerCase asciiToLowerCase suggestionUser (lit "fijo")
    suggestionDb clock15
  = mkRouted [TransactionEditBranch 1] true
      (suggestionDb, [(u_phone suggestionUser, MsgEditReprompt)]) /\
  entered (processPendingAction asciiToLowerCase asciiToLowerCase suggestionUser
             (lit "8000 almuerzo") suggestionDb clock15)
  = [TransactionEditBranch 1] /\
  snd (outcome (processPendingAction asciiToLowerCase asciiToLowerCase suggestionUser
                  (lit "8000 almuerzo") suggestionDb clock15))
  = [(u_phone suggestionUser, MsgAmountUpdated 8000)] /\
  map (fun t => (t_id t, t_amount t))
      (transactions
         (fst (outcome (processPendingAction asciiToLowerCase asciiToLowerCase
                          suggestionUser (lit "8000 almuerzo") suggestionDb clock15))))
  = [(1, inject_Z 8000); (2001, inject_Z 8990)].
Proof.
  repeat split; vm_compute; reflexivity.
Qed.

Lemma bare_day_witness :
  processPendingAction asciiToLowerCase asciiToLowerCase dayUser (lit "15") dayDb clock15
  = mkRouted [FixedExpenseBranch 3] true
      (clearPendingFixedExpense
         (updateFixedExpense dayDb 3 (u_id dayUser)
            (mkUpdates None None (Some (Some 15)) None))
         (u_id dayUser),
       [(u_phone dayUser, MsgReminderConfigured 15)]) /\
  map (fun fe => (fe_id fe, fe_reminder_day fe, fe_typical_amount fe))
      (fixed_expenses
         (fst (processUserMessage asciiToLowerCase asciiToLowerCase
                 (fun _ _ db _ => (db, [])) dayUser (lit "15") dayDb clock15)))
  = [(1, Some 5, 450000%Q); (2, Some 5, 30000%Q); (3, Some 15, 25000%Q)] /\
  map pending_fixed_expense_id
      (users
         (fst (processUserMessage asciiToLowerCase asciiToLowerCase
                 (fun _ _ db _ => (db, [])) dayUser (lit "15") dayDb clock15)))
  = [None].
Proof.
  destruct (bare_day_sets_only_reminder_day asciiToLowerCase asciiToLowerCase
              (fun _ _ db _ => (db, []))
              dayUser 3 (lit "15") dayDb clock15
              eq_refl ltac:(lia) eq_refl eq_refl ltac:(vm_compute; split; discriminate))
    as (Hrouted & Hwhole & _ & Hfixed & _).
  split; [exact Hrouted|]. split.
  - rewrite Hfixed. reflexivity.
  - rewrite Hwhole, Hrouted. reflexivity.
Defined.

(** ** Further scenarios *)

Lemma effective_income_witness :
  exists effective,
    getEffectiveMonthlyIncome healthUser healthDb clock15 = Fin effective /\
    (inject_Z 800000 <= effective)%Q.
Proof.
  destruct (effective_income_is_the_largest healthUser healthDb clock15 (inject_Z 800000)
              eq_refl) as (effective & He & Hd & _).
  exists effective. split; [exact He|exact Hd].
Defined.

Lemma high_spending_band_witness :
  snd (checkFinancialHealth healthUser healthDb clock15 None)
  = [(u_phone healthUser,
      MsgFinancialHealth high_spending (lit "comida")
        (generateFinancialAdvice None (lit "comida")))].
Proof.
  apply (proj1 (high_spending_alert_band healthUser healthDb clock15 None
                  (inject_Z 800000) (inject_Z 100000)
                  (hd (mkCategorySpend comida 0)
                      (monthSpendingByCategory healthDb (u_id healthUser) (today clock15)))
                  []
                  ltac:(vm_compute; reflexivity) eq_refl ltac:(vm_compute; reflexivity)
                  eq_refl ltac:(vm_compute; reflexivity))).
  vm_compute. split; discriminate.
Defined.

Lemma financial_health_silent_witness :
  checkFinancialHealth saverUser saverDb clock15 None = (saverDb, []).
Proof.
  apply (financial_health_silent_without_budget saverUser saverDb clock15 None
           (inject_Z 500000) ltac:(vm_compute; reflexivity)).
  intros goal [= <-]. vm_compute. discriminate.
Defined.

Lemma budget_alert_warning_witness :
  exists percentage,
    checkBudgetAlerts healthUser 1 budgetDb clock15
    = (budgetDb, [(u_phone healthUser, MsgBudgetWarning (c_name comida) percentage)]).
Proof.
  apply (proj1 (proj2 (budget_alert_thresholds healthUser 1 budgetDb clock15
                         foodBudget comida []
                         ltac:(vm_compute; reflexivity) ltac:(vm_compute; reflexivity)))).
  vm_compute. split; discriminate.
Defined.

Lemma budget_status_lines_witness :
  exists lines totalBudget totalSpent aggregate,
    handleBudgetStatus healthUser zeroBudgetDb clock15
    = (zeroBudgetDb,
       [(u_phone healthUser, MsgBudgetStatus lines totalBudget totalSpent aggregate)]) /\
    List.length lines = 1%nat.
Proof.
  destruct (budget_status_lines healthUser zeroBudgetDb clock15 (mkBudget 1 1 0%Q, comida) []
              ltac:(vm_compute; reflexivity))
    as (lines & totalBudget & totalSpent & aggregate & Hrun & Hlines).
  exists lines, totalBudget, totalSpent, aggregate. split; [exact Hrun|].
  apply Forall2_length in Hlines. symmetry. exact Hlines.
Defined.

Lemma income_prompt_witness :
  onCooldown incomeUser clock15 = false /\
  ((121 # 100) * inject_Z 500000
   <= avg_income (last3MonthsTotals incomeDb (u_id incomeUser) (today clock15)))%Q /\
  snd (checkIncomeUpdatePrompt incomeUser incomeDb clock15) <> [].
Proof.
  assert (Hfar : ((121 # 100) * inject_Z 500000
                  <= avg_income (last3MonthsTotals incomeDb (u_id incomeUser)
                                   (today clock15)))%Q)
    by (vm_compute; discriminate).
  split; [reflexivity|]. split; [exact Hfar|].
  apply (proj1 (income_prompt_exactly_when incomeUser incomeDb clock15 (inject_Z 500000)
                  eq_refl)).
  split; [reflexivity|]. split; [vm_compute; discriminate|].
  split; [vm_compute; reflexivity|]. left. exact Hfar.
Defined.

Lemma income_accept_without_history_witness :
  snd (handleIncomeUpdateResponse healthUser true healthDb clock15)
  = [(u_phone healthUser, MsgIncomeUpdated 0)].
Proof.
  exact (proj1 (income_accept_without_history healthUser healthUser healthDb clock15
                  ltac:(vm_compute; reflexivity) eq_refl)).
Defined.

Lemma list_then_delete_witness :
  getLastShownTxIds (fst (handleListMyExpenses positionalUser positionalDb clock15))
                    (u_id positionalUser)
  = Some [3; 2; 1].
Proof.
  exact (proj1 (proj2 (list_then_delete_by_position positionalUser positionalUser
                         positionalDb clock15 clock15_later eq_refl
                         ltac:(vm_compute; discriminate)))).
Defined.

Lemma edit_last_witness :
  snd (handleEditLastExpense markUser markDb clock15) = [(u_phone markUser, LgEditingLast tx7)] /\
  map pending_fixed_expense_id (users (fst (handleEditLastExpense markUser markDb clock15)))
  = [Some (-2007)] /\
  processUserMessage asciiToLowerCase asciiToLowerCase (fun _ _ db _ => (db, []))
    (with_pending (Some (-2007)) markUser) (lit "9990")
    (fst (handleEditLastExpense markUser markDb clock15)) clock15_later
  = transactionEdit asciiToLowerCase (with_pending (Some (-2007)) markUser) 7 (lit "9990")
      (fst (handleEditLastExpense markUser markDb clock15)) /\
  map (fun t => (t_id t, t_amount t))
      (transactions
         (fst (processUserMessage asciiToLowerCase asciiToLowerCase
                 (fun _ _ db _ => (db, []))
                 (with_pending (Some (-2007)) markUser) (lit "9990")
                 (fst (handleEditLastExpense markUser markDb clock15)) clock15_later)))
  = [(7, inject_Z 9990)].
Proof.
  destruct (edit_last_then_next_message_edits_it asciiToLowerCase asciiToLowerCase
              (fun _ _ db _ => (db, []))
              markUser markUser (lit "9990") markDb clock15 clock15_later tx7
              eq_refl ltac:(vm_compute; reflexivity) ltac:(vm_compute; discriminate))
    as (_ & Hsent & _ & Hnext).
  split; [exact Hsent|]. split; [reflexivity|]. split; [exact Hnext|].
  vm_compute. reflexivity.
Defined.

Lemma edit_fixed_witness :
  snd (handleEditFixedExpense dayUser (Some 1) dayDb)
  = [(u_phone dayUser, FxEditing arriendo)] /\
  map pending_fixed_expense_id (users (fst (handleEditFixedExpense dayUser (Some 1) dayDb)))
  = [Some 1] /\
  map (fun fe => (fe_id fe, fe_reminder_day fe))
      (fixed_expenses
         (fst (processUserMessage asciiToLowerCase asciiToLowerCase
                 (fun _ _ db _ => (db, []))
                 (with_pending (Some 1) dayUser) (lit "15")
                 (fst (handleEditFixedExpense dayUser (Some 1) dayDb)) clock15_later)))
  = [(1, Some 15); (2, Some 5); (3, Some 5)].
Proof.
  destruct (edit_fixed_then_next_message_edits_it asciiToLowerCase asciiToLowerCase
              (fun _ _ db _ => (db, []))
              dayUser dayUser (Some 1) (lit "15") dayDb clock15_later eq_refl
              ltac:(intros fe [<-|[<-|[<-|[]]]]; vm_compute; discriminate))
    as (expense & Hnth & _ & _ & Hsent & _ & Hrouted).
  vm_compute in Hnth. injection Hnth as <-.
  split; [exact Hsent|]. split; [reflexivity|].
  cbn [fe_id] in Hrouted. rewrite Hrouted. reflexivity.
Defined.


Lemma reminder_days_witness :
  reminderDaysValid dayDb /\
  reminderDaysValid
    (fst (handleSetReminderDay asciiToLowerCase dayUser (DayNumber 15) None dayDb)) /\
  reminderDaysValid
    (fst (outcome (processPendingAction asciiToLowerCase asciiToLowerCase dayUser
                     (lit "dia 40") dayDb clock15))).
Proof.
  assert (Hvalid : reminderDaysValid dayDb)
    by (intros fe [<-|[<-|[<-|[]]]]; vm_compute; split; discriminate).
  split; [exact Hvalid|].
  split.
  - exact (proj1 (reminder_days_stay_valid asciiToLowerCase asciiToLowerCase
                    dayUser dayDb clock15 Hvalid) (DayNumber 15) None).
  - exact (proj1 (proj2 (reminder_days_stay_valid asciiToLowerCase asciiToLowerCase
                           dayUser dayDb clock15 Hvalid)) (lit "dia 40")).
Defined.

Lemma account_deletion_witness :
  (forall u,
      In u (users (fst (accountDeletionConfirm asciiToLowerCase healthUser
                          (lit "Confirmar") healthDb)))
      <-> In u (users healthDb) /\ u_id u <> u_id healthUser) /\
  (forall t,
      In t (transactions (fst (accountDeletionConfirm asciiToLowerCase healthUser
                                 (lit "Confirmar") healthDb)))
      <-> In t (transactions healthDb) /\ t_user_id t <> u_id healthUser).
Proof.
  pose proof (account_deletion_only_on_confirmation asciiToLowerCase
                healthUser healthUser (lit "Confirmar") healthDb eq_refl eq_refl) as H.
  split; [exact (proj1 H)|exact (proj1 (proj2 H))].
Defined.

Lemma mark_as_fixed_unique_witness :
  fixedExpensesUnique asciiToLowerCase
    (fst (handleMarkAsFixed asciiToLowerCase suggestionUser suggestionDb clock15)) /\
  (List.length
     (fixed_expenses
        (fst (handleMarkAsFixed asciiToLowerCase suggestionUser suggestionDb clock15)))
   <= S (List.length (fixed_expenses suggestionDb)))%nat.
Proof.
  refine (mark_as_fixed_keeps_descriptions_unique asciiToLowerCase
            suggestionUser suggestionDb clock15 _ _).
  - intros userId description. cbn. lia.
  - intros tx [<-|[<-|[]]] _; discriminate.
Defined.
